(** * Mosaic Vault: the Governor risk engine (src/agents/governor.py)

    A shallow embedding of [CPPIEngine] and [Governor.audit_risk] and the
    properties of the risk engine: the CPPI allocation, the drawdown and the
    traffic-light zones, the all-time-high tracker, the zone-change events
    and the behaviour of an audit when a collaborator or the store fails.

    Numbers.  The Python code computes on [float]; here a float is read as
    the exact rational it denotes ([Q]), so rounding, infinities and NaN are
    outside the model.  Equalities between computed numbers are therefore
    stated with [==] ([Qeq]).  Timestamps ([datetime.now()]) are integers
    handed in by the environment. *)

From Stdlib Require Import QArith Qminmax Qabs Lqa Lia ZArith List String Bool.
Import ListNotations.
Set Warnings "-register-all".
Open Scope Q_scope.

(** ** Python built-ins used by the engine *)

(** [a > b] on numbers. *)
Definition py_gt (a b : Q) : bool := negb (Qle_bool a b).

(** [max(a, b)]: the first argument is kept unless the second is strictly
    greater. *)
Definition py_max (a b : Q) : Q := if py_gt b a then b else a.

(** [min(a, b)]: the first argument is kept unless the second is strictly
    smaller. *)
Definition py_min (a b : Q) : Q := if py_gt a b then b else a.

(** [sum(...)] over a list of numbers, starting from 0, left to right. *)
Definition py_sum (l : list Q) : Q := fold_left Qplus l 0.

(** ** Data model *)

(** [class RiskZone(Enum)] *)
Inductive RiskZone : Type := GREEN | YELLOW | RED.

(** [RiskZone.value] *)
Definition zone_value (z : RiskZone) : string :=
  match z with
  | GREEN => "GREEN"
  | YELLOW => "YELLOW"
  | RED => "RED"
  end%string.

(** [@dataclass PortfolioState] *)
Record PortfolioState : Type := mkPortfolioState {
  total_value : Q;
  peak_value : Q;
  drawdown_pct : Q;
  risk_zone : RiskZone;
  equity_allocation : Q;
  liquid_allocation : Q;
  recommended_action : string;
  timestamp : Z
}.

(** [@dataclass Holding] *)
Record Holding : Type := mkHolding {
  symbol : string;
  quantity : Z;
  avg_price : Q;
  current_price : Q;
  value : Q;
  day_change : Q;
  day_change_pct : Q;
  unrealized_pnl : Q;
  unrealized_pnl_pct : Q
}.

(** The configuration [CPPIEngine.__init__] stores on the instance. *)
Record CPPIConfig : Type := mkCPPIConfig {
  floor_ratio : Q;
  multipliers : RiskZone -> Q
}.

(** The values [__init__] assigns: [floor_ratio = 0.9] and the multipliers
    5.0 / 3.0 / 1.0. *)
Definition default_config : CPPIConfig :=
  {| floor_ratio := 9 # 10;
     multipliers := fun z =>
       match z with GREEN => 5 | YELLOW => 3 | RED => 1 end |}.

(** ** Exceptions and the mutable world

    The engine keeps its state in an SQLite file; the governor keeps
    [last_audit_time] on the instance.  A computation takes the world and
    gives the world it leaves behind together with a value or the message of
    the exception it raised. *)

Inductive Result (A : Type) : Type :=
  | Ok (a : A)
  | Raise (msg : string).
Arguments Ok {A} a.
Arguments Raise {A} msg.

(** The SQL statements an audit issues. *)
Inductive Stmt : Type :=
  | SelectPeak
  | UpdatePeak
  | InsertState
  | SelectPrevZone
  | InsertEvent.

(** A row of [peak_tracker]. *)
Record PeakRow : Type := mkPeakRow {
  pk_id : Z;
  pk_peak_value : Q;
  pk_peak_date : Z;
  pk_updated_at : Z
}.

(** A row of [portfolio_state]; [timestamp] is its primary key and
    [risk_zone] is TEXT. *)
Record StateRow : Type := mkStateRow {
  st_timestamp : Z;
  st_total_value : Q;
  st_peak_value : Q;
  st_drawdown_pct : Q;
  st_risk_zone : string;
  st_equity_allocation : Q;
  st_liquid_allocation : Q;
  st_action_taken : string
}.

(** A row of [risk_events]; [timestamp] is its primary key. *)
Record EventRow : Type := mkEventRow {
  ev_timestamp : Z;
  ev_event_type : string;
  ev_portfolio_value : Q;
  ev_drawdown_pct : Q;
  ev_action_taken : string;
  ev_details : string
}.

(** The database file: the tables in insertion order.  The table
    [holdings_history] is created but never read or written by the engine
    and is left out. *)
Record DB : Type := mkDB {
  peak_tracker : list PeakRow;
  portfolio_state : list StateRow;
  risk_events : list EventRow
}.

(** The world of an audit: the database, the governor's [last_audit_time]
    and, as a ghost field, the write statements committed so far (most
    recent first). *)
Record World : Type := mkWorld {
  store : DB;
  last_audit_time : option Z;
  writes : list Stmt
}.

Definition M (A : Type) : Type := World -> World * Result A.

Definition ret {A : Type} (a : A) : M A := fun w => (w, Ok a).

Definition bind {A B : Type} (c : M A) (k : A -> M B) : M B :=
  fun w =>
    match c w with
    | (w', Ok a) => k a w'
    | (w', Raise msg) => (w', Raise msg)
    end.

Notation "x <- c1 ;; c2" := (bind c1 (fun x => c2))
  (at level 61, c1 at next level, right associativity).
Notation "c1 ;; c2" := (bind c1 (fun _ => c2))
  (at level 61, right associativity).

(** [try: body  except Exception as e: handler(str(e))] *)
Definition try_except {A : Type} (body : M A) (handler : string -> M A) : M A :=
  fun w =>
    match body w with
    | (w', Ok a) => (w', Ok a)
    | (w', Raise msg) => handler msg w'
    end.

(** ** The collaborators of one audit *)

(** What the fetch obtains from a Kite session: either a call on it (or the
    loop over its rows) raises, or the loops of lines 279-373 yield the
    list of holdings and significant positions.  The conversion of the
    broker's rows and the price look-ups are not unfolded. *)
Inductive KiteSession : Type :=
  | SessionRaises (msg : string)
  | SessionHoldings (hs : list Holding).

(** The environment of one audit: the sqlite3 error each statement raises
    (if any), the readings of [datetime.now()] in the places the code takes
    them, and the session [KiteConnect(api_key)] gives for an access token
    ([None] when creating it raises). *)
Record Env : Type := mkEnv {
  fault : Stmt -> option string;
  t_peak_date : Z;
  t_updated_at : Z;
  t_state : Z;
  t_event : Z;
  t_done : Z;
  t_error : Z;
  temp_session : option KiteSession
}.

(** A read statement: raises the environment's fault or returns what the
    query yields on the database. *)
Definition sql_select {A : Type} (env : Env) (s : Stmt) (q : DB -> A) : M A :=
  fun w =>
    match fault env s with
    | Some msg => (w, Raise msg)
    | None => (w, Ok (q (store w)))
    end.

(** A write statement inside [with sqlite3.connect(...)]: on an error the
    transaction is rolled back and the exception propagates; otherwise the
    change is committed. *)
Definition sql_write (env : Env) (s : Stmt) (u : DB -> Result DB) : M unit :=
  fun w =>
    match fault env s with
    | Some msg => (w, Raise msg)
    | None =>
        match u (store w) with
        | Ok db' =>
            ({| store := db';
                last_audit_time := last_audit_time w;
                writes := s :: writes w |}, Ok tt)
        | Raise msg => (w, Raise msg)
        end
    end.

(** ** Python dictionaries returned to the caller *)

Inductive PyVal : Type :=
  | PStr (s : string)
  | PNum (q : Q)
  | PInt (z : Z)
  | PIso (t : Z)                                   (* [t.isoformat()] *)
  | PDicts (rows : list (list (string * PyVal))).

Definition Dict : Type := list (string * PyVal).

(** [d.get(k)] *)
Fixpoint dict_get (k : string) (d : Dict) : option PyVal :=
  match d with
  | [] => None
  | (k', v) :: d' => if String.eqb k k' then Some v else dict_get k d'
  end.

(** ** [class CPPIEngine] *)

Module CPPIEngine.

(** [_calculate_drawdown(current_value, peak_value)] *)
Definition _calculate_drawdown (current_value peak : Q) : Q :=
  if Qeq_bool peak 0 then 0
  else (peak - current_value) / peak.

(** [_determine_risk_zone(drawdown_pct)] *)
Definition _determine_risk_zone (drawdown : Q) : RiskZone :=
  if Qle_bool drawdown (5 # 100) then GREEN
  else if Qle_bool drawdown (8 # 100) then YELLOW
  else RED.

(** The local [cushion] of [_calculate_cppi_allocation]. *)
Definition cushion_of (self : CPPIConfig) (current_value peak : Q) : Q :=
  let floor := floor_ratio self * peak in
  py_max 0 (current_value - floor).

(** [_calculate_cppi_allocation(current_value, peak_value, risk_zone)]:
    the pair (equity allocation, liquid allocation). *)
Definition _calculate_cppi_allocation
    (self : CPPIConfig) (current_value peak : Q) (zone : RiskZone) : Q * Q :=
  let floor := floor_ratio self * peak in
  let cushion := py_max 0 (current_value - floor) in
  let multiplier := multipliers self zone in
  let equity :=
    if py_gt current_value 0
    then py_min 1 ((cushion * multiplier) / current_value)
    else 0 in
  let liquid := 1 - equity in
  (equity, liquid).

(** [_get_recommended_action(risk_zone, equity_allocation)] *)
Definition _get_recommended_action (zone : RiskZone) (equity : Q) : string :=
  match zone with
  | RED =>
      if py_gt (3 # 10) equity
      then "EMERGENCY: Liquidate to Liquid BeES immediately"
      else "RED ZONE: Reduce equity exposure to match CPPI allocation"
  | YELLOW => "CAUTION: Trim high-beta positions, move to arbitrage funds"
  | GREEN => "ALL CLEAR: Full equity allocation permitted"
  end%string.

(** [SELECT MAX(id) FROM peak_tracker] *)
Fixpoint max_id (rows : list PeakRow) : option Z :=
  match rows with
  | [] => None
  | r :: rows' =>
      match max_id rows' with
      | None => Some (pk_id r)
      | Some m => Some (Z.max (pk_id r) m)
      end
  end.

(** [SELECT ... FROM peak_tracker ORDER BY id DESC LIMIT 1] *)
Definition top_row (rows : list PeakRow) : option PeakRow :=
  match max_id rows with
  | None => None
  | Some m => find (fun r => Z.eqb (pk_id r) m) rows
  end.

(** The value [_get_peak_value] reads from a database. *)
Definition stored_peak (db : DB) : Q :=
  match top_row (peak_tracker db) with
  | Some r => pk_peak_value r
  | None => 100000
  end.

(** [_initialize_database]: the tables exist; an empty [peak_tracker]
    receives the seed row. *)
Definition _initialize_database (now : Z) (db : DB) : DB :=
  match peak_tracker db with
  | [] =>
      {| peak_tracker := [mkPeakRow 1 100000 now now];
         portfolio_state := portfolio_state db;
         risk_events := risk_events db |}
  | _ :: _ => db
  end.

(** [_get_peak_value()] *)
Definition _get_peak_value (env : Env) : M Q :=
  sql_select env SelectPeak stored_peak.

(** [UPDATE peak_tracker SET ... WHERE id = (SELECT MAX(id) ...)] *)
Definition update_peak_rows (new_value : Q) (date updated : Z)
    (rows : list PeakRow) : list PeakRow :=
  match max_id rows with
  | None => rows
  | Some m =>
      map (fun r =>
             if Z.eqb (pk_id r) m
             then mkPeakRow (pk_id r) new_value date updated
             else r) rows
  end.

(** [_update_peak_value(new_value)] *)
Definition _update_peak_value (env : Env) (new_value : Q) : M unit :=
  current_peak <- _get_peak_value env ;;
  if py_gt new_value current_peak
  then
    sql_write env UpdatePeak (fun db =>
      Ok {| peak_tracker :=
              update_peak_rows new_value (t_peak_date env) (t_updated_at env)
                (peak_tracker db);
            portfolio_state := portfolio_state db;
            risk_events := risk_events db |})
  else ret tt.

(** The row [_save_portfolio_state] writes for a state. *)
Definition state_row (s : PortfolioState) : StateRow :=
  {| st_timestamp := timestamp s;
     st_total_value := total_value s;
     st_peak_value := peak_value s;
     st_drawdown_pct := drawdown_pct s;
     st_risk_zone := zone_value (risk_zone s);
     st_equity_allocation := equity_allocation s;
     st_liquid_allocation := liquid_allocation s;
     st_action_taken := recommended_action s |}.

(** [_save_portfolio_state(state)]: the INSERT fails on a timestamp that is
    already a key. *)
Definition _save_portfolio_state (env : Env) (s : PortfolioState) : M unit :=
  sql_write env InsertState (fun db =>
    if existsb (fun r => Z.eqb (st_timestamp r) (timestamp s)) (portfolio_state db)
    then Raise "UNIQUE constraint failed: portfolio_state.timestamp"
    else Ok {| peak_tracker := peak_tracker db;
               portfolio_state := portfolio_state db ++ [state_row s];
               risk_events := risk_events db |}).

(** [_log_risk_event(event_type, portfolio_value, drawdown_pct,
    action_taken, details)] *)
Definition _log_risk_event (env : Env) (event_type : string)
    (portfolio_value drawdown : Q) (action_taken details : string) : M unit :=
  sql_write env InsertEvent (fun db =>
    if existsb (fun r => Z.eqb (ev_timestamp r) (t_event env)) (risk_events db)
    then Raise "UNIQUE constraint failed: risk_events.timestamp"
    else Ok {| peak_tracker := peak_tracker db;
               portfolio_state := portfolio_state db;
               risk_events := risk_events db ++
                 [mkEventRow (t_event env) event_type portfolio_value drawdown
                    action_taken details] |}).

End CPPIEngine.

(** ** The Governor *)

(** The fields of a [Governor] instance that an audit reads. *)
Record GovernorObj : Type := mkGovernor {
  kite : option KiteSession;
  cppi : CPPIConfig;
  api_key : option string
}.

(** Truth value of an optional string ([None] and the empty string are
    false). *)
Definition truthy (o : option string) : bool :=
  match o with
  | Some s => negb (String.eqb s "")
  | None => false
  end.

Module Governor.

(** [_get_mock_holdings()] *)
Definition _get_mock_holdings : list Holding :=
  [ mkHolding "RELIANCE" 10 2500 2480 24800 (-20) (-8 # 10) (-200) (-8 # 10);
    mkHolding "TCS" 5 3200 3180 15900 (-20) (-6 # 10) (-100) (-6 # 10);
    mkHolding "INFY" 15 1400 1420 21300 20 (14 # 10) 300 (21 # 10) ].

(** The session [fetch_live_holdings] ends up using: a temporary one when an
    access token and an API key are given and it can be created, the
    governor's own otherwise. *)
Definition session_in_use (self : GovernorObj) (env : Env)
    (access_token : option string) : option KiteSession :=
  if truthy access_token && truthy (api_key self)
  then match temp_session env with
       | Some s => Some s
       | None => kite self
       end
  else kite self.

(** [fetch_live_holdings(access_token)] *)
Definition fetch_live_holdings (self : GovernorObj) (env : Env)
    (access_token : option string) : list Holding :=
  match session_in_use self env access_token with
  | None => _get_mock_holdings
  | Some (SessionRaises _) => _get_mock_holdings
  | Some (SessionHoldings hs) => hs
  end.

(** [ORDER BY timestamp DESC]: insertion into a list sorted by decreasing
    timestamp. *)
Fixpoint insert_desc (r : StateRow) (l : list StateRow) : list StateRow :=
  match l with
  | [] => [r]
  | x :: l' =>
      if Z.ltb (st_timestamp x) (st_timestamp r)
      then r :: x :: l'
      else x :: insert_desc r l'
  end.

Definition order_by_timestamp_desc (l : list StateRow) : list StateRow :=
  fold_right insert_desc [] l.

(** [SELECT risk_zone FROM portfolio_state ORDER BY timestamp DESC
    LIMIT 1 OFFSET 1] followed by [fetchone()]. *)
Definition select_prev_zone (db : DB) : option string :=
  option_map st_risk_zone
    (nth_error (order_by_timestamp_desc (portfolio_state db)) 1).

(** [_check_zone_changes(state)] *)
Definition _check_zone_changes (env : Env) (state : PortfolioState) : M unit :=
  result <- sql_select env SelectPrevZone select_prev_zone ;;
  match result with
  | Some prev_zone =>
      if negb (String.eqb prev_zone (zone_value (risk_zone state)))
      then
        CPPIEngine._log_risk_event env "ZONE_CHANGE"
          (total_value state) (drawdown_pct state) (recommended_action state)
          ("Zone changed from " ++ prev_zone ++ " to "
             ++ zone_value (risk_zone state))
      else ret tt
  | None => ret tt
  end.

(** Lines 426-450 of [audit_risk]: from the total value and the peak in use
    to the [PortfolioState]. *)
Definition assess (self : CPPIConfig) (total peak : Q) (now : Z)
    : PortfolioState :=
  let drawdown := CPPIEngine._calculate_drawdown total peak in
  let zone := CPPIEngine._determine_risk_zone drawdown in
  let '(equity, liquid) :=
    CPPIEngine._calculate_cppi_allocation self total peak zone in
  let action := CPPIEngine._get_recommended_action zone equity in
  {| total_value := total;
     peak_value := peak;
     drawdown_pct := drawdown;
     risk_zone := zone;
     equity_allocation := equity;
     liquid_allocation := liquid;
     recommended_action := action;
     timestamp := now |}.

(** One entry of the ['holdings'] list of the response. *)
Definition holding_dict (h : Holding) : Dict :=
  [ ("symbol", PStr (symbol h));
    ("quantity", PInt (quantity h));
    ("current_price", PNum (current_price h));
    ("value", PNum (value h));
    ("day_change_pct", PNum (day_change_pct h));
    ("unrealized_pnl", PNum (unrealized_pnl h));
    ("unrealized_pnl_pct", PNum (unrealized_pnl_pct h)) ]%string.

(** The response dictionary of a completed audit (lines 459-482). *)
Definition response_of (self : CPPIConfig) (state : PortfolioState)
    (holdings : list Holding) : Dict :=
  [ ("status", PStr (zone_value (risk_zone state)));
    ("total_value", PNum (total_value state));
    ("peak_value", PNum (peak_value state));
    ("drawdown_pct", PNum (drawdown_pct state * 100));
    ("floor_value", PNum (peak_value state * floor_ratio self));
    ("cushion",
       PNum (py_max 0 (total_value state - peak_value state * floor_ratio self)));
    ("equity_allocation_target", PNum (equity_allocation state * 100));
    ("liquid_allocation_target", PNum (liquid_allocation state * 100));
    ("action", PStr (recommended_action state));
    ("holdings", PDicts (map holding_dict holdings));
    ("timestamp", PIso (timestamp state)) ]%string.

(** The dictionary of the [except] branch (lines 492-496). *)
Definition error_response (env : Env) (msg : string) : Dict :=
  [ ("status", PStr "ERROR");
    ("error", PStr msg);
    ("timestamp", PIso (t_error env)) ]%string.

(** [self.last_audit_time = datetime.now()] *)
Definition set_last_audit_time (now : Z) : M unit :=
  fun w =>
    ({| store := store w;
        last_audit_time := Some now;
        writes := writes w |}, Ok tt).

(** Lines 422-424 of [audit_risk]: read the peak, update it with the total
    value and take the larger of the two as the peak in use. *)
Definition refresh_peak (env : Env) (total : Q) : M Q :=
  peak_read <- CPPIEngine._get_peak_value env ;;
  CPPIEngine._update_peak_value env total ;;
  ret (py_max peak_read total).

(** The body of the [try] block of [audit_risk]. *)
Definition audit_body (self : GovernorObj) (env : Env)
    (access_token : option string) : M Dict :=
  let holdings := fetch_live_holdings self env access_token in
  let total := py_sum (map value holdings) in
  peak <- refresh_peak env total ;;
  let state := assess (cppi self) total peak (t_state env) in
  CPPIEngine._save_portfolio_state env state ;;
  _check_zone_changes env state ;;
  let response := response_of (cppi self) state holdings in
  set_last_audit_time (t_done env) ;;
  ret response.

(** [audit_risk(access_token)] *)
Definition audit_risk (self : GovernorObj) (env : Env)
    (access_token : option string) : M Dict :=
  try_except (audit_body self env access_token)
    (fun msg => ret (error_response env msg)).

End Governor.

(** ** What an audit computes and writes *)

(** The total value an audit works with. *)
Definition audit_total (self : GovernorObj) (env : Env)
    (access_token : option string) : Q :=
  py_sum (map value (Governor.fetch_live_holdings self env access_token)).

(** The state an audit computes when it starts in world [w]. *)
Definition audit_state (self : GovernorObj) (env : Env)
    (access_token : option string) (w : World) : PortfolioState :=
  let total := audit_total self env access_token in
  Governor.assess (cppi self) total
    (py_max (CPPIEngine.stored_peak (store w)) total) (t_state env).

(** The row [_check_zone_changes] logs when the previous zone differs. *)
Definition zone_change_row (env : Env) (state : PortfolioState)
    (prev_zone : string) : EventRow :=
  mkEventRow (t_event env) "ZONE_CHANGE"
    (total_value state) (drawdown_pct state) (recommended_action state)
    ("Zone changed from " ++ prev_zone ++ " to " ++ zone_value (risk_zone state)).

(** The world after the INSERT of a state row, and of an event row. *)
Definition world_with_state (w : World) (r : StateRow) : World :=
  {| store := mkDB (peak_tracker (store w)) (portfolio_state (store w) ++ [r])
                (risk_events (store w));
     last_audit_time := last_audit_time w;
     writes := InsertState :: writes w |}.

Definition world_with_event (w : World) (e : EventRow) : World :=
  {| store := mkDB (peak_tracker (store w)) (portfolio_state (store w))
                (risk_events (store w) ++ [e]);
     last_audit_time := last_audit_time w;
     writes := InsertEvent :: writes w |}.

(** The world after [self.last_audit_time = now]. *)
Definition world_done (w : World) (now : Z) : World :=
  {| store := store w; last_audit_time := Some now; writes := writes w |}.

(** The world [_check_zone_changes] leaves when its statements succeed. *)
Definition world_after_check (env : Env) (state : PortfolioState) (w : World)
    : World :=
  match Governor.select_prev_zone (store w) with
  | Some prev =>
      if String.eqb prev (zone_value (risk_zone state))
      then w
      else world_with_event w (zone_change_row env state prev)
  | None => w
  end.

(** A sequence of [_update_peak_value] calls, each in its own environment;
    a call that raises leaves the world as it found it. *)
Fixpoint run_updates (calls : list (Env * Q)) (w : World) : World :=
  match calls with
  | [] => w
  | (env, v) :: calls' =>
      run_updates calls' (fst (CPPIEngine._update_peak_value env v w))
  end.

(** ** The vocabulary of the specification *)

(** The drawdown in the words of the specification:
    [peak == 0 -> 0], else [max(0, (peak - value) / peak)]. *)
Definition spec_drawdown (v peak : Q) : Q :=
  if Qeq_bool peak 0 then 0 else Qmax 0 ((peak - v) / peak).

(** [last_recorded_zone()] in the words of the specification: the zone of
    the most recently written state record before the current write, [None]
    on an empty ledger. *)
Definition spec_last_recorded_zone (db : DB) : option string :=
  option_map st_risk_zone (last (map Some (portfolio_state db)) None).

(** The collaborator cannot supply the holdings: there is no session, or the
    session raises. *)
Definition valuation_unavailable (self : GovernorObj) (env : Env)
    (access_token : option string) : Prop :=
  Governor.session_in_use self env access_token = None \/
  exists msg, Governor.session_in_use self env access_token
                = Some (SessionRaises msg).

(** Rows in the order of their timestamps, strictly increasing. *)
Fixpoint chronological (l : list StateRow) : Prop :=
  match l with
  | [] => True
  | r :: l' =>
      (forall r', In r' l' -> (st_timestamp r < st_timestamp r')%Z) /\
      chronological l'
  end.

(** No row of the ledger, or of the events, has the key [t]. *)
Definition state_key_free (t : Z) (db : DB) : Prop :=
  existsb (fun r => Z.eqb (st_timestamp r) t) (portfolio_state db) = false.

Definition event_key_free (t : Z) (db : DB) : Prop :=
  existsb (fun r => Z.eqb (ev_timestamp r) t) (risk_events db) = false.

(** ** Worlds and environments used in examples *)

Definition empty_db : DB :=
  {| peak_tracker := []; portfolio_state := []; risk_events := [] |}.

(** The database a first [CPPIEngine()] leaves behind. *)
Definition fresh_db : DB := CPPIEngine._initialize_database 0 empty_db.

Definition fresh_world : World :=
  {| store := fresh_db; last_audit_time := None; writes := [] |}.

(** An environment whose store works, with every clock reading at [t]. *)
Definition calm_env (t : Z) : Env :=
  {| fault := fun _ => None;
     t_peak_date := t; t_updated_at := t; t_state := t;
     t_event := t; t_done := t; t_error := t;
     temp_session := None |}.

(** The environment [calm_env t] with one statement failing. *)
Definition failing_env (t : Z) (s : Stmt) (msg : string) : Env :=
  {| fault := fun s' =>
       match s, s' with
       | SelectPeak, SelectPeak | UpdatePeak, UpdatePeak
       | InsertState, InsertState | SelectPrevZone, SelectPrevZone
       | InsertEvent, InsertEvent => Some msg
       | _, _ => None
       end;
     t_peak_date := t; t_updated_at := t; t_state := t;
     t_event := t; t_done := t; t_error := t;
     temp_session := None |}.

(** A governor whose session supplies a single holding worth [v]. *)
Definition governor_holding (v : Q) : GovernorObj :=
  {| kite := Some (SessionHoldings [mkHolding "X" 1 v v v 0 0 0 0]);
     cppi := default_config;
     api_key := None |}.

(** A governor without a Kite session. *)
Definition governor_offline : GovernorObj :=
  {| kite := None; cppi := default_config; api_key := None |}.

(** A governor whose session supplies the mock holdings as if they were the
    broker's. *)
Definition governor_mock (c : CPPIConfig) : GovernorObj :=
  {| kite := Some (SessionHoldings Governor._get_mock_holdings);
     cppi := c;
     api_key := None |}.

(** Three audits in a row on a fresh database: 100000, 100000, 94000
    (zones GREEN, GREEN, YELLOW). *)
Definition green_green_yellow : World :=
  let w1 := fst (Governor.audit_risk (governor_holding 100000) (calm_env 1)
                   None fresh_world) in
  let w2 := fst (Governor.audit_risk (governor_holding 100000) (calm_env 2)
                   None w1) in
  fst (Governor.audit_risk (governor_holding 94000) (calm_env 3) None w2).

(** ** [Governor.__init__] and the module-level functions *)

Module Entry.

(** [Governor(kite_session)]: the governor holds the session and a new
    [CPPIEngine()], whose constructor initialises the database at time
    [now] (taken to succeed); no credentials are set. *)
Definition new_governor (kite_session : option KiteSession) (now : Z)
    : M GovernorObj :=
  fun w =>
    ({| store := CPPIEngine._initialize_database now (store w);
        last_audit_time := None;
        writes := writes w |},
     Ok {| kite := kite_session; cppi := default_config; api_key := None |}).

(** The module-level [audit_risk(kite_session)]. *)
Definition audit_risk (kite_session : option KiteSession) (now : Z) (env : Env)
    : M Dict :=
  governor <- new_governor kite_session now ;;
  Governor.audit_risk governor env None.

End Entry.

(** ** Prices and the rows of the broker's reply *)

(** [s.endswith(suffix)] *)
Fixpoint ends_with (s suffix : string) : bool :=
  if String.eqb s suffix then true
  else match s with
       | EmptyString => false
       | String _ s' => ends_with s' suffix
       end.

(** A field of a row as the loops of [fetch_live_holdings] see it: the key
    is absent; or the conversion applied to it ([int(...)], [float(...)])
    raises [ValueError] or [TypeError] (a string that is no number, [None],
    [int] of a NaN); or the conversion raises [OverflowError] ([int] of an
    infinite float, [float] of an integer too large for a float); or it
    converts to a number. *)
Inductive Field (A : Type) : Type :=
  | Absent
  | Invalid
  | Overflows
  | Valid (a : A).
Arguments Absent {A}.
Arguments Invalid {A}.
Arguments Overflows {A}.
Arguments Valid {A} a.

(** How the body of one of the two loops ends for a row: normally, with a
    value; with one of the exceptions the loop's own handler catches
    ([KeyError], [ValueError], [TypeError], lines 324 and 368), after which
    the loop goes on; or with any other exception, which leaves the loop
    and reaches the handler of lines 375-378. *)
Inductive Outcome (A : Type) : Type :=
  | Got (a : A)
  | Caught (msg : string)
  | Escapes (msg : string).
Arguments Got {A} a.
Arguments Caught {A} msg.
Arguments Escapes {A} msg.

(** [conv(row[key])]: a missing key raises [KeyError]. *)
Definition required {A : Type} (f : Field A) : Outcome A :=
  match f with
  | Absent => Caught "KeyError"
  | Invalid => Caught "ValueError"
  | Overflows => Escapes "OverflowError"
  | Valid a => Got a
  end.

(** [conv(row.get(key, default))] *)
Definition optional {A : Type} (f : Field A) (default : A) : Outcome A :=
  match f with
  | Absent => Got default
  | Invalid => Caught "ValueError"
  | Overflows => Escapes "OverflowError"
  | Valid a => Got a
  end.

Definition and_then {A B : Type} (r : Outcome A) (k : A -> Outcome B) : Outcome B :=
  match r with
  | Got a => k a
  | Caught msg => Caught msg
  | Escapes msg => Escapes msg
  end.

Notation "'let?' x := r 'in' k" := (and_then r (fun x => k))
  (at level 10, x name, r at level 100, k at level 200).

(** The conversion of an integer operand of a product with a float
    ([quantity * current_price]): an integer that rounds to 2^1024 or beyond
    raises [OverflowError] (int too large to convert to float). *)
Definition float_of_int (z : Z) : Outcome Q :=
  if (Z.abs z <? 2 ^ 1024 - 2 ^ 970)%Z then Got (inject_Z z)
  else Escapes "OverflowError".

(** An element of the lists of the reply: a dictionary, or anything else
    ([None], a list, a string, a number). *)
Inductive Row (A : Type) : Type :=
  | NotADict
  | DictRow (fields : A).
Arguments NotADict {A}.
Arguments DictRow {A} fields.

(** A row of [kite.holdings()]. *)
Record RawHolding : Type := mkRawHolding {
  rh_tradingsymbol : option string;
  rh_quantity : Field Z;
  rh_average_price : Field Q;
  rh_last_price : Field Q;
  rh_close_price : Field Q
}.

(** A row of [kite.positions()['net']]. *)
Record RawPosition : Type := mkRawPosition {
  rp_tradingsymbol : option string;
  rp_quantity : Field Z;
  rp_average_price : Field Q;
  rp_last_price : Field Q;
  rp_day_change : Field Q;
  rp_day_change_percentage : Field Q;
  rp_pnl : Field Q
}.

Module Fetch.

(** The Yahoo symbol [_get_current_price] asks for. *)
Definition yahoo_symbol (sym : string) : string :=
  if negb (ends_with sym ".NS") then sym ++ ".NS" else sym.

(** [_get_current_price(symbol)]; [yf] is the last close Yahoo gives for a
    symbol, [None] when it has no rows or the request raises. *)
Definition _get_current_price (yf : string -> option Q) (sym : string) : Q :=
  match yf (yahoo_symbol sym) with
  | Some price => price
  | None => 0
  end.

(** The price a row is valued at: its [last_price], or Yahoo's when that is
    not positive. *)
Definition price_of (yf : string -> option Q) (sym : string) (last_price : Q) : Q :=
  if Qle_bool last_price 0 then _get_current_price yf sym else last_price.

(** The body of the loop over [holdings_data] with its handler (lines
    283-326): the holding to append, [None] when the row is passed over by
    [continue] or by a price that is not positive.  An element that is not a
    dictionary raises [TypeError] at line 284, and the handler itself then
    raises [AttributeError] at [holding.get], line 325. *)
Definition holding_of_row (yf : string -> option Q) (row : Row RawHolding)
    : Outcome (option Holding) :=
  match row with
  | NotADict => Escapes "AttributeError"
  | DictRow row =>
      match rh_tradingsymbol row with
      | None => Caught "KeyError"
      | Some sym =>
          let? qty := required (rh_quantity row) in
          if (qty <=? 0)%Z then Got None
          else
            let? avg := required (rh_average_price row) in
            let? last_price := optional (rh_last_price row) 0 in
            let price := price_of yf sym last_price in
            if py_gt price 0
            then
              let? quantity := float_of_int qty in
              let val := quantity * price in
              let? prev_close := optional (rh_close_price row) price in
              let change := price - prev_close in
              let change_pct :=
                if py_gt prev_close 0 then (change / prev_close) * 100 else 0 in
              let pnl := (price - avg) * quantity in
              let pnl_pct :=
                if py_gt avg 0 then ((price - avg) / avg) * 100 else 0 in
              Got (Some (mkHolding sym qty avg price val change change_pct pnl pnl_pct))
            else Got None
      end
  end.

(** The loop over [holdings_data] (lines 282-326): a row whose body raises
    one of the caught exceptions is logged and passed over; any other
    exception ends the loop, and with it the [try] of line 267. *)
Fixpoint process_holdings (yf : string -> option Q) (rows : list (Row RawHolding))
    : Result (list Holding) :=
  match rows with
  | [] => Ok []
  | row :: rows' =>
      match holding_of_row yf row with
      | Got (Some h) =>
          match process_holdings yf rows' with
          | Ok holdings => Ok (h :: holdings)
          | Raise msg => Raise msg
          end
      | Got None | Caught _ => process_holdings yf rows'
      | Escapes msg => Raise msg
      end
  end.

(** The body of the loop over [net_positions] with its handler (lines
    330-370), given the holdings collected so far. *)
Definition position_of_row (yf : string -> option Q) (holdings : list Holding)
    (row : Row RawPosition) : Outcome (option Holding) :=
  match row with
  | NotADict => Escapes "AttributeError"
  | DictRow row =>
      match rp_tradingsymbol row with
      | None => Caught "KeyError"
      | Some sym =>
          let? qty := required (rp_quantity row) in
          if (qty =? 0)%Z || existsb (fun h => String.eqb (symbol h) sym) holdings
          then Got None
          else
            let? avg := required (rp_average_price row) in
            let? last_price := optional (rp_last_price row) 0 in
            let price := price_of yf sym last_price in
            if py_gt price 0
            then
              let? quantity := float_of_int qty in
              if py_gt (Qabs (quantity * price)) 1000
              then
                let val := quantity * price in
                let? change := optional (rp_day_change row) 0 in
                let? change_pct := optional (rp_day_change_percentage row) 0 in
                let? pnl := optional (rp_pnl row) 0 in
                let pnl_pct :=
                  if py_gt avg 0 then (pnl / Qabs (avg * quantity)) * 100 else 0 in
                Got (Some (mkHolding (sym ++ "*") qty avg price val change change_pct
                             pnl pnl_pct))
              else Got None
            else Got None
      end
  end.

(** The loop over [net_positions] (lines 329-370), appending to
    [holdings]. *)
Fixpoint process_positions (yf : string -> option Q) (rows : list (Row RawPosition))
    (holdings : list Holding) : Result (list Holding) :=
  match rows with
  | [] => Ok holdings
  | row :: rows' =>
      match position_of_row yf holdings row with
      | Got (Some h) => process_positions yf rows' (holdings ++ [h])
      | Got None | Caught _ => process_positions yf rows' holdings
      | Escapes msg => Raise msg
      end
  end.

(** Lines 279-373: the list the two loops build for a reply, or the
    exception that leaves them. *)
Definition process_reply (yf : string -> option Q)
    (holdings_data : list (Row RawHolding)) (net_positions : list (Row RawPosition))
    : Result (list Holding) :=
  match process_holdings yf holdings_data with
  | Ok holdings => process_positions yf net_positions holdings
  | Raise msg => Raise msg
  end.

(** What the two calls on a session give: an exception (also when what they
    return is not a list and a dictionary), or the elements of [holdings()]
    and of [positions().get('net', [])]. *)
Inductive KiteReply : Type :=
  | ReplyRaises (msg : string)
  | Reply (holdings_data : list (Row RawHolding))
          (net_positions : list (Row RawPosition)).

(** The session as [fetch_live_holdings] sees it for a reply: an exception
    that leaves the loops is one that the [try] of line 267 raises. *)
Definition session_of_reply (yf : string -> option Q) (r : KiteReply)
    : KiteSession :=
  match r with
  | ReplyRaises msg => SessionRaises msg
  | Reply hs ps =>
      match process_reply yf hs ps with
      | Ok holdings => SessionHoldings holdings
      | Raise msg => SessionRaises msg
      end
  end.

End Fetch.

(** A row that the loop over [holdings_data] passes over whatever the
    prices: a dictionary with no symbol, or no quantity, or a quantity whose
    conversion raises [ValueError] or [TypeError], or a quantity of zero or
    less. *)
Definition unusable_holding (row : RawHolding) : Prop :=
  rh_tradingsymbol row = None \/
  rh_quantity row = Absent \/
  rh_quantity row = Invalid \/
  exists q, rh_quantity row = Valid q /\ (q <= 0)%Z.

(** ** Portfolio beta and the health summary *)

(** What Yahoo's histories give [get_portfolio_beta] for one stock: a request
    raises, the data are too short (or the variance of the index is not
    positive) and the stock is passed over, or the ratio of covariance to
    variance is [b].  The statistics on the price series are not
    unfolded. *)
Inductive BetaData : Type :=
  | BetaRaises (msg : string)
  | BetaNoData
  | BetaOf (b : Q).

(** The market data of one call: whether the request for the index raises,
    and the data for each Yahoo symbol. *)
Record Market : Type := mkMarket {
  nifty_raises : option string;
  stock_beta : string -> BetaData
}.

(** The values of the health dictionary: those of [PyVal], booleans and
    [None]. *)
Inductive HealthVal : Type :=
  | HPy (v : PyVal)
  | HBool (b : bool)
  | HNone.

Definition HealthDict : Type := list (string * HealthVal).

Fixpoint health_get (k : string) (d : HealthDict) : option HealthVal :=
  match d with
  | [] => None
  | (k', v) :: d' => if String.eqb k k' then Some v else health_get k d'
  end.

(** [d[k]]: a missing key raises [KeyError]. *)
Definition dict_item (k : string) (d : Dict) : M PyVal :=
  match dict_get k d with
  | Some v => ret v
  | None => fun w => (w, Raise ("'" ++ k ++ "'"))
  end.

(** [d.get(k, default)] *)
Definition dict_get_default (k : string) (d : Dict) (default : PyVal) : PyVal :=
  match dict_get k d with
  | Some v => v
  | None => default
  end.

(** [v == 'RED'] *)
Definition is_red (v : PyVal) : bool :=
  match v with
  | PStr s => String.eqb s "RED"
  | _ => false
  end.

Module Health.

(** The loop of [get_portfolio_beta] (lines 535-556). *)
Fixpoint beta_loop (market : Market) (total : Q) (holdings : list Holding)
    (portfolio_beta : Q) : Result Q :=
  match holdings with
  | [] => Ok portfolio_beta
  | h :: holdings' =>
      let weight := value h / total in
      match stock_beta market (symbol h ++ ".NS") with
      | BetaRaises msg => Raise msg
      | BetaNoData => beta_loop market total holdings' portfolio_beta
      | BetaOf b =>
          beta_loop market total holdings' (portfolio_beta + weight * b)
      end
  end.

(** [get_portfolio_beta()] *)
Definition get_portfolio_beta (self : GovernorObj) (env : Env)
    (market : Market) : Q :=
  let holdings := Governor.fetch_live_holdings self env None in
  let total := py_sum (map value holdings) in
  if Qeq_bool total 0 then 0
  else
    match nifty_raises market with
    | Some _ => 1
    | None =>
        match beta_loop market total holdings 0 with
        | Ok portfolio_beta => portfolio_beta
        | Raise _ => 1
        end
    end.

(** [get_health_summary()]; [self_later] is the governor as the second
    fetch, inside [get_portfolio_beta], finds it. *)
Definition get_health_summary (self self_later : GovernorObj) (env : Env)
    (market : Market) : M HealthDict :=
  try_except
    (audit_result <- Governor.audit_risk self env None ;;
     let portfolio_beta := get_portfolio_beta self_later env market in
     status <- dict_item "status" audit_result ;;
     fun w =>
       (w, Ok [ ("vault_health", HPy status);
                ("portfolio_value",
                   HPy (dict_get_default "total_value" audit_result (PInt 0)));
                ("drawdown",
                   HPy (dict_get_default "drawdown_pct" audit_result (PInt 0)));
                ("portfolio_beta", HPy (PNum portfolio_beta));
                ("last_audit",
                   match last_audit_time w with
                   | Some t => HPy (PIso t)
                   | None => HNone
                   end);
                ("emergency_action_required", HBool (is_red status)) ]%string))
    (fun msg => ret [ ("vault_health", HPy (PStr "ERROR"));
                      ("error", HPy (PStr msg)) ]%string).

End Health.

(** ** The terminal dashboard (dashboard.py) *)

(** [sub in s] *)
Fixpoint contains (sub s : string) : bool :=
  if String.prefix sub s then true
  else match s with
       | EmptyString => false
       | String _ s' => contains sub s'
       end.

(** [s.lower()] on ASCII text. *)
Definition lower_char (c : Ascii.ascii) : Ascii.ascii :=
  let n := Ascii.nat_of_ascii c in
  if (65 <=? n)%nat && (n <=? 90)%nat then Ascii.ascii_of_nat (n + 32) else c.

Fixpoint py_lower (s : string) : string :=
  match s with
  | EmptyString => EmptyString
  | String c s' => String (lower_char c) (py_lower s')
  end.

Module Dashboard.

(** The [risk_data] that [_fetch_portfolio_data] derives from an audit
    result. *)
Definition risk_data_of (audit_result : Dict) : Dict :=
  [ ("zone", dict_get_default "status" audit_result (PStr "UNKNOWN"));
    ("total_value", dict_get_default "total_value" audit_result (PInt 0));
    ("drawdown", dict_get_default "drawdown_pct" audit_result (PInt 0));
    ("floor_value", dict_get_default "floor_value" audit_result (PInt 0));
    ("cushion", dict_get_default "cushion" audit_result (PInt 0));
    ("equity_target",
       dict_get_default "equity_allocation_target" audit_result (PInt 0));
    ("action",
       dict_get_default "action" audit_result (PStr "No action required")) ]%string.


(** [action_color] in [_create_intelligence_panel]. *)
Definition action_color (action : string) : string :=
  if contains "green" (py_lower action) then "green"
  else if contains "caution" (py_lower action) then "yellow"
  else "red".

End Dashboard.

(** ** The web route [/api/portfolio] (simple_web.py) *)

Module SimpleWeb.

(** [api_portfolio()]: the JSON body and the HTTP status; [cookie] is
    [request.cookies.get('kite_access_token')]. *)
Definition api_portfolio (governor : option GovernorObj) (env : Env)
    (cookie : option string) : M (Dict * Z) :=
  try_except
    (match governor with
     | Some g =>
         if truthy cookie
         then portfolio_data <- Governor.audit_risk g env cookie ;;
              ret (portfolio_data, 200%Z)
         else portfolio_data <- Governor.audit_risk g env None ;;
              ret (portfolio_data, 200%Z)
     | None => ret ([("error", PStr "Governor not initialized")]%string, 500%Z)
     end)
    (fun msg => ret ([("error", PStr msg)]%string, 500%Z)).

End SimpleWeb.

(** ** Runs of audits and the ledger *)

(** The number of places where two consecutive zones differ. *)
Fixpoint zone_transitions (zones : list string) : nat :=
  match zones with
  | [] => 0
  | a :: rest =>
      match rest with
      | [] => 0
      | b :: _ => (if String.eqb a b then 0 else 1) + zone_transitions rest
      end
  end.

(** One audit after the other, each by its governor in its environment. *)
Fixpoint run_audits (steps : list (GovernorObj * Env * option string))
    (w : World) : World :=
  match steps with
  | [] => w
  | (g, env, token) :: steps' =>
      run_audits steps' (fst (Governor.audit_risk g env token w))
  end.

(** The store works and the clock readings used as keys move on: every
    audit's are at least [T], and the next audit's are later. *)
Fixpoint clock_advances (T : Z) (steps : list (GovernorObj * Env * option string))
    : Prop :=
  match steps with
  | [] => True
  | (_, env, _) :: steps' =>
      (forall s, fault env s = None) /\
      (T <= t_state env)%Z /\ (T <= t_event env)%Z /\
      clock_advances (1 + Z.max (t_state env) (t_event env)) steps'
  end.

(** The ledger is chronological, every key is earlier than [T], and there
    are as many events as zone transitions in the ledger. *)
Definition ledger_inv (T : Z) (w : World) : Prop :=
  chronological (portfolio_state (store w)) /\
  (forall x, In x (portfolio_state (store w)) -> (st_timestamp x < T)%Z) /\
  (forall e, In e (risk_events (store w)) -> (ev_timestamp e < T)%Z) /\
  List.length (risk_events (store w))
    = zone_transitions (map st_risk_zone (portfolio_state (store w))).

(** ** Basic facts about the built-ins *)

Lemma py_gt_true (a b : Q) : py_gt a b = true <-> b < a.
Proof.
  unfold py_gt. rewrite negb_true_iff.
  destruct (Qle_bool a b) eqn:E.
  - apply Qle_bool_iff in E. split; [discriminate | intro; lra].
  - split; [intros _ | reflexivity].
    apply Qnot_le_lt. intro H. apply Qle_bool_iff in H. congruence.
Qed.

Lemma py_gt_false (a b : Q) : py_gt a b = false <-> a <= b.
Proof.
  unfold py_gt. rewrite negb_false_iff. apply Qle_bool_iff.
Qed.

Lemma py_max_Qmax (a b : Q) : py_max a b == Qmax a b.
Proof.
  unfold py_max. destruct (py_gt b a) eqn:E.
  - apply py_gt_true in E. symmetry. apply Q.max_r. lra.
  - apply py_gt_false in E. symmetry. apply Q.max_l. exact E.
Qed.

Lemma py_min_Qmin (a b : Q) : py_min a b == Qmin a b.
Proof.
  unfold py_min. destruct (py_gt a b) eqn:E.
  - apply py_gt_true in E. symmetry. apply Q.min_r. lra.
  - apply py_gt_false in E. symmetry. apply Q.min_l. exact E.
Qed.

Lemma py_max_lower (a b : Q) : a <= py_max a b.
Proof. rewrite py_max_Qmax. apply Q.le_max_l. Qed.

Lemma py_min_upper (a b : Q) : py_min a b <= a.
Proof. rewrite py_min_Qmin. apply Q.le_min_l. Qed.

Lemma py_min_nonneg (a b : Q) : 0 <= a -> 0 <= b -> 0 <= py_min a b.
Proof. intros Ha Hb. unfold py_min. destruct (py_gt a b); assumption. Qed.

Lemma py_max_floor (a b : Q) : b <= a -> py_max a b = a.
Proof.
  intro H. unfold py_max.
  destruct (py_gt b a) eqn:E; [apply py_gt_true in E; lra | reflexivity].
Qed.

Lemma Qdiv_nonneg (a b : Q) : 0 <= a -> 0 < b -> 0 <= a / b.
Proof.
  intros Ha Hb. unfold Qdiv. apply Qmult_le_0_compat; [exact Ha |].
  apply Qlt_le_weak, Qinv_lt_0_compat, Hb.
Qed.

Lemma Qdiv_zero_l (a b : Q) : a == 0 -> a / b == 0.
Proof. intro H. unfold Qdiv. rewrite H. apply Qmult_0_l. Qed.

(** ** The CPPI allocation *)

Section Allocation.

Variable self : CPPIConfig.

(** C1. Floor protection: when the portfolio value is at or below the floor
    [floor_ratio * peak], the cushion is 0 and the equity allocation is 0
    (everything liquid), whatever the zone and its multiplier. *)
Theorem floor_protection (current_value peak : Q) (zone : RiskZone) :
  current_value <= floor_ratio self * peak ->
  CPPIEngine.cushion_of self current_value peak = 0 /\
  fst (CPPIEngine._calculate_cppi_allocation self current_value peak zone) == 0 /\
  snd (CPPIEngine._calculate_cppi_allocation self current_value peak zone) == 1.
Proof.
  intro Hfloor.
  assert (Hc : py_max 0 (current_value - floor_ratio self * peak) = 0)
    by (apply py_max_floor; lra).
  unfold CPPIEngine.cushion_of, CPPIEngine._calculate_cppi_allocation.
  cbn [fst snd]. rewrite Hc.
  split; [reflexivity |].
  assert (He : (if py_gt current_value 0
                then py_min 1 (0 * multipliers self zone / current_value)
                else 0) == 0).
  { destruct (py_gt current_value 0) eqn:Hv; [| reflexivity].
    assert (Hz : 0 * multipliers self zone / current_value == 0)
      by (apply Qdiv_zero_l; ring).
    rewrite py_min_Qmin, Hz. apply Q.min_r. lra. }
  split; [exact He | rewrite He; ring].
Qed.

(** C2. The CPPI formula: for a positive value the equity allocation is
    [min(1, max(0, value - floor_ratio * peak) * multiplier / value)], for a
    value of zero or less it is 0, the liquid allocation is one minus the
    equity allocation, and (the zone's multiplier not being negative) both
    lie between 0 and 1. *)
Theorem cppi_allocation_formula (current_value peak : Q) (zone : RiskZone) :
  0 <= multipliers self zone ->
  let equity :=
    fst (CPPIEngine._calculate_cppi_allocation self current_value peak zone) in
  let liquid :=
    snd (CPPIEngine._calculate_cppi_allocation self current_value peak zone) in
  (0 < current_value ->
     equity == Qmin 1 (Qmax 0 (current_value - floor_ratio self * peak)
                         * multipliers self zone / current_value)) /\
  (current_value <= 0 -> equity = 0) /\
  liquid = 1 - equity /\
  0 <= equity <= 1 /\
  0 <= liquid <= 1.
Proof.
  intros Hm equity liquid. subst equity liquid.
  unfold CPPIEngine._calculate_cppi_allocation. cbn [fst snd].
  set (cushion := py_max 0 (current_value - floor_ratio self * peak)).
  assert (Hc : 0 <= cushion) by apply py_max_lower.
  assert (Hrange :
    0 <= (if py_gt current_value 0
          then py_min 1 (cushion * multipliers self zone / current_value)
          else 0) <= 1).
  { destruct (py_gt current_value 0) eqn:Hv; [| lra].
    apply py_gt_true in Hv. split.
    - apply py_min_nonneg; [lra |].
      apply Qdiv_nonneg; [apply Qmult_le_0_compat; assumption | exact Hv].
    - apply py_min_upper. }
  repeat split; try lra.
  - intro Hv. apply py_gt_true in Hv. rewrite Hv.
    rewrite py_min_Qmin. unfold cushion. rewrite py_max_Qmax. reflexivity.
  - intro Hv. apply py_gt_false in Hv. rewrite Hv. reflexivity.
Qed.

End Allocation.

(** ** Drawdown and zones *)

Lemma drawdown_positive_peak (v peak : Q) :
  0 < peak -> CPPIEngine._calculate_drawdown v peak = (peak - v) / peak.
Proof.
  intro Hp. unfold CPPIEngine._calculate_drawdown.
  destruct (Qeq_bool peak 0) eqn:E; [| reflexivity].
  apply Qeq_bool_iff in E. lra.
Qed.

Lemma Qdiv_le_1 (a b : Q) : 0 < b -> a <= b -> a / b <= 1.
Proof.
  intros Hb Hab. apply Qle_shift_div_r; [exact Hb | lra].
Qed.

Lemma risk_zone_red (drawdown : Q) :
  8 # 100 < drawdown -> CPPIEngine._determine_risk_zone drawdown = RED.
Proof.
  intro H. unfold CPPIEngine._determine_risk_zone.
  destruct (Qle_bool drawdown (5 # 100)) eqn:E5;
    [apply Qle_bool_iff in E5; lra |].
  destruct (Qle_bool drawdown (8 # 100)) eqn:E8;
    [apply Qle_bool_iff in E8; lra | reflexivity].
Qed.

(** C4. Zone classification: GREEN exactly up to 0.05, YELLOW exactly above
    0.05 and up to 0.08, RED exactly above 0.08; the boundary values 0.05
    and 0.08 fall in the lower zone. *)
Theorem zone_classification (drawdown : Q) :
  (CPPIEngine._determine_risk_zone drawdown = GREEN <-> drawdown <= 5 # 100) /\
  (CPPIEngine._determine_risk_zone drawdown = YELLOW
     <-> 5 # 100 < drawdown /\ drawdown <= 8 # 100) /\
  (CPPIEngine._determine_risk_zone drawdown = RED <-> 8 # 100 < drawdown) /\
  CPPIEngine._determine_risk_zone (5 # 100) = GREEN /\
  CPPIEngine._determine_risk_zone (8 # 100) = YELLOW.
Proof.
  unfold CPPIEngine._determine_risk_zone.
  destruct (Qle_bool drawdown (5 # 100)) eqn:E5;
    destruct (Qle_bool drawdown (8 # 100)) eqn:E8;
    try (apply Qle_bool_iff in E5); try (apply Qle_bool_iff in E8);
    try (assert (H5 : 5 # 100 < drawdown)
           by (apply Qnot_le_lt; intro H; apply Qle_bool_iff in H; congruence));
    try (assert (H8 : 8 # 100 < drawdown)
           by (apply Qnot_le_lt; intro H; apply Qle_bool_iff in H; congruence));
    repeat split; intros; try discriminate; try reflexivity; try lra.
Qed.

(** ** The examples of the specification, through the theorems *)

(** Example A: peak 100000, value 85000 is below the floor 90000. *)
Lemma floor_protection_witness :
  85000 <= floor_ratio default_config * 100000 /\
  CPPIEngine.cushion_of default_config 85000 100000 = 0 /\
  fst (CPPIEngine._calculate_cppi_allocation default_config 85000 100000 RED) == 0.
Proof.
  assert (H : 85000 <= floor_ratio default_config * 100000)
    by (vm_compute; discriminate).
  split; [exact H |].
  destruct (floor_protection default_config 85000 100000 RED H) as (Hc & He & _).
  split; [exact Hc | exact He].
Defined.

(** Example B: peak 100000, value 97000 in GREEN gives 35000 / 97000. *)
Lemma cppi_allocation_formula_witness :
  0 <= multipliers default_config GREEN /\
  fst (CPPIEngine._calculate_cppi_allocation default_config 97000 100000 GREEN)
    <= 1.
Proof.
  assert (H : 0 <= multipliers default_config GREEN) by (vm_compute; discriminate).
  split; [exact H |].
  destruct (cppi_allocation_formula default_config 97000 100000 GREEN H)
    as (_ & _ & _ & (_ & Hle) & _).
  exact Hle.
Defined.

(** Example A as an audit sees it: RED, nothing in equity, emergency. *)
Example assessment_example_A :
  let s := Governor.assess default_config 85000 100000 0 in
  risk_zone s = RED /\
  drawdown_pct s == 15 # 100 /\
  equity_allocation s == 0 /\
  recommended_action s
    = "EMERGENCY: Liquidate to Liquid BeES immediately"%string.
Proof. cbv zeta. repeat split. Qed.

(** Example C: a value of 0 gives no equity, and a drawdown of 1. *)
Example assessment_example_C :
  let s := Governor.assess default_config 0 100000 0 in
  equity_allocation s = 0 /\ drawdown_pct s == 1 /\ risk_zone s = RED.
Proof. cbv zeta. repeat split. Qed.

Example allocation_example_B :
  fst (CPPIEngine._calculate_cppi_allocation default_config 97000 100000 GREEN)
    == 35000 # 97000 /\
  snd (CPPIEngine._calculate_cppi_allocation default_config 97000 100000 GREEN)
    == 62000 # 97000.
Proof. split; vm_compute; reflexivity. Qed.

(** ** The peak tracker *)

Lemma max_id_none (rows : list PeakRow) : CPPIEngine.max_id rows = None -> rows = [].
Proof.
  destruct rows as [| r rows']; [reflexivity |].
  cbn. destruct (CPPIEngine.max_id rows'); discriminate.
Qed.

Lemma max_id_attained (rows : list PeakRow) (m : Z) :
  CPPIEngine.max_id rows = Some m ->
  exists r, find (fun r => Z.eqb (pk_id r) m) rows = Some r /\ pk_id r = m.
Proof.
  revert m. induction rows as [| r rows' IH]; intros m Hm; [discriminate |].
  cbn in Hm. cbn [find].
  destruct (Z.eqb (pk_id r) m) eqn:E.
  - exists r. split; [reflexivity | apply Z.eqb_eq, E].
  - apply Z.eqb_neq in E.
    destruct (CPPIEngine.max_id rows') as [m' |] eqn:Hm'.
    + injection Hm as Hm. apply IH. f_equal. lia.
    + injection Hm as Hm. contradiction.
Qed.

Lemma max_id_map_id (f : PeakRow -> PeakRow) (rows : list PeakRow) :
  (forall r, pk_id (f r) = pk_id r) ->
  CPPIEngine.max_id (map f rows) = CPPIEngine.max_id rows.
Proof.
  intro Hf. induction rows as [| r rows' IH]; [reflexivity |].
  cbn. rewrite IH, Hf. reflexivity.
Qed.

Lemma find_map_id (f : PeakRow -> PeakRow) (m : Z) (rows : list PeakRow) :
  (forall r, pk_id (f r) = pk_id r) ->
  find (fun r => Z.eqb (pk_id r) m) (map f rows)
    = option_map f (find (fun r => Z.eqb (pk_id r) m) rows).
Proof.
  intro Hf. induction rows as [| r rows' IH]; [reflexivity |].
  cbn. rewrite Hf. destruct (Z.eqb (pk_id r) m); [reflexivity | exact IH].
Qed.

(** After the UPDATE on a non-empty table the row read back carries the new
    value. *)
Lemma top_row_updated (v : Q) (d u : Z) (rows : list PeakRow) :
  rows <> [] ->
  exists m, CPPIEngine.top_row (CPPIEngine.update_peak_rows v d u rows)
              = Some (mkPeakRow m v d u).
Proof.
  intro Hne. unfold CPPIEngine.update_peak_rows, CPPIEngine.top_row.
  destruct (CPPIEngine.max_id rows) as [m |] eqn:Hm;
    [| apply max_id_none in Hm; contradiction].
  set (f := fun r => if Z.eqb (pk_id r) m then mkPeakRow (pk_id r) v d u else r).
  assert (Hf : forall r, pk_id (f r) = pk_id r).
  { intro r. unfold f. destruct (Z.eqb (pk_id r) m); reflexivity. }
  rewrite (max_id_map_id f rows Hf), Hm, (find_map_id f m rows Hf).
  destruct (max_id_attained rows m Hm) as (r & Hfind & Hid).
  exists m. rewrite Hfind. cbn. unfold f.
  rewrite Hid, Z.eqb_refl. reflexivity.
Qed.

Lemma update_peak_rows_empty (v : Q) (d u : Z) :
  CPPIEngine.update_peak_rows v d u [] = [].
Proof. reflexivity. Qed.

(** What one call of [_update_peak_value] does to the world, case by case. *)
Lemma update_peak_cases (env : Env) (v : Q) (w : World) :
  let cur := CPPIEngine.stored_peak (store w) in
  match CPPIEngine._update_peak_value env v w with
  | (w', Raise msg) =>
      w' = w /\
      (fault env SelectPeak = Some msg \/
       (py_gt v cur = true /\ fault env UpdatePeak = Some msg))
  | (w', Ok _) =>
      fault env SelectPeak = None /\
      ((py_gt v cur = false /\ w' = w) \/
       (py_gt v cur = true /\ fault env UpdatePeak = None /\
        writes w' = UpdatePeak :: writes w /\
        last_audit_time w' = last_audit_time w /\
        portfolio_state (store w') = portfolio_state (store w) /\
        risk_events (store w') = risk_events (store w) /\
        peak_tracker (store w')
          = CPPIEngine.update_peak_rows v (t_peak_date env) (t_updated_at env)
              (peak_tracker (store w))))
  end.
Proof.
  intro cur. subst cur.
  unfold CPPIEngine._update_peak_value, CPPIEngine._get_peak_value, bind, sql_select.
  destruct (fault env SelectPeak) as [m |] eqn:Hsel.
  - split; [reflexivity | left; reflexivity].
  - destruct (py_gt v (CPPIEngine.stored_peak (store w))) eqn:Hgt.
    + unfold sql_write. destruct (fault env UpdatePeak) as [m |] eqn:Hupd.
      * split; [reflexivity | right; split; reflexivity].
      * split; [reflexivity |]. right. cbn. repeat split; reflexivity.
    + unfold ret. split; [reflexivity | left; split; reflexivity].
Qed.

Lemma stored_peak_rows (db db' : DB) :
  peak_tracker db' = peak_tracker db -> CPPIEngine.stored_peak db' = CPPIEngine.stored_peak db.
Proof. intro H. unfold CPPIEngine.stored_peak. rewrite H. reflexivity. Qed.

(** One call never lowers the stored peak. *)
Lemma update_peak_monotone (env : Env) (v : Q) (w : World) :
  CPPIEngine.stored_peak (store w)
    <= CPPIEngine.stored_peak (store (fst (CPPIEngine._update_peak_value env v w))).
Proof.
  pose proof (update_peak_cases env v w) as H. cbv zeta in H.
  destruct (CPPIEngine._update_peak_value env v w) as [w' [[] | msg]]; cbn [fst].
  - destruct H as (_ & [(_ & ->) | (Hgt & _ & _ & _ & _ & _ & Hrows)]); [lra |].
    apply py_gt_true in Hgt.
    destruct (peak_tracker (store w)) as [| r rows] eqn:Hr.
    + rewrite update_peak_rows_empty in Hrows.
      rewrite (stored_peak_rows (store w) (store w'))
        by (rewrite Hrows, Hr; reflexivity). lra.
    + unfold CPPIEngine.stored_peak at 2. rewrite Hrows.
      destruct (top_row_updated v (t_peak_date env) (t_updated_at env) (r :: rows))
        as (m & Hm); [discriminate |].
      rewrite Hm. cbn [pk_peak_value]. lra.
  - destruct H as (-> & _). lra.
Qed.

Lemma py_gt_irrefl (v : Q) : py_gt v v = false.
Proof. apply py_gt_false. lra. Qed.

Lemma db_ext (a b : DB) :
  peak_tracker a = peak_tracker b ->
  portfolio_state a = portfolio_state b ->
  risk_events a = risk_events b ->
  a = b.
Proof. destruct a, b. cbn. intros -> -> ->. reflexivity. Qed.

Lemma stored_peak_of_rows (db : DB) (v : Q) (d u : Z) (rows : list PeakRow) :
  rows <> [] ->
  peak_tracker db = CPPIEngine.update_peak_rows v d u rows ->
  CPPIEngine.stored_peak db = v.
Proof.
  intros Hne Hrows. unfold CPPIEngine.stored_peak. rewrite Hrows.
  destruct (top_row_updated v d u rows Hne) as (m & Hm).
  rewrite Hm. reflexivity.
Qed.

(** A second call with the same value, after a call that returned, leaves
    the world alone. *)
Lemma update_peak_twice (env1 env2 : Env) (v : Q) (w : World) :
  peak_tracker (store w) <> [] ->
  snd (CPPIEngine._update_peak_value env1 v w) = Ok tt ->
  fst (CPPIEngine._update_peak_value env2 v (fst (CPPIEngine._update_peak_value env1 v w)))
    = fst (CPPIEngine._update_peak_value env1 v w).
Proof.
  intros Hne Hok.
  pose proof (update_peak_cases env1 v w) as H1. cbv zeta in H1.
  destruct (CPPIEngine._update_peak_value env1 v w) as [w1 [[] | msg]];
    cbn [fst snd] in *; [| discriminate].
  assert (Hle : py_gt v (CPPIEngine.stored_peak (store w1)) = false).
  { destruct H1 as (_ & [(Hgt & ->) | (_ & _ & _ & _ & _ & _ & Hrows)]);
      [exact Hgt |].
    rewrite (stored_peak_of_rows _ _ _ _ _ Hne Hrows). apply py_gt_irrefl. }
  pose proof (update_peak_cases env2 v w1) as H2. cbv zeta in H2.
  destruct (CPPIEngine._update_peak_value env2 v w1) as [w2 [[] | msg]]; cbn [fst].
  - destruct H2 as (_ & [(_ & ->) | (Hgt & _)]); [reflexivity | congruence].
  - destruct H2 as (-> & _). reflexivity.
Qed.

Lemma run_updates_app (calls1 calls2 : list (Env * Q)) (w : World) :
  run_updates (calls1 ++ calls2) w = run_updates calls2 (run_updates calls1 w).
Proof.
  revert w. induction calls1 as [| [env v] calls1 IH]; intro w; [reflexivity |].
  cbn. apply IH.
Qed.

Lemma run_updates_monotone (calls : list (Env * Q)) (w : World) :
  CPPIEngine.stored_peak (store w)
    <= CPPIEngine.stored_peak (store (run_updates calls w)).
Proof.
  revert w. induction calls as [| [env v] calls IH]; intro w; cbn.
  - lra.
  - eapply Qle_trans; [apply (update_peak_monotone env v w) | apply IH].
Qed.

(** C5. The stored peak never decreases along any sequence of update calls,
    whatever the values and whether or not calls fail; and of two calls
    with the same value at most one changes the database: after a first
    call that returned on an initialised table, the second performs no
    write and leaves the world as it is. *)
Theorem peak_monotone_idempotent :
  (forall calls1 calls2 w,
     CPPIEngine.stored_peak (store (run_updates calls1 w))
       <= CPPIEngine.stored_peak (store (run_updates (calls1 ++ calls2) w))) /\
  (forall env1 env2 v w,
     let w1 := fst (CPPIEngine._update_peak_value env1 v w) in
     let w2 := fst (CPPIEngine._update_peak_value env2 v w1) in
     store w1 = store w \/ store w2 = store w1) /\
  (forall env1 env2 v w,
     peak_tracker (store w) <> [] ->
     snd (CPPIEngine._update_peak_value env1 v w) = Ok tt ->
     let w1 := fst (CPPIEngine._update_peak_value env1 v w) in
     let w2 := fst (CPPIEngine._update_peak_value env2 v w1) in
     w2 = w1 /\ writes w2 = writes w1).
Proof.
  split; [| split].
  - intros calls1 calls2 w. rewrite run_updates_app. apply run_updates_monotone.
  - intros env1 env2 v w w1 w2. subst w2 w1.
    pose proof (update_peak_cases env1 v w) as H1. cbv zeta in H1.
    pose proof (update_peak_twice env1 env2 v w) as H2.
    destruct (CPPIEngine._update_peak_value env1 v w) as [w' [[] | msg]];
      cbn [fst snd] in *.
    + destruct (peak_tracker (store w)) as [| r rows] eqn:Hrows.
      * left.
        destruct H1 as (_ & [(_ & ->) | (_ & _ & _ & _ & Hst & Hev & Hpk)]);
          [reflexivity |].
        apply db_ext; [| exact Hst | exact Hev].
        rewrite Hpk, Hrows. reflexivity.
      * right. rewrite H2; [reflexivity | discriminate | reflexivity].
    + left. destruct H1 as (-> & _). reflexivity.
  - intros env1 env2 v w Hne Hok w1 w2. subst w1 w2.
    rewrite (update_peak_twice env1 env2 v w Hne Hok). split; reflexivity.
Qed.

(** Two updates with 120000 on a fresh database: the first raises the peak
    from 100000, the second writes nothing. *)
Lemma peak_monotone_idempotent_witness :
  peak_tracker (store fresh_world) <> [] /\
  snd (CPPIEngine._update_peak_value (calm_env 1) 120000 fresh_world) = Ok tt /\
  let w1 := fst (CPPIEngine._update_peak_value (calm_env 1) 120000 fresh_world) in
  let w2 := fst (CPPIEngine._update_peak_value (calm_env 2) 120000 w1) in
  w2 = w1 /\ writes w2 = writes w1.
Proof.
  assert (Hne : peak_tracker (store fresh_world) <> []) by discriminate.
  assert (Hok : snd (CPPIEngine._update_peak_value (calm_env 1) 120000 fresh_world)
                = Ok tt) by reflexivity.
  split; [exact Hne |]. split; [exact Hok |].
  destruct peak_monotone_idempotent as (_ & _ & H).
  exact (H (calm_env 1) (calm_env 2) 120000 fresh_world Hne Hok).
Defined.

(** C6. The peak update: when the candidate exceeds the current peak, the
    UPDATE is committed, the stored peak becomes the candidate and the
    candidate is the peak the audit goes on with; otherwise nothing is
    written, the world is unchanged and the audit goes on with the current
    peak. *)
Theorem peak_update_contract (env : Env) (candidate : Q) (w : World) :
  fault env SelectPeak = None ->
  fault env UpdatePeak = None ->
  peak_tracker (store w) <> [] ->
  let current_peak := CPPIEngine.stored_peak (store w) in
  exists w' peak,
    Governor.refresh_peak env candidate w = (w', Ok peak) /\
    fst (CPPIEngine._update_peak_value env candidate w) = w' /\
    (current_peak < candidate ->
       peak = candidate /\
       CPPIEngine.stored_peak (store w') = candidate /\
       (exists id, CPPIEngine.top_row (peak_tracker (store w'))
                     = Some (mkPeakRow id candidate (t_peak_date env)
                               (t_updated_at env))) /\
       writes w' = UpdatePeak :: writes w) /\
    (candidate <= current_peak ->
       peak = current_peak /\ w' = w).
Proof.
  intros Hsel Hupd Hne current_peak. subst current_peak.
  pose proof (update_peak_cases env candidate w) as H. cbv zeta in H.
  unfold Governor.refresh_peak, bind, ret.
  unfold CPPIEngine._get_peak_value at 1. unfold sql_select at 1. rewrite Hsel.
  destruct (CPPIEngine._update_peak_value env candidate w) as [w' [[] | msg]].
  - exists w', (py_max (CPPIEngine.stored_peak (store w)) candidate).
    split; [reflexivity |]. split; [reflexivity |].
    destruct H as (_ & [(Hgt & ->) | (Hgt & _ & Hw & _ & _ & _ & Hrows)]).
    + apply py_gt_false in Hgt. split; [intro; lra |].
      intros _. split; [| reflexivity].
      apply py_max_floor. exact Hgt.
    + split.
      * intros _. split; [unfold py_max; rewrite Hgt; reflexivity |].
        split; [apply (stored_peak_of_rows _ _ _ _ _ Hne Hrows) |].
        split; [| exact Hw].
        rewrite Hrows. apply top_row_updated. exact Hne.
      * apply py_gt_true in Hgt. intro. lra.
  - destruct H as (_ & [Hs | (_ & Hu)]); congruence.
Qed.

(** A new high of 120000 on a fresh database (peak 100000). *)
Lemma peak_update_contract_witness :
  fault (calm_env 1) SelectPeak = None /\
  fault (calm_env 1) UpdatePeak = None /\
  peak_tracker (store fresh_world) <> [] /\
  exists w' peak,
    Governor.refresh_peak (calm_env 1) 120000 fresh_world = (w', Ok peak) /\
    peak = 120000 /\
    CPPIEngine.stored_peak (store w') = 120000.
Proof.
  assert (Hne : peak_tracker (store fresh_world) <> []) by discriminate.
  split; [reflexivity |]. split; [reflexivity |]. split; [exact Hne |].
  destruct (peak_update_contract (calm_env 1) 120000 fresh_world
              eq_refl eq_refl Hne) as (w' & peak & Hrun & _ & Hnew & _).
  exists w', peak. split; [exact Hrun |].
  destruct Hnew as (Hp & Hs & _ & _); [vm_compute; reflexivity |].
  split; assumption.
Defined.

(** ** The ledger query *)

Lemma insert_desc_oldest (r : StateRow) (l : list StateRow) :
  (forall x, In x l -> (st_timestamp r < st_timestamp x)%Z) ->
  Governor.insert_desc r l = l ++ [r].
Proof.
  induction l as [| x l' IH]; intro H; [reflexivity |].
  cbn. assert (Hx : (st_timestamp r < st_timestamp x)%Z) by (apply H; left; reflexivity).
  destruct (Z.ltb_spec (st_timestamp x) (st_timestamp r)); [lia |].
  rewrite IH; [reflexivity |]. intros y Hy. apply H. right. exact Hy.
Qed.

(** On a chronological ledger [ORDER BY timestamp DESC] is the reverse of
    the insertion order. *)
Lemma order_desc_chronological (l : list StateRow) :
  chronological l -> Governor.order_by_timestamp_desc l = rev l.
Proof.
  induction l as [| r l' IH]; intro H; [reflexivity |].
  destruct H as (Hr & Hl').
  change (Governor.order_by_timestamp_desc (r :: l'))
    with (Governor.insert_desc r (Governor.order_by_timestamp_desc l')).
  rewrite (IH Hl'). cbn [rev].
  apply insert_desc_oldest. intros x Hx. apply Hr. apply in_rev. exact Hx.
Qed.

Lemma chronological_snoc (l : list StateRow) (r : StateRow) :
  chronological l ->
  (forall x, In x l -> (st_timestamp x < st_timestamp r)%Z) ->
  chronological (l ++ [r]).
Proof.
  induction l as [| x l' IH]; intros Hl Hr.
  - cbn. split; [intros ? [] | exact I].
  - destruct Hl as (Hx & Hl'). cbn. split.
    + intros y Hy. apply in_app_or in Hy. destruct Hy as [Hy | [<- | []]].
      * apply Hx. exact Hy.
      * apply Hr. left. reflexivity.
    + apply IH; [exact Hl' |]. intros y Hy. apply Hr. right. exact Hy.
Qed.

Lemma head_of_rev (l : list StateRow) :
  nth_error (rev l) 0 = last (map Some l) None.
Proof.
  destruct l as [| x l'] using rev_ind; [reflexivity |].
  rewrite rev_unit, map_app. cbn [map nth_error]. rewrite last_last. reflexivity.
Qed.

(** After the new row is appended to a chronological ledger with a later
    timestamp, the query of [_check_zone_changes] returns the zone of the
    row written last before it. *)
Lemma prev_zone_after_append (pk : list PeakRow) (ev : list EventRow)
    (l : list StateRow) (r : StateRow) (db : DB) :
  portfolio_state db = l ->
  chronological l ->
  (forall x, In x l -> (st_timestamp x < st_timestamp r)%Z) ->
  Governor.select_prev_zone (mkDB pk (l ++ [r]) ev) = spec_last_recorded_zone db.
Proof.
  intros Hdb Hl Hr. unfold Governor.select_prev_zone, spec_last_recorded_zone.
  cbn [portfolio_state]. rewrite Hdb.
  rewrite order_desc_chronological by (apply chronological_snoc; assumption).
  rewrite rev_unit.
  change (nth_error (r :: rev l) 1) with (nth_error (rev l) 0).
  rewrite head_of_rev.
  destruct (last (map Some l) None); reflexivity.
Qed.

Lemma key_free_newer (t : Z) (db : DB) :
  (forall x, In x (portfolio_state db) -> (st_timestamp x < t)%Z) ->
  state_key_free t db.
Proof.
  unfold state_key_free. induction (portfolio_state db) as [| x l IH]; intro H;
    [reflexivity |].
  cbn. rewrite IH by (intros y Hy; apply H; right; exact Hy).
  assert (Hx : (st_timestamp x < t)%Z) by (apply H; left; reflexivity).
  destruct (Z.eqb_spec (st_timestamp x) t); [lia | reflexivity].
Qed.

(** ** The steps of an audit *)

Lemma refresh_peak_cases (env : Env) (total : Q) (w : World) :
  let cur := CPPIEngine.stored_peak (store w) in
  match Governor.refresh_peak env total w with
  | (w', Raise msg) =>
      w' = w /\
      (fault env SelectPeak = Some msg \/
       (py_gt total cur = true /\ fault env UpdatePeak = Some msg))
  | (w', Ok peak) =>
      peak = py_max cur total /\
      fault env SelectPeak = None /\
      (py_gt total cur = true -> fault env UpdatePeak = None) /\
      last_audit_time w' = last_audit_time w /\
      portfolio_state (store w') = portfolio_state (store w) /\
      risk_events (store w') = risk_events (store w)
  end.
Proof.
  intro cur. subst cur.
  pose proof (update_peak_cases env total w) as H. cbv zeta in H.
  unfold Governor.refresh_peak, bind, ret.
  unfold CPPIEngine._get_peak_value at 1. unfold sql_select at 1.
  destruct (fault env SelectPeak) as [m |] eqn:Hsel.
  - split; [reflexivity | left; reflexivity].
  - destruct (CPPIEngine._update_peak_value env total w) as [w' [[] | msg]].
    + split; [reflexivity |]. split; [reflexivity |].
      destruct H as (_ & [(Hgt & ->) | (Hgt & Hu & _ & Hla & Hst & Hev & _)]).
      * repeat split. congruence.
      * repeat split; auto.
    + destruct H as (-> & [Hs | Hu]); [congruence |].
      split; [reflexivity | right; exact Hu].
Qed.

Lemma save_state_run (env : Env) (s : PortfolioState) (w : World) :
  fault env InsertState = None ->
  state_key_free (timestamp s) (store w) ->
  CPPIEngine._save_portfolio_state env s w
    = (world_with_state w (CPPIEngine.state_row s), Ok tt).
Proof.
  intros Hf Hk. unfold CPPIEngine._save_portfolio_state, sql_write.
  rewrite Hf. unfold state_key_free in Hk. rewrite Hk. reflexivity.
Qed.

Lemma save_state_fault (env : Env) (s : PortfolioState) (w : World) (msg : string) :
  fault env InsertState = Some msg ->
  CPPIEngine._save_portfolio_state env s w = (w, Raise msg).
Proof.
  intro Hf. unfold CPPIEngine._save_portfolio_state, sql_write.
  rewrite Hf. reflexivity.
Qed.

Lemma check_zone_fault (env : Env) (s : PortfolioState) (w : World)
    (prev msg : string) :
  fault env SelectPrevZone = None ->
  fault env InsertEvent = Some msg ->
  Governor.select_prev_zone (store w) = Some prev ->
  prev <> zone_value (risk_zone s) ->
  Governor._check_zone_changes env s w = (w, Raise msg).
Proof.
  intros Hsel Hins Hprev Hne.
  unfold Governor._check_zone_changes, bind, sql_select. rewrite Hsel, Hprev.
  apply String.eqb_neq in Hne. rewrite Hne. cbn [negb].
  unfold CPPIEngine._log_risk_event, sql_write. rewrite Hins. reflexivity.
Qed.

Lemma check_zone_run (env : Env) (s : PortfolioState) (w : World) :
  fault env SelectPrevZone = None ->
  fault env InsertEvent = None ->
  event_key_free (t_event env) (store w) ->
  Governor._check_zone_changes env s w = (world_after_check env s w, Ok tt).
Proof.
  intros Hsel Hins Hk.
  unfold Governor._check_zone_changes, world_after_check, bind, sql_select.
  rewrite Hsel.
  destruct (Governor.select_prev_zone (store w)) as [prev |]; [| reflexivity].
  destruct (String.eqb prev (zone_value (risk_zone s))); [reflexivity |].
  cbn [negb]. unfold CPPIEngine._log_risk_event, sql_write.
  rewrite Hins. unfold event_key_free in Hk. rewrite Hk. reflexivity.
Qed.

(** An audit whose statements all succeed: the peak is refreshed, the state
    row appended, the zone change checked, and the assessment returned. *)
Lemma audit_body_run (self : GovernorObj) (env : Env)
    (access_token : option string) (w : World) :
  (forall s, fault env s = None) ->
  state_key_free (t_state env) (store w) ->
  event_key_free (t_event env) (store w) ->
  let state := audit_state self env access_token w in
  exists w1,
    portfolio_state (store w1) = portfolio_state (store w) /\
    risk_events (store w1) = risk_events (store w) /\
    Governor.audit_body self env access_token w =
      (world_done
         (world_after_check env state
            (world_with_state w1 (CPPIEngine.state_row state)))
         (t_done env),
       Ok (Governor.response_of (cppi self) state
             (Governor.fetch_live_holdings self env access_token))).
Proof.
  intros Hf Hsk Hek state. subst state.
  unfold Governor.audit_body, audit_state, audit_total.
  set (total := py_sum (map value (Governor.fetch_live_holdings self env access_token))).
  pose proof (refresh_peak_cases env total w) as H. cbv zeta in H.
  unfold bind at 1.
  destruct (Governor.refresh_peak env total w) as [w1 [peak | msg]].
  - destruct H as (-> & _ & _ & _ & Hst & Hev).
    exists w1. split; [exact Hst |]. split; [exact Hev |].
    set (state := Governor.assess (cppi self) total
                    (py_max (CPPIEngine.stored_peak (store w)) total) (t_state env)).
    assert (Hts : timestamp state = t_state env).
    { unfold state, Governor.assess.
      destruct (CPPIEngine._calculate_cppi_allocation _ _ _ _). reflexivity. }
    unfold bind at 1. rewrite save_state_run;
      [| apply Hf | unfold state_key_free in *; rewrite Hts, Hst; exact Hsk].
    unfold bind at 1. rewrite check_zone_run;
      [| apply Hf | apply Hf | unfold event_key_free in *; cbn; rewrite Hev; exact Hek].
    reflexivity.
  - destruct H as (_ & [Hs | (_ & Hu)]); rewrite Hf in *; discriminate.
Qed.

Lemma audit_risk_of_body (self : GovernorObj) (env : Env)
    (access_token : option string) (w : World) :
  Governor.audit_risk self env access_token w =
    match Governor.audit_body self env access_token w with
    | (w', Ok d) => (w', Ok d)
    | (w', Raise msg) => (w', Ok (Governor.error_response env msg))
    end.
Proof. reflexivity. Qed.

Lemma app_one_neq {A : Type} (l : list A) (e : A) : l <> l ++ [e].
Proof.
  intro H. apply (f_equal (@List.length A)) in H.
  rewrite length_app in H. cbn in H. lia.
Qed.

(** ** Zone-change events *)

(** C7 as stated fails on the first audit: the ledger is empty, so the last
    recorded zone is [None] and differs from the new zone GREEN, yet no
    event is logged. *)
Lemma first_audit_logs_no_event :
  let w := fresh_world in
  let self := governor_holding 100000 in
  let w' := fst (Governor.audit_risk self (calm_env 1) None w) in
  let zone := risk_zone (audit_state self (calm_env 1) None w) in
  ~ ((exists e, risk_events (store w') = risk_events (store w) ++ [e])
     <-> spec_last_recorded_zone (store w) <> Some (zone_value zone)).
Proof.
  cbv zeta. intros [_ H].
  destruct H as (e & He); [vm_compute; discriminate |].
  vm_compute in He. discriminate.
Qed.

Lemma audit_state_timestamp (self : GovernorObj) (env : Env)
    (access_token : option string) (w : World) :
  timestamp (audit_state self env access_token w) = t_state env.
Proof.
  unfold audit_state, Governor.assess.
  destruct (CPPIEngine._calculate_cppi_allocation _ _ _ _). reflexivity.
Qed.

(** The rows a successful audit adds to the ledger and to the events. *)
Lemma audit_rows (self : GovernorObj) (env : Env)
    (access_token : option string) (w : World) :
  (forall s, fault env s = None) ->
  chronological (portfolio_state (store w)) ->
  (forall x, In x (portfolio_state (store w)) -> (st_timestamp x < t_state env)%Z) ->
  event_key_free (t_event env) (store w) ->
  let state := audit_state self env access_token w in
  let w' := fst (Governor.audit_risk self env access_token w) in
  snd (Governor.audit_risk self env access_token w)
    = Ok (Governor.response_of (cppi self) state
            (Governor.fetch_live_holdings self env access_token)) /\
  portfolio_state (store w')
    = portfolio_state (store w) ++ [CPPIEngine.state_row state] /\
  risk_events (store w')
    = risk_events (store w) ++
      match spec_last_recorded_zone (store w) with
      | Some prev =>
          if String.eqb prev (zone_value (risk_zone state)) then []
          else [zone_change_row env state prev]
      | None => []
      end.
Proof.
  intros Hf Hchr Hnew Hek state w'. subst w'.
  destruct (audit_body_run self env access_token w Hf
              (key_free_newer _ _ Hnew) Hek) as (w1 & Hst & Hev & Hrun).
  fold state in Hrun.
  rewrite audit_risk_of_body, Hrun. cbn [fst snd].
  split; [reflexivity |].
  unfold world_done, world_after_check. cbn [store].
  assert (Hprev :
    Governor.select_prev_zone (store (world_with_state w1 (CPPIEngine.state_row state)))
      = spec_last_recorded_zone (store w)).
  { unfold world_with_state. cbn [store].
    apply prev_zone_after_append.
    - symmetry. exact Hst.
    - rewrite Hst. exact Hchr.
    - rewrite Hst. intros x Hx.
      change (st_timestamp (CPPIEngine.state_row state)) with (timestamp state).
      unfold state. rewrite audit_state_timestamp. apply Hnew. exact Hx. }
  rewrite Hprev.
  destruct (spec_last_recorded_zone (store w)) as [prev |].
  - destruct (String.eqb prev (zone_value (risk_zone state))); cbn.
    + rewrite Hst, Hev, app_nil_r. split; reflexivity.
    + rewrite Hst, Hev. split; reflexivity.
  - cbn. rewrite Hst, Hev, app_nil_r. split; reflexivity.
Qed.

(** C7, amended. On an audit whose statements succeed, on a chronological
    ledger and with a later timestamp, a ZONE_CHANGE event is appended if
    and only if the ledger already held a record and the zone of the record
    written last differs from the new zone; on an empty ledger no event is
    logged.  At most one event is appended, and the audits GREEN, GREEN,
    YELLOW from an empty ledger leave exactly one event. *)
Theorem zone_change_event_iff (self : GovernorObj) (env : Env)
    (access_token : option string) (w : World) :
  (forall s, fault env s = None) ->
  chronological (portfolio_state (store w)) ->
  (forall x, In x (portfolio_state (store w)) -> (st_timestamp x < t_state env)%Z) ->
  event_key_free (t_event env) (store w) ->
  let state := audit_state self env access_token w in
  let w' := fst (Governor.audit_risk self env access_token w) in
  ((exists e, risk_events (store w') = risk_events (store w) ++ [e])
   <-> (exists prev, spec_last_recorded_zone (store w) = Some prev /\
                     prev <> zone_value (risk_zone state))) /\
  (forall prev,
     spec_last_recorded_zone (store w) = Some prev ->
     prev <> zone_value (risk_zone state) ->
     risk_events (store w')
       = risk_events (store w) ++ [zone_change_row env state prev]) /\
  (spec_last_recorded_zone (store w) = None ->
     risk_events (store w') = risk_events (store w)) /\
  (spec_last_recorded_zone (store w) = Some (zone_value (risk_zone state)) ->
     risk_events (store w') = risk_events (store w)) /\
  map st_risk_zone (portfolio_state (store green_green_yellow))
    = ["GREEN"; "GREEN"; "YELLOW"]%string /\
  List.length (risk_events (store green_green_yellow)) = 1%nat.
Proof.
  intros Hf Hchr Hnew Hek state w'.
  destruct (audit_rows self env access_token w Hf Hchr Hnew Hek)
    as (_ & _ & Hev).
  fold state w' in Hev.
  split; [| split; [| split; [| split; [| split]]]].
  - split.
    + intros (e & He). rewrite He in Hev.
      destruct (spec_last_recorded_zone (store w)) as [prev |].
      * destruct (String.eqb_spec prev (zone_value (risk_zone state))) as [E | E].
        -- rewrite app_nil_r in Hev. symmetry in Hev.
           exfalso. exact (app_one_neq _ _ Hev).
        -- exists prev. split; [reflexivity | exact E].
      * rewrite app_nil_r in Hev. symmetry in Hev.
        exfalso. exact (app_one_neq _ _ Hev).
    + intros (prev & Hp & Hne). rewrite Hp in Hev.
      apply String.eqb_neq in Hne. rewrite Hne in Hev.
      eexists. exact Hev.
  - intros prev Hp Hne. rewrite Hp in Hev.
    apply String.eqb_neq in Hne. rewrite Hne in Hev. exact Hev.
  - intro Hp. rewrite Hp, app_nil_r in Hev. exact Hev.
  - intro Hp. rewrite Hp, String.eqb_refl, app_nil_r in Hev. exact Hev.
  - vm_compute. reflexivity.
  - vm_compute. reflexivity.
Qed.

(** The third audit of GREEN, GREEN, YELLOW: the ledger ends in a GREEN
    record, the new zone is YELLOW, and one event is appended. *)
Lemma zone_change_event_iff_witness :
  let w2 :=
    fst (Governor.audit_risk (governor_holding 100000) (calm_env 2) None
           (fst (Governor.audit_risk (governor_holding 100000) (calm_env 1) None
                   fresh_world))) in
  (forall s, fault (calm_env 3) s = None) /\
  chronological (portfolio_state (store w2)) /\
  (forall x, In x (portfolio_state (store w2)) ->
             (st_timestamp x < t_state (calm_env 3))%Z) /\
  event_key_free (t_event (calm_env 3)) (store w2) /\
  risk_events (store w2) = [] /\
  exists e, risk_events (store green_green_yellow) = [e].
Proof.
  intro w2.
  assert (Hf : forall s, fault (calm_env 3) s = None) by reflexivity.
  assert (Hchr : chronological (portfolio_state (store w2))).
  { vm_compute. split; [| split; [| exact I]].
    - intros r' [<- | []]. reflexivity.
    - intros r' []. }
  assert (Hnew : forall x, In x (portfolio_state (store w2)) ->
                           (st_timestamp x < t_state (calm_env 3))%Z).
  { vm_compute. intros x [<- | [<- | []]]; reflexivity. }
  assert (Hek : event_key_free (t_event (calm_env 3)) (store w2)) by reflexivity.
  repeat (split; [assumption |]).
  split; [reflexivity |].
  destruct (zone_change_event_iff (governor_holding 94000) (calm_env 3) None w2
              Hf Hchr Hnew Hek) as (_ & Hadd & _).
  eexists. unfold green_green_yellow. fold w2.
  rewrite (Hadd "GREEN"%string); [reflexivity | reflexivity |].
  vm_compute. discriminate.
Defined.

(** ** The peak table during an audit *)

Lemma initialize_nonempty (now : Z) (db : DB) :
  peak_tracker (CPPIEngine._initialize_database now db) <> [].
Proof.
  unfold CPPIEngine._initialize_database.
  destruct (peak_tracker db) eqn:E; [discriminate |].
  rewrite E. discriminate.
Qed.

Lemma update_keeps_table (env : Env) (v : Q) (w : World) :
  peak_tracker (store w) <> [] ->
  peak_tracker (store (fst (CPPIEngine._update_peak_value env v w))) <> [].
Proof.
  intro Hne.
  pose proof (update_peak_cases env v w) as H. cbv zeta in H.
  destruct (CPPIEngine._update_peak_value env v w) as [w' [[] | msg]]; cbn [fst].
  - destruct H as (_ & [(_ & ->) | (_ & _ & _ & _ & _ & _ & Hrows)]);
      [exact Hne |].
    rewrite Hrows. unfold CPPIEngine.update_peak_rows.
    destruct (CPPIEngine.max_id (peak_tracker (store w))); [| exact Hne].
    destruct (peak_tracker (store w)); [contradiction | discriminate].
  - destruct H as (-> & _). exact Hne.
Qed.

Lemma save_state_table (env : Env) (s : PortfolioState) (w : World) :
  peak_tracker (store (fst (CPPIEngine._save_portfolio_state env s w)))
    = peak_tracker (store w).
Proof.
  unfold CPPIEngine._save_portfolio_state, sql_write.
  destruct (fault env InsertState); [reflexivity |].
  destruct (existsb _ _); reflexivity.
Qed.

Lemma check_zone_table (env : Env) (s : PortfolioState) (w : World) :
  peak_tracker (store (fst (Governor._check_zone_changes env s w)))
    = peak_tracker (store w).
Proof.
  unfold Governor._check_zone_changes, bind, sql_select.
  destruct (fault env SelectPrevZone); [reflexivity |].
  destruct (Governor.select_prev_zone (store w)) as [prev |]; [| reflexivity].
  destruct (negb _); [| reflexivity].
  unfold CPPIEngine._log_risk_event, sql_write.
  destruct (fault env InsertEvent); [reflexivity |].
  destruct (existsb _ _); reflexivity.
Qed.

Lemma refresh_peak_world (env : Env) (total : Q) (w : World) :
  fst (Governor.refresh_peak env total w)
    = fst (CPPIEngine._update_peak_value env total w).
Proof.
  unfold Governor.refresh_peak, bind, ret.
  unfold CPPIEngine._get_peak_value at 1. unfold sql_select at 1.
  destruct (fault env SelectPeak) eqn:E.
  - unfold CPPIEngine._update_peak_value, CPPIEngine._get_peak_value, bind,
      sql_select.
    rewrite E. reflexivity.
  - destruct (CPPIEngine._update_peak_value env total w) as [w' [[] | m]];
      reflexivity.
Qed.

(** Whatever happens during an audit, the only change to [peak_tracker] is
    the one of [_update_peak_value] on the total value. *)
Lemma audit_peak_table (self : GovernorObj) (env : Env)
    (access_token : option string) (w : World) :
  peak_tracker (store (fst (Governor.audit_risk self env access_token w)))
    = peak_tracker (store (fst (CPPIEngine._update_peak_value env
                                  (audit_total self env access_token) w))).
Proof.
  rewrite <- refresh_peak_world.
  unfold Governor.audit_risk, try_except, Governor.audit_body.
  fold (audit_total self env access_token).
  set (total := audit_total self env access_token).
  unfold bind at 1.
  destruct (Governor.refresh_peak env total w) as [w1 [peak | m]]; [| reflexivity].
  cbn [fst].
  set (state := Governor.assess _ _ _ _).
  pose proof (save_state_table env state w1) as Hs.
  unfold bind at 1.
  destruct (CPPIEngine._save_portfolio_state env state w1) as [w2 [[] | m]];
    cbn [fst] in Hs; [| exact Hs].
  pose proof (check_zone_table env state w2) as Hc.
  unfold bind at 1.
  destruct (Governor._check_zone_changes env state w2) as [w3 [[] | m]];
    cbn [fst] in Hc; [| cbn; congruence].
  cbn. congruence.
Qed.

(** An audit keeps the peak table initialised and never lowers the stored
    peak, whether it succeeds or returns an error. *)
Lemma audit_keeps_peak (self : GovernorObj) (env : Env)
    (access_token : option string) (w : World) :
  (peak_tracker (store w) <> [] ->
   peak_tracker (store (fst (Governor.audit_risk self env access_token w))) <> []) /\
  CPPIEngine.stored_peak (store w)
    <= CPPIEngine.stored_peak
         (store (fst (Governor.audit_risk self env access_token w))).
Proof.
  split.
  - intro Hne. rewrite audit_peak_table. apply update_keeps_table. exact Hne.
  - rewrite (stored_peak_rows _ _ (audit_peak_table self env access_token w)).
    apply update_peak_monotone.
Qed.

(** A successful audit with a later timestamp keeps the ledger
    chronological. *)
Lemma audit_keeps_chronological (self : GovernorObj) (env : Env)
    (access_token : option string) (w : World) :
  (forall s, fault env s = None) ->
  chronological (portfolio_state (store w)) ->
  (forall x, In x (portfolio_state (store w)) -> (st_timestamp x < t_state env)%Z) ->
  event_key_free (t_event env) (store w) ->
  chronological
    (portfolio_state (store (fst (Governor.audit_risk self env access_token w)))).
Proof.
  intros Hf Hchr Hnew Hek.
  destruct (audit_rows self env access_token w Hf Hchr Hnew Hek) as (_ & Hst & _).
  rewrite Hst. apply chronological_snoc; [exact Hchr |].
  intros x Hx.
  change (st_timestamp (CPPIEngine.state_row (audit_state self env access_token w)))
    with (timestamp (audit_state self env access_token w)).
  rewrite audit_state_timestamp. apply Hnew. exact Hx.
Qed.

(** ** The drawdown of an audit *)

(** The helper with the peak that line 424 passes to it,
    [max(stored peak, value)], for a stored peak that is not negative. *)
Lemma drawdown_at_audit_peak (current_value peak_read : Q) :
  0 <= peak_read ->
  let peak := py_max peak_read current_value in
  let drawdown := CPPIEngine._calculate_drawdown current_value peak in
  current_value <= peak /\
  (peak == 0 -> drawdown = 0) /\
  (~ peak == 0 -> drawdown == Qmax 0 ((peak - current_value) / peak)) /\
  drawdown == spec_drawdown current_value peak /\
  0 <= drawdown /\
  (peak_read < current_value -> drawdown == 0) /\
  (0 <= current_value -> drawdown <= 1).
Proof.
  intros Hr peak drawdown.
  assert (Hge : peak_read <= peak) by apply py_max_lower.
  assert (Hv : current_value <= peak)
    by (unfold peak; rewrite py_max_Qmax; apply Q.le_max_r).
  split; [exact Hv |].
  destruct (Qeq_bool peak 0) eqn:E.
  - assert (Hd : drawdown = 0)
      by (unfold drawdown, CPPIEngine._calculate_drawdown; rewrite E; reflexivity).
    apply Qeq_bool_iff in E.
    split; [intros _; exact Hd |].
    split; [intro Hn; contradiction |].
    split.
    + unfold spec_drawdown.
      replace (Qeq_bool peak 0) with true
        by (symmetry; apply Qeq_bool_iff; exact E).
      rewrite Hd. reflexivity.
    + rewrite Hd. split; [lra |].
      split; [intros _; reflexivity | intros _; lra].
  - assert (Hn : ~ peak == 0) by (apply Qeq_bool_neq; exact E).
    assert (Hp : 0 < peak) by lra.
    assert (Hd : drawdown = (peak - current_value) / peak)
      by (apply drawdown_positive_peak; exact Hp).
    assert (H0 : 0 <= (peak - current_value) / peak)
      by (apply Qdiv_nonneg; lra).
    assert (Hm : Qmax 0 ((peak - current_value) / peak)
                 == (peak - current_value) / peak)
      by (apply Q.max_r; exact H0).
    split; [intro Hz; contradiction |].
    split; [intros _; rewrite Hd, Hm; reflexivity |].
    split; [unfold spec_drawdown; rewrite E, Hd, Hm; reflexivity |].
    rewrite Hd. split; [exact H0 |]. split.
    + intro Hlt.
      assert (Hpk : peak = current_value).
      { unfold peak, py_max.
        replace (py_gt current_value peak_read) with true; [reflexivity |].
        symmetry. apply py_gt_true. exact Hlt. }
      rewrite Hpk. field. lra.
    + intro Hc. apply Qdiv_le_1; lra.
Qed.

(** The stored peak never goes down in a run of audits. *)
Lemma run_audits_peak (steps : list (GovernorObj * Env * option string)) (w : World) :
  CPPIEngine.stored_peak (store w)
    <= CPPIEngine.stored_peak (store (run_audits steps w)).
Proof.
  revert w. induction steps as [| [[g env] token] steps IH]; intro w.
  - cbn [run_audits]. lra.
  - cbn [run_audits].
    eapply Qle_trans; [apply (audit_keeps_peak g env token w) | apply IH].
Qed.

(** C3. Drawdown computation.  For a peak of 0 the drawdown is 0.  An audit
    calls the computation with the peak [max(stored peak, value)] (lines
    421-427); for every value and every stored peak that is not negative
    the drawdown it obtains is 0 for a peak of 0 and
    [max(0, (peak - value) / peak)] otherwise, it is never negative, it is
    0 when the value exceeds the stored peak (a new, unrecorded peak), and
    it is at most 1 for a value of 0 or more.  The stored peak is never
    negative: in every run of audits on a database that the engine has
    initialised it is at least the seed, and the drawdown of the state that
    the next audit computes has these properties. *)
Theorem drawdown_computation :
  (forall current_value, CPPIEngine._calculate_drawdown current_value 0 = 0) /\
  (forall current_value peak_read,
     0 <= peak_read ->
     let peak := py_max peak_read current_value in
     let drawdown := CPPIEngine._calculate_drawdown current_value peak in
     (peak == 0 -> drawdown = 0) /\
     (~ peak == 0 -> drawdown == Qmax 0 ((peak - current_value) / peak)) /\
     drawdown == spec_drawdown current_value peak /\
     0 <= drawdown /\
     (peak_read < current_value -> drawdown == 0) /\
     (0 <= current_value -> drawdown <= 1)) /\
  (forall now last_audit ws steps self env access_token,
     let w := run_audits steps
                {| store := CPPIEngine._initialize_database now empty_db;
                   last_audit_time := last_audit;
                   writes := ws |} in
     let state := audit_state self env access_token w in
     100000 <= CPPIEngine.stored_peak (store w) /\
     peak_value state
       = py_max (CPPIEngine.stored_peak (store w)) (total_value state) /\
     drawdown_pct state
       = CPPIEngine._calculate_drawdown (total_value state) (peak_value state) /\
     drawdown_pct state == spec_drawdown (total_value state) (peak_value state) /\
     0 <= drawdown_pct state /\
     (0 <= total_value state -> drawdown_pct state <= 1)).
Proof.
  split; [reflexivity |].
  split; [intros v p Hp; apply (drawdown_at_audit_peak v p Hp) |].
  intros now last_audit ws steps self env access_token w state.
  assert (Hseed : 100000 <= CPPIEngine.stored_peak (store w)).
  { unfold w. eapply Qle_trans; [| apply run_audits_peak].
    cbn [store]. vm_compute. discriminate. }
  assert (Hfields :
    total_value state = audit_total self env access_token /\
    peak_value state
      = py_max (CPPIEngine.stored_peak (store w)) (audit_total self env access_token) /\
    drawdown_pct state
      = CPPIEngine._calculate_drawdown (audit_total self env access_token)
          (py_max (CPPIEngine.stored_peak (store w))
             (audit_total self env access_token))).
  { unfold state, audit_state, Governor.assess.
    destruct (CPPIEngine._calculate_cppi_allocation _ _ _ _).
    repeat split. }
  destruct Hfields as (Ht & Hpk & Hdd).
  assert (Hr : 0 <= CPPIEngine.stored_peak (store w)) by lra.
  destruct (drawdown_at_audit_peak (audit_total self env access_token)
              (CPPIEngine.stored_peak (store w)) Hr)
    as (_ & _ & _ & Hspec & Hnn & _ & Hle).
  cbv zeta in Hspec, Hnn, Hle.
  rewrite Hdd, Hpk, Ht.
  split; [exact Hseed |]. split; [reflexivity |]. split; [reflexivity |].
  split; [exact Hspec |]. split; [exact Hnn | exact Hle].
Qed.

(** Example A of the specification (peak 100000, value 85000), and a new
    high of 110000 on the same stored peak. *)
Lemma drawdown_computation_witness :
  0 <= 100000 /\
  CPPIEngine._calculate_drawdown 85000 (py_max 100000 85000) == 15 # 100 /\
  CPPIEngine._calculate_drawdown 110000 (py_max 100000 110000) == 0.
Proof.
  assert (Hp : 0 <= 100000) by discriminate.
  split; [exact Hp |].
  destruct drawdown_computation as (_ & H & _).
  destruct (H 85000 100000 Hp) as (_ & _ & Hspec & _).
  destruct (H 110000 100000 Hp) as (_ & _ & _ & _ & Hnew & _).
  cbv zeta in Hspec, Hnew.
  split.
  - rewrite Hspec. reflexivity.
  - apply Hnew. reflexivity.
Defined.

(** ** Failures of the store *)

(** C8 as stated fails: when the INSERT of the state row fails, the caller
    receives the ERROR dictionary, without any field of the assessment,
    although the same audit on a working store returns a GREEN assessment. *)
Lemma storage_failure_drops_assessment :
  let env := failing_env 1 InsertState "disk I/O error" in
  let self := governor_holding 100000 in
  (exists d, snd (Governor.audit_risk self (calm_env 1) None fresh_world) = Ok d /\
             dict_get "status" d = Some (PStr "GREEN")) /\
  exists d, snd (Governor.audit_risk self env None fresh_world) = Ok d /\
            dict_get "status" d = Some (PStr "ERROR") /\
            dict_get "error" d = Some (PStr "disk I/O error") /\
            dict_get "total_value" d = None /\
            dict_get "equity_allocation_target" d = None /\
            dict_get "action" d = None.
Proof.
  cbv zeta. split.
  - eexists. split; [vm_compute; reflexivity | reflexivity].
  - eexists. split; [vm_compute; reflexivity |]. repeat split.
Qed.

Lemma error_response_fields (env : Env) (msg : string) :
  dict_get "status" (Governor.error_response env msg) = Some (PStr "ERROR") /\
  dict_get "error" (Governor.error_response env msg) = Some (PStr msg) /\
  dict_get "timestamp" (Governor.error_response env msg) = Some (PIso (t_error env)) /\
  dict_get "total_value" (Governor.error_response env msg) = None.
Proof. repeat split. Qed.

(** C8, amended. When a write fails during an audit (the UPDATE of a new
    peak, the INSERT of the state row, or the INSERT of a due zone-change
    event), [audit_risk] does not raise: it returns the dictionary with
    status ERROR, the message of the failure and a timestamp, and none of
    the fields of the assessment; no event row is added. *)
Theorem storage_failure_returns_error (self : GovernorObj) (env : Env)
    (access_token : option string) (w : World) (msg : string) :
  let total := audit_total self env access_token in
  let current_peak := CPPIEngine.stored_peak (store w) in
  let state := audit_state self env access_token w in
  fault env SelectPeak = None ->
  (py_gt total current_peak = true /\ fault env UpdatePeak = Some msg) \/
  ((py_gt total current_peak = true -> fault env UpdatePeak = None) /\
   fault env InsertState = Some msg) \/
  ((py_gt total current_peak = true -> fault env UpdatePeak = None) /\
   fault env InsertState = None /\
   fault env SelectPrevZone = None /\
   chronological (portfolio_state (store w)) /\
   (forall x, In x (portfolio_state (store w)) ->
              (st_timestamp x < t_state env)%Z) /\
   (exists prev, spec_last_recorded_zone (store w) = Some prev /\
                 prev <> zone_value (risk_zone state)) /\
   fault env InsertEvent = Some msg) ->
  exists w',
    Governor.audit_risk self env access_token w
      = (w', Ok (Governor.error_response env msg)) /\
    dict_get "status" (Governor.error_response env msg) = Some (PStr "ERROR") /\
    dict_get "error" (Governor.error_response env msg) = Some (PStr msg) /\
    dict_get "total_value" (Governor.error_response env msg) = None /\
    risk_events (store w') = risk_events (store w).
Proof.
  intros total current_peak state Hsel Hcase.
  destruct (error_response_fields env msg) as (Hs & He & _ & Ht).
  assert (Hgoal : exists w',
    Governor.audit_body self env access_token w = (w', Raise msg) /\
    risk_events (store w') = risk_events (store w)).
  { unfold Governor.audit_body. fold (audit_total self env access_token).
    fold total.
    pose proof (refresh_peak_cases env total w) as H. cbv zeta in H.
    fold current_peak in H.
    unfold bind at 1.
    destruct (Governor.refresh_peak env total w) as [w1 [peak | m]].
    - destruct H as (-> & _ & Hupd & _ & Hst & Hev).
      change (Governor.assess (cppi self) total (py_max current_peak total)
                (t_state env)) with state.
      destruct Hcase as [(Hgt & Hu) | [(_ & Hins) | Hcase]].
      + rewrite (Hupd Hgt) in Hu. discriminate.
      + unfold bind at 1. rewrite (save_state_fault _ _ _ _ Hins).
        exists w1. split; [reflexivity | exact Hev].
      + destruct Hcase as (_ & Hins & Hprev & Hchr & Hnew & (prev & Hp & Hne) & Hevt).
        unfold bind at 1. rewrite save_state_run;
          [| exact Hins
           | unfold state_key_free; rewrite Hst; unfold state;
             rewrite audit_state_timestamp; apply key_free_newer; exact Hnew].
        unfold bind at 1.
        rewrite (check_zone_fault env state _ prev msg Hprev Hevt); [| | exact Hne].
        * eexists. split; [reflexivity | exact Hev].
        * unfold world_with_state. cbn [store]. rewrite <- Hp.
          apply prev_zone_after_append; [symmetry; exact Hst | rewrite Hst; exact Hchr |].
          rewrite Hst. intros x Hx.
          change (st_timestamp (CPPIEngine.state_row state)) with (timestamp state).
          unfold state. rewrite audit_state_timestamp. apply Hnew. exact Hx.
    - destruct H as (-> & [Hs' | (Hgt & Hu)]); [congruence |].
      destruct Hcase as [(_ & Hu') | [(Hupd & _) | (Hupd & _)]].
      + assert (m = msg) by congruence. subst m.
        exists w. split; reflexivity.
      + rewrite (Hupd Hgt) in Hu. discriminate.
      + rewrite (Hupd Hgt) in Hu. discriminate. }
  destruct Hgoal as (w' & Hbody & Hev).
  exists w'. rewrite audit_risk_of_body, Hbody.
  repeat split; assumption.
Qed.

(** The INSERT of the state row fails on a fresh database. *)
Lemma storage_failure_returns_error_witness :
  let env := failing_env 1 InsertState "disk I/O error" in
  let self := governor_holding 100000 in
  fault env SelectPeak = None /\
  (py_gt (audit_total self env None) (CPPIEngine.stored_peak (store fresh_world)) = true
     -> fault env UpdatePeak = None) /\
  fault env InsertState = Some "disk I/O error"%string /\
  exists w',
    Governor.audit_risk self env None fresh_world
      = (w', Ok (Governor.error_response env "disk I/O error")).
Proof.
  cbv zeta.
  split; [reflexivity |]. split; [intros _; reflexivity |]. split; [reflexivity |].
  destruct (storage_failure_returns_error (governor_holding 100000)
              (failing_env 1 InsertState "disk I/O error") None fresh_world
              "disk I/O error" eq_refl) as (w' & Hrun & _).
  - right. left. split; [intros _; reflexivity | reflexivity].
  - exists w'. exact Hrun.
Defined.

(** ** Failures of the valuation *)

(** C9 as stated fails: without a Kite session the audit does not abort; it
    values the portfolio at the 62000 of the mock holdings and reports a RED
    zone against the seed peak of 100000. *)
Lemma offline_audit_fabricates_red :
  valuation_unavailable governor_offline (calm_env 1) None /\
  exists d,
    snd (Governor.audit_risk governor_offline (calm_env 1) None fresh_world) = Ok d /\
    dict_get "status" d = Some (PStr "RED") /\
    dict_get "total_value" d = Some (PNum 62000) /\
    dict_get "error" d = None.
Proof.
  split; [left; reflexivity |].
  eexists. split; [vm_compute; reflexivity |]. repeat split.
Qed.

Lemma fetch_unavailable (self : GovernorObj) (env : Env)
    (access_token : option string) :
  valuation_unavailable self env access_token ->
  Governor.fetch_live_holdings self env access_token = Governor._get_mock_holdings.
Proof.
  unfold Governor.fetch_live_holdings.
  intros [H | (msg & H)]; rewrite H; reflexivity.
Qed.

Lemma assess_zone (c : CPPIConfig) (total peak : Q) (now : Z) :
  risk_zone (Governor.assess c total peak now)
    = CPPIEngine._determine_risk_zone (CPPIEngine._calculate_drawdown total peak).
Proof.
  unfold Governor.assess.
  destruct (CPPIEngine._calculate_cppi_allocation _ _ _ _). reflexivity.
Qed.

Lemma assess_total (c : CPPIConfig) (total peak : Q) (now : Z) :
  total_value (Governor.assess c total peak now) = total.
Proof.
  unfold Governor.assess.
  destruct (CPPIEngine._calculate_cppi_allocation _ _ _ _). reflexivity.
Qed.

(** Against a peak of 100000 or more a value of 62000 is deep in RED. *)
Lemma mock_value_is_red (peak_read : Q) :
  100000 <= peak_read ->
  CPPIEngine._determine_risk_zone
    (CPPIEngine._calculate_drawdown 62000 (py_max peak_read 62000)) = RED.
Proof.
  intro Hp. rewrite py_max_floor by lra.
  rewrite drawdown_positive_peak by lra.
  apply risk_zone_red.
  apply Qlt_shift_div_l; lra.
Qed.

(** C9, amended. When the collaborator cannot supply the holdings (no
    session, or the session raises), the audit does not abort:
    [fetch_live_holdings] substitutes the mock holdings, worth 62000, and
    the audit proceeds exactly as for a broker that supplied them; on a
    working store whose peak is at least the seed of 100000 it returns a RED
    assessment with a total value of 62000 and no error. *)
Theorem valuation_failure_uses_mock (self : GovernorObj) (env : Env)
    (access_token : option string) (w : World) :
  valuation_unavailable self env access_token ->
  Governor.fetch_live_holdings self env access_token = Governor._get_mock_holdings /\
  audit_total self env access_token = 62000 /\
  Governor.audit_risk self env access_token w
    = Governor.audit_risk (governor_mock (cppi self)) env None w /\
  ((forall s, fault env s = None) ->
   state_key_free (t_state env) (store w) ->
   event_key_free (t_event env) (store w) ->
   100000 <= CPPIEngine.stored_peak (store w) ->
   exists w' d,
     Governor.audit_risk self env access_token w = (w', Ok d) /\
     dict_get "status" d = Some (PStr "RED") /\
     dict_get "total_value" d = Some (PNum 62000) /\
     dict_get "error" d = None).
Proof.
  intro Hun. pose proof (fetch_unavailable self env access_token Hun) as Hfetch.
  assert (Htotal : audit_total self env access_token = 62000).
  { unfold audit_total. rewrite Hfetch. reflexivity. }
  split; [exact Hfetch |]. split; [exact Htotal |]. split.
  - unfold Governor.audit_risk, Governor.audit_body. rewrite Hfetch. reflexivity.
  - intros Hf Hsk Hek Hpeak.
    destruct (audit_body_run self env access_token w Hf Hsk Hek)
      as (w1 & _ & _ & Hrun).
    rewrite audit_risk_of_body, Hrun.
    eexists. eexists. split; [reflexivity |].
    unfold Governor.response_of. cbn [dict_get String.eqb Ascii.eqb Bool.eqb].
    unfold audit_state. rewrite assess_zone, assess_total, Htotal.
    rewrite (mock_value_is_red _ Hpeak). repeat split.
Qed.

(** The offline governor on a fresh database. *)
Lemma valuation_failure_uses_mock_witness :
  valuation_unavailable governor_offline (calm_env 1) None /\
  audit_total governor_offline (calm_env 1) None = 62000 /\
  Governor.audit_risk governor_offline (calm_env 1) None fresh_world
    = Governor.audit_risk (governor_mock default_config) (calm_env 1) None
        fresh_world.
Proof.
  assert (Hun : valuation_unavailable governor_offline (calm_env 1) None)
    by (left; reflexivity).
  split; [exact Hun |].
  destruct (valuation_failure_uses_mock governor_offline (calm_env 1) None
              fresh_world Hun) as (_ & Ht & Heq & _).
  split; [exact Ht | exact Heq].
Defined.

(** ** Totality of the audit *)

(** C10. [audit_risk] always returns a dictionary and never raises: when the
    body of its [try] block completes, the dictionary is the assessment;
    when any step of the body raises, it is the dictionary with status
    ERROR, the message of the exception and a timestamp, without the fields
    of an assessment.  A failing read of the peak and a clash on the key of
    the state row are two such steps. *)
Theorem audit_risk_total (self : GovernorObj) (env : Env)
    (access_token : option string) (w : World) :
  (exists d,
     snd (Governor.audit_risk self env access_token w) = Ok d /\
     fst (Governor.audit_risk self env access_token w)
       = fst (Governor.audit_body self env access_token w) /\
     match snd (Governor.audit_body self env access_token w) with
     | Ok response => d = response
     | Raise msg =>
         d = Governor.error_response env msg /\
         dict_get "status" d = Some (PStr "ERROR") /\
         dict_get "error" d = Some (PStr msg) /\
         dict_get "timestamp" d = Some (PIso (t_error env)) /\
         dict_get "total_value" d = None
     end) /\
  (forall msg,
     fault env SelectPeak = Some msg ->
     Governor.audit_risk self env access_token w
       = (w, Ok (Governor.error_response env msg))) /\
  ((forall s, fault env s = None) ->
   ~ state_key_free (t_state env) (store w) ->
   snd (Governor.audit_risk self env access_token w)
     = Ok (Governor.error_response env
             "UNIQUE constraint failed: portfolio_state.timestamp")).
Proof.
  split; [| split].
  - rewrite audit_risk_of_body.
    destruct (Governor.audit_body self env access_token w) as [w' [d | msg]];
      cbn [fst snd].
    + exists d. repeat split.
    + exists (Governor.error_response env msg). repeat split.
  - intros msg Hsel. rewrite audit_risk_of_body.
    unfold Governor.audit_body, Governor.refresh_peak, CPPIEngine._get_peak_value,
      bind, sql_select.
    rewrite Hsel. reflexivity.
  - intros Hf Hclash. rewrite audit_risk_of_body.
    unfold Governor.audit_body.
    set (total := py_sum (map value (Governor.fetch_live_holdings self env access_token))).
    pose proof (refresh_peak_cases env total w) as H. cbv zeta in H.
    unfold bind at 1.
    destruct (Governor.refresh_peak env total w) as [w1 [peak | msg]].
    + destruct H as (_ & _ & _ & _ & Hst & _).
      unfold bind at 1. unfold CPPIEngine._save_portfolio_state, sql_write.
      rewrite Hf.
      assert (Hts : forall p, timestamp (Governor.assess (cppi self) total p (t_state env))
                              = t_state env).
      { intro p. unfold Governor.assess.
        destruct (CPPIEngine._calculate_cppi_allocation _ _ _ _). reflexivity. }
      rewrite Hts, Hst.
      unfold state_key_free in Hclash.
      destruct (existsb _ (portfolio_state (store w))); [reflexivity |].
      exfalso. apply Hclash. reflexivity.
    + destruct H as (_ & [Hs | (_ & Hu)]); rewrite Hf in *; discriminate.
Qed.

(** A locked database at the first read of the peak. *)
Lemma audit_risk_total_witness :
  let env := failing_env 1 SelectPeak "database is locked" in
  fault env SelectPeak = Some "database is locked"%string /\
  Governor.audit_risk governor_offline env None fresh_world
    = (fresh_world, Ok (Governor.error_response env "database is locked")).
Proof.
  cbv zeta. split; [reflexivity |].
  destruct (audit_risk_total governor_offline
              (failing_env 1 SelectPeak "database is locked") None fresh_world)
    as (_ & Hread & _).
  apply Hread. reflexivity.
Defined.

(** * Further properties of the engine and of its callers *)

(** ** Bounds on the allocation of an audit *)

Lemma py_min_le_r (a b : Q) : py_min a b <= b.
Proof. rewrite py_min_Qmin. apply Q.le_min_r. Qed.

Lemma py_max_ge_r (a b : Q) : b <= py_max a b.
Proof. rewrite py_max_Qmax. apply Q.le_max_r. Qed.

Lemma assess_equity (c : CPPIConfig) (total peak : Q) (now : Z) :
  equity_allocation (Governor.assess c total peak now)
    = fst (CPPIEngine._calculate_cppi_allocation c total peak
             (CPPIEngine._determine_risk_zone
                (CPPIEngine._calculate_drawdown total peak))).
Proof.
  unfold Governor.assess.
  destruct (CPPIEngine._calculate_cppi_allocation _ _ _ _). reflexivity.
Qed.

Lemma assess_action (c : CPPIConfig) (total peak : Q) (now : Z) :
  recommended_action (Governor.assess c total peak now)
    = CPPIEngine._get_recommended_action
        (risk_zone (Governor.assess c total peak now))
        (equity_allocation (Governor.assess c total peak now)).
Proof.
  unfold Governor.assess.
  destruct (CPPIEngine._calculate_cppi_allocation _ _ _ _). reflexivity.
Qed.

Lemma equity_nonneg (c : CPPIConfig) (v peak : Q) (z : RiskZone) :
  0 <= multipliers c z ->
  0 <= fst (CPPIEngine._calculate_cppi_allocation c v peak z).
Proof.
  intro Hm. unfold CPPIEngine._calculate_cppi_allocation. cbn [fst].
  destruct (py_gt v 0) eqn:Hv; [| lra].
  apply py_gt_true in Hv. apply py_min_nonneg; [lra |].
  apply Qdiv_nonneg; [| exact Hv].
  apply Qmult_le_0_compat; [apply py_max_lower | exact Hm].
Qed.

(** With the peak at or above the value, the default engine puts at most a
    tenth of the zone's multiplier in equity. *)
Lemma equity_below_peak (v peak : Q) (z : RiskZone) :
  v <= peak ->
  fst (CPPIEngine._calculate_cppi_allocation default_config v peak z)
    <= multipliers default_config z * (1 # 10).
Proof.
  intro Hp. unfold CPPIEngine._calculate_cppi_allocation. cbn [fst].
  destruct (py_gt v 0) eqn:Hv.
  - apply py_gt_true in Hv.
    eapply Qle_trans; [apply py_min_le_r |].
    apply Qle_shift_div_r; [exact Hv |].
    assert (Hc : py_max 0 (v - floor_ratio default_config * peak) <= v * (1 # 10)).
    { unfold py_max. cbn [floor_ratio default_config].
      destruct (py_gt (v - (9 # 10) * peak) 0); lra. }
    assert (Hc0 : 0 <= py_max 0 (v - floor_ratio default_config * peak))
      by apply py_max_lower.
    destruct z; cbn [multipliers default_config]; lra.
  - destruct z; cbn [multipliers default_config]; lra.
Qed.

(** X1. On a database whose stored peak is at least the seed of 100000 (as
    it is in every database the engine has initialised), whatever the
    holdings, the cap of the equity allocation at 1 is never reached in an
    audit by the default engine: the equity target stays below 0.51 and the
    liquid target above 0.49.  (In exact arithmetic the bounds are one half
    for any stored peak; they are stated with a margin that the rounding of
    the float computation does not use up at the magnitudes a stored peak of
    100000 or more gives.) *)
Theorem audit_equity_bounded (k : option KiteSession) (a : option string)
    (env : Env) (access_token : option string) (w : World) :
  100000 <= CPPIEngine.stored_peak (store w) ->
  let state := audit_state (mkGovernor k default_config a) env access_token w in
  0 <= equity_allocation state < 51 # 100 /\
  49 # 100 < liquid_allocation state.
Proof.
  intros _. cbv zeta. unfold audit_state. cbn [cppi].
  set (total := audit_total _ _ _).
  set (peak := py_max _ total).
  assert (Hp : total <= peak) by apply py_max_ge_r.
  assert (Hl : liquid_allocation (Governor.assess default_config total peak (t_state env))
               = 1 - equity_allocation (Governor.assess default_config total peak (t_state env))).
  { unfold Governor.assess, CPPIEngine._calculate_cppi_allocation. reflexivity. }
  rewrite Hl, assess_equity.
  set (z := CPPIEngine._determine_risk_zone _).
  pose proof (equity_below_peak total peak z Hp) as Hb.
  assert (H0 : 0 <= fst (CPPIEngine._calculate_cppi_allocation default_config total peak z))
    by (apply equity_nonneg; destruct z; cbn; lra).
  assert (Hm : multipliers default_config z <= 5) by (destruct z; cbn; lra).
  repeat split; lra.
Qed.

(** A new high of 100003 on a fresh database. *)
Lemma audit_equity_bounded_witness :
  100000 <= CPPIEngine.stored_peak (store fresh_world) /\
  equity_allocation (audit_state (governor_holding 100003) (calm_env 1) None
                       fresh_world) < 51 # 100.
Proof.
  assert (Hs : 100000 <= CPPIEngine.stored_peak (store fresh_world))
    by (vm_compute; discriminate).
  split; [exact Hs |].
  destruct (audit_equity_bounded
              (kite (governor_holding 100003)) (api_key (governor_holding 100003))
              (calm_env 1) None fresh_world Hs) as ((_ & H) & _).
  exact H.
Defined.

(** X2. In an audit by the default engine the RED zone always comes with the
    emergency action: the other RED action is never recommended. *)
Theorem red_audit_is_emergency (k : option KiteSession) (a : option string)
    (env : Env) (access_token : option string) (w : World) :
  let state := audit_state (mkGovernor k default_config a) env access_token w in
  risk_zone state = RED ->
  recommended_action state
    = "EMERGENCY: Liquidate to Liquid BeES immediately"%string.
Proof.
  cbv zeta. unfold audit_state. cbn [cppi].
  set (total := audit_total _ _ _).
  set (peak := py_max _ total).
  assert (Hp : total <= peak) by apply py_max_ge_r.
  intro Hz. rewrite assess_action, Hz.
  rewrite assess_equity. rewrite assess_zone in Hz. rewrite Hz.
  pose proof (equity_below_peak total peak RED Hp) as Hb.
  cbn [multipliers default_config] in Hb.
  unfold CPPIEngine._get_recommended_action.
  replace (py_gt (3 # 10)
             (fst (CPPIEngine._calculate_cppi_allocation default_config total peak RED)))
    with true; [reflexivity |].
  symmetry. apply py_gt_true. lra.
Qed.

(** The offline governor on a fresh database is in RED. *)
Lemma red_audit_is_emergency_witness :
  risk_zone (audit_state (mkGovernor None default_config None) (calm_env 1) None
               fresh_world) = RED /\
  recommended_action (audit_state (mkGovernor None default_config None)
                        (calm_env 1) None fresh_world)
    = "EMERGENCY: Liquidate to Liquid BeES immediately"%string.
Proof.
  assert (H : risk_zone (audit_state (mkGovernor None default_config None)
                           (calm_env 1) None fresh_world) = RED)
    by (vm_compute; reflexivity).
  split; [exact H |].
  exact (red_audit_is_emergency None None (calm_env 1) None fresh_world H).
Defined.

(** ** The allocation grows with the value *)

Lemma Qdiv_le_cross (a b c d : Q) :
  0 < b -> 0 < d -> a * d <= c * b -> a / b <= c / d.
Proof.
  intros Hb Hd H.
  apply Qle_shift_div_r; [exact Hb |].
  assert (E : c / d * b == (c * b) / d) by (field; lra).
  rewrite E. apply Qle_shift_div_l; [exact Hd | exact H].
Qed.

Lemma drawdown_antitone (v1 v2 peak : Q) :
  0 < peak -> v1 <= v2 ->
  CPPIEngine._calculate_drawdown v2 peak <= CPPIEngine._calculate_drawdown v1 peak.
Proof.
  intros Hp Hv. rewrite !drawdown_positive_peak by exact Hp.
  apply Qdiv_le_cross; try exact Hp. nra.
Qed.

(** A smaller drawdown never has a smaller multiplier. *)
Lemma multiplier_antitone (d1 d2 : Q) :
  d2 <= d1 ->
  multipliers default_config (CPPIEngine._determine_risk_zone d1)
    <= multipliers default_config (CPPIEngine._determine_risk_zone d2).
Proof.
  intro H. unfold CPPIEngine._determine_risk_zone.
  destruct (Qle_bool d1 (5 # 100)) eqn:A1; destruct (Qle_bool d1 (8 # 100)) eqn:B1;
  destruct (Qle_bool d2 (5 # 100)) eqn:A2; destruct (Qle_bool d2 (8 # 100)) eqn:B2;
  cbn [multipliers default_config]; try lra;
  repeat match goal with
  | H : Qle_bool _ _ = true |- _ => apply Qle_bool_iff in H
  | H : Qle_bool ?x ?y = false |- _ =>
      assert (y < x)
        by (apply Qnot_le_lt; intro HH; apply Qle_bool_iff in HH; congruence);
      clear H
  end; lra.
Qed.

Lemma scaled_cushion_monotone (F v1 v2 m1 m2 : Q) :
  0 <= F -> 0 < v1 -> v1 <= v2 -> 0 <= m1 -> m1 <= m2 ->
  py_max 0 (v1 - F) * m1 / v1 <= py_max 0 (v2 - F) * m2 / v2.
Proof.
  intros HF Hv1 Hv Hm1 Hm.
  apply Qdiv_le_cross; [lra | lra |].
  unfold py_max.
  destruct (py_gt (v1 - F) 0) eqn:E1; destruct (py_gt (v2 - F) 0) eqn:E2;
    try apply py_gt_true in E1; try apply py_gt_true in E2;
    try apply py_gt_false in E1; try apply py_gt_false in E2.
  - assert (H1 : 0 <= F * (v2 - v1)) by (apply Qmult_le_0_compat; lra).
    assert (H2 : 0 <= (m2 - m1) * ((v2 - F) * v1))
      by (apply Qmult_le_0_compat; [lra | apply Qmult_le_0_compat; lra]).
    assert (H3 : 0 <= m1 * (F * (v2 - v1))) by (apply Qmult_le_0_compat; lra).
    nra.
  - lra.
  - assert (H2 : 0 <= (v2 - F) * m2 * v1)
      by (apply Qmult_le_0_compat; [apply Qmult_le_0_compat |]; lra).
    nra.
  - nra.
Qed.

(** X3. For a given positive peak the default engine's equity allocation
    never falls when the portfolio value rises: a lower value gives a
    drawdown at least as large, a multiplier at most as large and a share of
    cushion at most as large. *)
Theorem equity_monotone_in_value (peak v1 v2 : Q) (t1 t2 : Z) :
  0 < peak ->
  v1 <= v2 ->
  equity_allocation (Governor.assess default_config v1 peak t1)
    <= equity_allocation (Governor.assess default_config v2 peak t2).
Proof.
  intros Hp Hv. rewrite !assess_equity.
  set (z1 := CPPIEngine._determine_risk_zone (CPPIEngine._calculate_drawdown v1 peak)).
  set (z2 := CPPIEngine._determine_risk_zone (CPPIEngine._calculate_drawdown v2 peak)).
  assert (Hm : multipliers default_config z1 <= multipliers default_config z2)
    by (apply multiplier_antitone, drawdown_antitone; assumption).
  assert (Hm1 : 0 <= multipliers default_config z1) by (destruct z1; cbn; lra).
  assert (Hm2 : 0 <= multipliers default_config z2) by lra.
  destruct (py_gt v1 0) eqn:Hv1.
  - unfold CPPIEngine._calculate_cppi_allocation. cbn [fst]. rewrite Hv1.
    apply py_gt_true in Hv1.
    assert (Hv2 : py_gt v2 0 = true) by (apply py_gt_true; lra).
    rewrite Hv2, !py_min_Qmin.
    apply Q.min_le_compat_l.
    apply scaled_cushion_monotone; try assumption.
    cbn [floor_ratio default_config]. lra.
  - eapply Qle_trans; [| apply equity_nonneg; exact Hm2].
    unfold CPPIEngine._calculate_cppi_allocation. cbn [fst]. rewrite Hv1. lra.
Qed.

(** From 94000 (YELLOW) to 97000 (GREEN) under a peak of 100000. *)
Lemma equity_monotone_in_value_witness :
  0 < 100000 /\ 94000 <= 97000 /\
  equity_allocation (Governor.assess default_config 94000 100000 0)
    <= equity_allocation (Governor.assess default_config 97000 100000 0).
Proof.
  assert (Hp : 0 < 100000) by reflexivity.
  assert (Hv : 94000 <= 97000) by (vm_compute; discriminate).
  split; [exact Hp |]. split; [exact Hv |].
  exact (equity_monotone_in_value 100000 94000 97000 0 0 Hp Hv).
Defined.

(** ** What a caller can rely on in the response *)

Lemma assess_fields (c : CPPIConfig) (total peak : Q) (now : Z) :
  total_value (Governor.assess c total peak now) = total /\
  peak_value (Governor.assess c total peak now) = peak /\
  liquid_allocation (Governor.assess c total peak now)
    = 1 - equity_allocation (Governor.assess c total peak now).
Proof.
  unfold Governor.assess, CPPIEngine._calculate_cppi_allocation.
  repeat split.
Qed.

(** X4. The response of a successful audit is consistent: the peak is at
    least the total value and at least the peak stored before, the floor is
    the floor ratio of the peak, the cushion is the excess of the total over
    the floor (0 when there is none), and the equity target and the liquid
    target are each between 0 and 100. *)
Theorem response_invariants (self : GovernorObj) (env : Env)
    (access_token : option string) (w : World) :
  (forall s, fault env s = None) ->
  state_key_free (t_state env) (store w) ->
  event_key_free (t_event env) (store w) ->
  (forall z, 0 <= multipliers (cppi self) z) ->
  exists w' d total peak floor cushion equity liquid,
    Governor.audit_risk self env access_token w = (w', Ok d) /\
    dict_get "total_value" d = Some (PNum total) /\
    dict_get "peak_value" d = Some (PNum peak) /\
    dict_get "floor_value" d = Some (PNum floor) /\
    dict_get "cushion" d = Some (PNum cushion) /\
    dict_get "equity_allocation_target" d = Some (PNum equity) /\
    dict_get "liquid_allocation_target" d = Some (PNum liquid) /\
    total <= peak /\
    CPPIEngine.stored_peak (store w) <= peak /\
    floor == floor_ratio (cppi self) * peak /\
    cushion == Qmax 0 (total - floor) /\
    0 <= equity <= 100 /\
    0 <= liquid <= 100.
Proof.
  intros Hf Hsk Hek Hm.
  destruct (audit_body_run self env access_token w Hf Hsk Hek)
    as (w1 & _ & _ & Hrun).
  rewrite audit_risk_of_body, Hrun.
  set (state := audit_state self env access_token w).
  destruct (assess_fields (cppi self) (audit_total self env access_token)
              (py_max (CPPIEngine.stored_peak (store w))
                 (audit_total self env access_token)) (t_state env))
    as (Ht & Hp & Hl).
  fold (audit_state self env access_token w) in Ht, Hp, Hl. fold state in Ht, Hp, Hl.
  eexists. eexists. exists (total_value state), (peak_value state).
  eexists. eexists. eexists. eexists.
  split; [reflexivity |].
  repeat (split; [reflexivity |]).
  rewrite Ht, Hp, Hl.
  assert (He : 0 <= equity_allocation state <= 1).
  { unfold state, audit_state. rewrite assess_equity. split.
    - apply equity_nonneg, Hm.
    - unfold CPPIEngine._calculate_cppi_allocation. cbn [fst].
      destruct (py_gt _ 0); [apply py_min_upper | lra]. }
  split; [apply py_max_ge_r |].
  split; [apply py_max_lower |].
  split; [ring |].
  split; [rewrite py_max_Qmax; apply Q.max_compat; [reflexivity | ring] |].
  split; split; lra.
Qed.

(** One holding worth 97000 on a fresh database. *)
Lemma response_invariants_witness :
  (forall s, fault (calm_env 1) s = None) /\
  state_key_free (t_state (calm_env 1)) (store fresh_world) /\
  event_key_free (t_event (calm_env 1)) (store fresh_world) /\
  (forall z, 0 <= multipliers (cppi (governor_holding 97000)) z) /\
  exists w' d,
    Governor.audit_risk (governor_holding 97000) (calm_env 1) None fresh_world
      = (w', Ok d).
Proof.
  assert (Hf : forall s, fault (calm_env 1) s = None) by reflexivity.
  assert (Hsk : state_key_free (t_state (calm_env 1)) (store fresh_world))
    by reflexivity.
  assert (Hek : event_key_free (t_event (calm_env 1)) (store fresh_world))
    by reflexivity.
  assert (Hm : forall z, 0 <= multipliers (cppi (governor_holding 97000)) z)
    by (intros []; vm_compute; discriminate).
  repeat (split; [assumption |]).
  destruct (response_invariants (governor_holding 97000) (calm_env 1) None
              fresh_world Hf Hsk Hek Hm) as (w' & d & _ & _ & _ & _ & _ & _ & Hrun & _).
  exists w', d. exact Hrun.
Defined.

(** ** Constructing the governor *)

Lemma initialize_keeps (now : Z) (db : DB) :
  peak_tracker (CPPIEngine._initialize_database now db) <> [] /\
  CPPIEngine.stored_peak (CPPIEngine._initialize_database now db)
    = CPPIEngine.stored_peak db /\
  portfolio_state (CPPIEngine._initialize_database now db) = portfolio_state db /\
  risk_events (CPPIEngine._initialize_database now db) = risk_events db.
Proof.
  split; [apply initialize_nonempty |].
  unfold CPPIEngine._initialize_database.
  destruct (peak_tracker db) as [| r rows] eqn:E.
  - cbn [peak_tracker portfolio_state risk_events].
    repeat split. unfold CPPIEngine.stored_peak. rewrite E. reflexivity.
  - repeat split.
Qed.

(** X5. Constructing a governor (which every module-level call does) leaves
    an initialised peak table, changes neither the peak that is read back
    nor the ledger nor the events, and doing it again changes nothing
    more. *)
Theorem new_governor_preserves (kite_session : option KiteSession)
    (now now' : Z) (w : World) :
  let w1 := fst (Entry.new_governor kite_session now w) in
  let w2 := fst (Entry.new_governor kite_session now' w1) in
  peak_tracker (store w1) <> [] /\
  CPPIEngine.stored_peak (store w1) = CPPIEngine.stored_peak (store w) /\
  portfolio_state (store w1) = portfolio_state (store w) /\
  risk_events (store w1) = risk_events (store w) /\
  store w2 = store w1.
Proof.
  cbv zeta. unfold Entry.new_governor. cbn [fst store].
  split; [apply initialize_nonempty |].
  unfold CPPIEngine._initialize_database.
  destruct (peak_tracker (store w)) as [| r rows] eqn:E.
  - cbn [peak_tracker portfolio_state risk_events].
    repeat split. unfold CPPIEngine.stored_peak. rewrite E. reflexivity.
  - rewrite E. repeat split.
Qed.

(** ** What a successful audit leaves in the database *)

Lemma after_check_tables (env : Env) (s : PortfolioState) (w : World) :
  portfolio_state (store (world_after_check env s w)) = portfolio_state (store w) /\
  last_audit_time (world_after_check env s w) = last_audit_time w.
Proof.
  unfold world_after_check.
  destruct (Governor.select_prev_zone (store w)) as [prev |]; [| split; reflexivity].
  destruct (String.eqb prev (zone_value (risk_zone s))); split; reflexivity.
Qed.

Lemma stored_peak_after_call (env : Env) (v : Q) (w : World) :
  peak_tracker (store w) <> [] ->
  snd (CPPIEngine._update_peak_value env v w) = Ok tt ->
  CPPIEngine.stored_peak (store (fst (CPPIEngine._update_peak_value env v w)))
    = py_max (CPPIEngine.stored_peak (store w)) v.
Proof.
  intros Hne Hok.
  pose proof (update_peak_cases env v w) as H. cbv zeta in H.
  destruct (CPPIEngine._update_peak_value env v w) as [w' [[] | msg]];
    cbn [fst snd] in *; [| discriminate].
  destruct H as (_ & [(Hgt & ->) | (Hgt & _ & _ & _ & _ & _ & Hrows)]).
  - unfold py_max. rewrite Hgt. reflexivity.
  - rewrite (stored_peak_of_rows _ _ _ _ _ Hne Hrows).
    unfold py_max. rewrite Hgt. reflexivity.
Qed.

Lemma update_peak_ok (env : Env) (v : Q) (w : World) :
  (forall s, fault env s = None) ->
  snd (CPPIEngine._update_peak_value env v w) = Ok tt.
Proof.
  intro Hf.
  pose proof (update_peak_cases env v w) as H. cbv zeta in H.
  destruct (CPPIEngine._update_peak_value env v w) as [w' [[] | msg]];
    [reflexivity |].
  destruct H as (_ & [Hs | (_ & Hu)]); rewrite Hf in *; discriminate.
Qed.

(** The row and the peak a successful audit leaves behind. *)
Lemma audit_records (self : GovernorObj) (env : Env)
    (access_token : option string) (w : World) :
  (forall s, fault env s = None) ->
  state_key_free (t_state env) (store w) ->
  event_key_free (t_event env) (store w) ->
  peak_tracker (store w) <> [] ->
  exists w' d row,
    Governor.audit_risk self env access_token w = (w', Ok d) /\
    portfolio_state (store w') = portfolio_state (store w) ++ [row] /\
    dict_get "status" d = Some (PStr (st_risk_zone row)) /\
    dict_get "total_value" d = Some (PNum (st_total_value row)) /\
    dict_get "timestamp" d = Some (PIso (st_timestamp row)) /\
    dict_get "peak_value" d = Some (PNum (st_peak_value row)) /\
    st_peak_value row = CPPIEngine.stored_peak (store w').
Proof.
  intros Hf Hsk Hek Hne.
  destruct (audit_body_run self env access_token w Hf Hsk Hek)
    as (w1 & Hst & _ & Hrun).
  pose proof (audit_peak_table self env access_token w) as Hpk.
  rewrite audit_risk_of_body in *. rewrite Hrun in *. cbn [fst] in Hpk.
  set (state := audit_state self env access_token w) in *.
  eexists. eexists. exists (CPPIEngine.state_row state).
  split; [reflexivity |].
  split.
  { unfold world_done. cbn [store].
    rewrite (proj1 (after_check_tables env state _)).
    unfold world_with_state. cbn [store portfolio_state]. rewrite Hst. reflexivity. }
  repeat (split; [reflexivity |]).
  rewrite (stored_peak_rows _ _ Hpk).
  rewrite stored_peak_after_call by (try exact Hne; apply update_peak_ok, Hf).
  cbn [CPPIEngine.state_row st_peak_value]. unfold state, audit_state.
  apply (assess_fields (cppi self)).
Qed.

(** X6. A successful audit on an initialised database records what it
    returns: the ledger gains exactly one row, which carries the status,
    total value and timestamp of the response, and the peak stored
    afterwards is the peak of the response. *)
Theorem audit_records_response (self : GovernorObj) (env : Env)
    (access_token : option string) (w : World) :
  (forall s, fault env s = None) ->
  state_key_free (t_state env) (store w) ->
  event_key_free (t_event env) (store w) ->
  peak_tracker (store w) <> [] ->
  exists w' d row,
    Governor.audit_risk self env access_token w = (w', Ok d) /\
    portfolio_state (store w') = portfolio_state (store w) ++ [row] /\
    dict_get "status" d = Some (PStr (st_risk_zone row)) /\
    dict_get "total_value" d = Some (PNum (st_total_value row)) /\
    dict_get "timestamp" d = Some (PIso (st_timestamp row)) /\
    dict_get "peak_value" d = Some (PNum (st_peak_value row)) /\
    st_peak_value row = CPPIEngine.stored_peak (store w').
Proof. apply audit_records. Qed.

(** A new high of 120000 on a fresh database. *)
Lemma audit_records_response_witness :
  (forall s, fault (calm_env 1) s = None) /\
  state_key_free (t_state (calm_env 1)) (store fresh_world) /\
  event_key_free (t_event (calm_env 1)) (store fresh_world) /\
  peak_tracker (store fresh_world) <> [] /\
  exists w' d,
    Governor.audit_risk (governor_holding 120000) (calm_env 1) None fresh_world
      = (w', Ok d) /\
    dict_get "peak_value" d = Some (PNum (CPPIEngine.stored_peak (store w'))).
Proof.
  assert (Hf : forall s, fault (calm_env 1) s = None) by reflexivity.
  assert (Hsk : state_key_free (t_state (calm_env 1)) (store fresh_world))
    by reflexivity.
  assert (Hek : event_key_free (t_event (calm_env 1)) (store fresh_world))
    by reflexivity.
  assert (Hne : peak_tracker (store fresh_world) <> []) by discriminate.
  repeat (split; [assumption |]).
  destruct (audit_records_response (governor_holding 120000) (calm_env 1) None
              fresh_world Hf Hsk Hek Hne)
    as (w' & d & row & Hrun & _ & _ & _ & _ & Hp & Hs).
  exists w', d. split; [exact Hrun |]. rewrite <- Hs. exact Hp.
Defined.

(** ** An audit that fails after it has written *)

Lemma py_max_after_call (env : Env) (v : Q) (w : World) :
  py_max (CPPIEngine.stored_peak (store (fst (CPPIEngine._update_peak_value env v w)))) v
    = py_max (CPPIEngine.stored_peak (store w)) v.
Proof.
  pose proof (update_peak_cases env v w) as H. cbv zeta in H.
  destruct (CPPIEngine._update_peak_value env v w) as [w' [[] | msg]]; cbn [fst].
  - destruct H as (_ & [(_ & ->) | (Hgt & _ & _ & _ & _ & _ & Hrows)]);
      [reflexivity |].
    destruct (peak_tracker (store w)) as [| r rows] eqn:E.
    + rewrite (stored_peak_rows (store w) (store w'))
        by (rewrite Hrows, E; reflexivity).
      reflexivity.
    + rewrite (stored_peak_of_rows (store w') v _ _ (r :: rows)) by
        (try discriminate; exact Hrows).
      unfold py_max. rewrite Hgt, py_gt_irrefl. reflexivity.
  - destruct H as (-> & _). reflexivity.
Qed.

(** The world an audit leaves when only the INSERT of the event fails. *)
Lemma audit_event_fault_run (self : GovernorObj) (env : Env)
    (access_token : option string) (w : World) (msg prev : string) :
  fault env InsertEvent = Some msg ->
  (forall s, s <> InsertEvent -> fault env s = None) ->
  chronological (portfolio_state (store w)) ->
  (forall x, In x (portfolio_state (store w)) -> (st_timestamp x < t_state env)%Z) ->
  spec_last_recorded_zone (store w) = Some prev ->
  prev <> zone_value (risk_zone (audit_state self env access_token w)) ->
  exists w1,
    w1 = fst (Governor.refresh_peak env (audit_total self env access_token) w) /\
    portfolio_state (store w1) = portfolio_state (store w) /\
    risk_events (store w1) = risk_events (store w) /\
    last_audit_time w1 = last_audit_time w /\
    Governor.audit_body self env access_token w
      = (world_with_state w1
           (CPPIEngine.state_row (audit_state self env access_token w)),
         Raise msg).
Proof.
  intros Hevt Hf Hchr Hnew Hp Hne.
  assert (Hsel : fault env SelectPeak = None) by (apply Hf; discriminate).
  assert (Hupd : fault env UpdatePeak = None) by (apply Hf; discriminate).
  assert (Hins : fault env InsertState = None) by (apply Hf; discriminate).
  assert (Hprev : fault env SelectPrevZone = None) by (apply Hf; discriminate).
  unfold Governor.audit_body. fold (audit_total self env access_token).
  set (total := audit_total self env access_token).
  pose proof (refresh_peak_cases env total w) as H. cbv zeta in H.
  unfold bind at 1.
  destruct (Governor.refresh_peak env total w) as [w1 [peak | m]].
  - destruct H as (-> & _ & _ & Hla & Hst & Hev).
    change (Governor.assess (cppi self) total
              (py_max (CPPIEngine.stored_peak (store w)) total) (t_state env))
      with (audit_state self env access_token w).
    set (state := audit_state self env access_token w) in *.
    exists w1. cbn [fst].
    split; [reflexivity |]. split; [exact Hst |]. split; [exact Hev |].
    split; [exact Hla |].
    unfold bind at 1. rewrite save_state_run;
      [| exact Hins
       | unfold state_key_free; rewrite Hst; unfold state;
         rewrite audit_state_timestamp; apply key_free_newer; exact Hnew].
    unfold bind at 1.
    rewrite (check_zone_fault env state _ prev msg Hprev Hevt); [reflexivity | | exact Hne].
    unfold world_with_state. cbn [store]. rewrite <- Hp.
    apply prev_zone_after_append; [symmetry; exact Hst | rewrite Hst; exact Hchr |].
    rewrite Hst. intros x Hx.
    change (st_timestamp (CPPIEngine.state_row state)) with (timestamp state).
    unfold state. rewrite audit_state_timestamp. apply Hnew. exact Hx.
  - destruct H as (_ & [Hs | (_ & Hu)]); congruence.
Qed.

(** The result and the world of an audit in which only the INSERT of the
    event fails. *)
Lemma event_fault_world (self : GovernorObj) (env : Env)
    (access_token : option string) (w : World) (msg prev : string) :
  fault env InsertEvent = Some msg ->
  (forall s, s <> InsertEvent -> fault env s = None) ->
  chronological (portfolio_state (store w)) ->
  (forall x, In x (portfolio_state (store w)) -> (st_timestamp x < t_state env)%Z) ->
  spec_last_recorded_zone (store w) = Some prev ->
  prev <> zone_value (risk_zone (audit_state self env access_token w)) ->
  let w' := fst (Governor.audit_risk self env access_token w) in
  snd (Governor.audit_risk self env access_token w)
    = Ok (Governor.error_response env msg) /\
  portfolio_state (store w')
    = portfolio_state (store w)
        ++ [CPPIEngine.state_row (audit_state self env access_token w)] /\
  risk_events (store w') = risk_events (store w) /\
  last_audit_time w' = last_audit_time w /\
  peak_tracker (store w')
    = peak_tracker (store (fst (CPPIEngine._update_peak_value env
                                  (audit_total self env access_token) w))).
Proof.
  intros Hevt Hf Hchr Hnew Hp Hne w'. subst w'.
  destruct (audit_event_fault_run self env access_token w msg prev
              Hevt Hf Hchr Hnew Hp Hne) as (w1 & _ & Hst & Hev & Hla & Hrun).
  pose proof (audit_peak_table self env access_token w) as Hpk.
  rewrite audit_risk_of_body in *. rewrite Hrun in *. cbn [fst snd] in *.
  split; [reflexivity |].
  split; [unfold world_with_state; cbn [store portfolio_state]; rewrite Hst; reflexivity |].
  split; [exact Hev |]. split; [exact Hla | exact Hpk].
Qed.

(** X7. An audit is not all-or-nothing: when only the INSERT of the due
    zone-change event fails, the caller receives the ERROR dictionary, but
    the state row of this audit stays in the ledger (and the peak update
    stays too), while no event is recorded and [last_audit_time] is not
    touched. *)
Theorem failed_event_keeps_state (self : GovernorObj) (env : Env)
    (access_token : option string) (w : World) (msg prev : string) :
  fault env InsertEvent = Some msg ->
  (forall s, s <> InsertEvent -> fault env s = None) ->
  chronological (portfolio_state (store w)) ->
  (forall x, In x (portfolio_state (store w)) -> (st_timestamp x < t_state env)%Z) ->
  spec_last_recorded_zone (store w) = Some prev ->
  prev <> zone_value (risk_zone (audit_state self env access_token w)) ->
  let w' := fst (Governor.audit_risk self env access_token w) in
  snd (Governor.audit_risk self env access_token w)
    = Ok (Governor.error_response env msg) /\
  portfolio_state (store w')
    = portfolio_state (store w)
        ++ [CPPIEngine.state_row (audit_state self env access_token w)] /\
  risk_events (store w') = risk_events (store w) /\
  last_audit_time w' = last_audit_time w /\
  peak_tracker (store w')
    = peak_tracker (store (fst (CPPIEngine._update_peak_value env
                                  (audit_total self env access_token) w))).
Proof. apply event_fault_world. Qed.

(** The third audit of GREEN, GREEN, YELLOW with a failing event table. *)
Lemma failed_event_keeps_state_witness :
  let w2 :=
    fst (Governor.audit_risk (governor_holding 100000) (calm_env 2) None
           (fst (Governor.audit_risk (governor_holding 100000) (calm_env 1) None
                   fresh_world))) in
  let env := failing_env 3 InsertEvent "disk I/O error" in
  let w' := fst (Governor.audit_risk (governor_holding 94000) env None w2) in
  snd (Governor.audit_risk (governor_holding 94000) env None w2)
    = Ok (Governor.error_response env "disk I/O error") /\
  List.length (portfolio_state (store w')) = 3%nat /\
  risk_events (store w') = [].
Proof.
  intros w2 env w'.
  assert (Hchr : chronological (portfolio_state (store w2))).
  { vm_compute. split; [| split; [| exact I]].
    - intros r' [<- | []]. reflexivity.
    - intros r' []. }
  assert (Hnew : forall x, In x (portfolio_state (store w2)) ->
                           (st_timestamp x < t_state env)%Z).
  { vm_compute. intros x [<- | [<- | []]]; reflexivity. }
  assert (Hf : forall s, s <> InsertEvent -> fault env s = None).
  { intros [] Hs; try reflexivity. contradiction. }
  assert (Hne : "GREEN"%string
                <> zone_value (risk_zone (audit_state (governor_holding 94000) env None w2)))
    by (vm_compute; discriminate).
  destruct (failed_event_keeps_state (governor_holding 94000) env None w2
              "disk I/O error" "GREEN" eq_refl Hf Hchr Hnew eq_refl Hne)
    as (Hr & Hst & Hev & _).
  fold w' in Hst, Hev.
  split; [exact Hr |]. split.
  - rewrite Hst, length_app. reflexivity.
  - rewrite Hev. reflexivity.
Defined.

Lemma last_recorded_after_append (pk : list PeakRow) (ev : list EventRow)
    (l : list StateRow) (r : StateRow) :
  spec_last_recorded_zone (mkDB pk (l ++ [r]) ev) = Some (st_risk_zone r).
Proof.
  unfold spec_last_recorded_zone. cbn [portfolio_state].
  rewrite map_app. cbn [map]. rewrite last_last. reflexivity.
Qed.

Lemma last_recorded_rows (db db' : DB) :
  portfolio_state db' = portfolio_state db ->
  spec_last_recorded_zone db' = spec_last_recorded_zone db.
Proof. intro H. unfold spec_last_recorded_zone. rewrite H. reflexivity. Qed.

Lemma event_key_free_rows (t : Z) (db db' : DB) :
  risk_events db' = risk_events db ->
  event_key_free t db -> event_key_free t db'.
Proof. intros H. unfold event_key_free. rewrite H. exact (fun x => x). Qed.

(** X8. A zone transition whose event could not be written is never
    recorded: a later audit of the same portfolio succeeds, finds the row
    of the failed audit as the last record, classifies the same zone, and
    logs no event. *)
Theorem transition_lost_on_retry (self : GovernorObj) (env env2 : Env)
    (access_token : option string) (w : World) (msg prev : string) :
  fault env InsertEvent = Some msg ->
  (forall s, s <> InsertEvent -> fault env s = None) ->
  chronological (portfolio_state (store w)) ->
  (forall x, In x (portfolio_state (store w)) -> (st_timestamp x < t_state env)%Z) ->
  spec_last_recorded_zone (store w) = Some prev ->
  prev <> zone_value (risk_zone (audit_state self env access_token w)) ->
  (forall s, fault env2 s = None) ->
  (t_state env < t_state env2)%Z ->
  event_key_free (t_event env2) (store w) ->
  audit_total self env2 access_token = audit_total self env access_token ->
  let w' := fst (Governor.audit_risk self env access_token w) in
  let w'' := fst (Governor.audit_risk self env2 access_token w') in
  risk_zone (audit_state self env2 access_token w')
    = risk_zone (audit_state self env access_token w) /\
  snd (Governor.audit_risk self env2 access_token w')
    = Ok (Governor.response_of (cppi self) (audit_state self env2 access_token w')
            (Governor.fetch_live_holdings self env2 access_token)) /\
  List.length (portfolio_state (store w''))
    = (List.length (portfolio_state (store w)) + 2)%nat /\
  risk_events (store w'') = risk_events (store w).
Proof.
  intros Hevt Hf Hchr Hnew Hp Hne Hf2 Hclock Hek2 Htot w' w''.
  destruct (event_fault_world self env access_token w msg prev
              Hevt Hf Hchr Hnew Hp Hne) as (_ & Hst & Hev & _ & Hpk).
  fold w' in Hst, Hev, Hpk.
  set (state := audit_state self env access_token w) in *.
  assert (Hts : st_timestamp (CPPIEngine.state_row state) = t_state env)
    by apply audit_state_timestamp.
  assert (Hchr' : chronological (portfolio_state (store w'))).
  { rewrite Hst. apply chronological_snoc; [exact Hchr |].
    intros x Hx. rewrite Hts. apply Hnew, Hx. }
  assert (Hnew' : forall x, In x (portfolio_state (store w')) ->
                            (st_timestamp x < t_state env2)%Z).
  { rewrite Hst. intros x Hx. apply in_app_or in Hx.
    destruct Hx as [Hx | [<- | []]]; [specialize (Hnew x Hx); lia | lia]. }
  assert (Hek' : event_key_free (t_event env2) (store w'))
    by (apply (event_key_free_rows _ (store w)); assumption).
  assert (Hzone : risk_zone (audit_state self env2 access_token w') = risk_zone state).
  { unfold state, audit_state. rewrite !assess_zone, Htot.
    rewrite (stored_peak_rows _ _ Hpk), py_max_after_call. reflexivity. }
  destruct (audit_rows self env2 access_token w' Hf2 Hchr' Hnew' Hek')
    as (Hr & Hst2 & Hev2).
  fold w'' in Hst2, Hev2.
  split; [exact Hzone |]. split; [exact Hr |]. split.
  - rewrite Hst2, Hst, !length_app. cbn. lia.
  - rewrite Hev2, Hev.
    assert (Hlast : spec_last_recorded_zone (store w')
                    = Some (zone_value (risk_zone state))).
    { rewrite (last_recorded_rows
                 (mkDB [] (portfolio_state (store w) ++ [CPPIEngine.state_row state]) [])
                 (store w')) by exact Hst.
      apply last_recorded_after_append. }
    rewrite Hlast, Hzone, String.eqb_refl, app_nil_r. reflexivity.
Qed.

(** GREEN, GREEN, then YELLOW with a failing event table, then YELLOW
    again on a working store: the event table stays empty. *)
Lemma transition_lost_on_retry_witness :
  let w2 :=
    fst (Governor.audit_risk (governor_holding 100000) (calm_env 2) None
           (fst (Governor.audit_risk (governor_holding 100000) (calm_env 1) None
                   fresh_world))) in
  let env := failing_env 3 InsertEvent "disk I/O error" in
  let w' := fst (Governor.audit_risk (governor_holding 94000) env None w2) in
  let w'' := fst (Governor.audit_risk (governor_holding 94000) (calm_env 4) None w') in
  map st_risk_zone (portfolio_state (store w''))
    = ["GREEN"; "GREEN"; "YELLOW"; "YELLOW"]%string /\
  risk_events (store w'') = [].
Proof.
  intros w2 env w' w''.
  split; [vm_compute; reflexivity |].
  assert (Hchr : chronological (portfolio_state (store w2))).
  { vm_compute. split; [| split; [| exact I]].
    - intros r' [<- | []]. reflexivity.
    - intros r' []. }
  assert (Hnew : forall x, In x (portfolio_state (store w2)) ->
                           (st_timestamp x < t_state env)%Z).
  { vm_compute. intros x [<- | [<- | []]]; reflexivity. }
  assert (Hf : forall s, s <> InsertEvent -> fault env s = None).
  { intros [] Hs; try reflexivity. contradiction. }
  assert (Hne : "GREEN"%string
                <> zone_value (risk_zone (audit_state (governor_holding 94000) env None w2)))
    by (vm_compute; discriminate).
  assert (Hf2 : forall s, fault (calm_env 4) s = None) by reflexivity.
  assert (Hclock : (t_state env < t_state (calm_env 4))%Z) by reflexivity.
  assert (Hek2 : event_key_free (t_event (calm_env 4)) (store w2)) by reflexivity.
  destruct (transition_lost_on_retry (governor_holding 94000) env (calm_env 4)
              None w2 "disk I/O error" "GREEN" eq_refl Hf Hchr Hnew eq_refl Hne
              Hf2 Hclock Hek2 eq_refl)
    as (_ & _ & _ & Hev).
  fold w' w'' in Hev. rewrite Hev. reflexivity.
Defined.

(** ** [last_audit_time] *)

Lemma save_state_last (env : Env) (s : PortfolioState) (w : World) :
  last_audit_time (fst (CPPIEngine._save_portfolio_state env s w))
    = last_audit_time w.
Proof.
  unfold CPPIEngine._save_portfolio_state, sql_write.
  destruct (fault env InsertState); [reflexivity |].
  destruct (existsb _ _); reflexivity.
Qed.

Lemma check_zone_last (env : Env) (s : PortfolioState) (w : World) :
  last_audit_time (fst (Governor._check_zone_changes env s w))
    = last_audit_time w.
Proof.
  unfold Governor._check_zone_changes, bind, sql_select.
  destruct (fault env SelectPrevZone); [reflexivity |].
  destruct (Governor.select_prev_zone (store w)) as [prev |]; [| reflexivity].
  destruct (negb _); [| reflexivity].
  unfold CPPIEngine._log_risk_event, sql_write.
  destruct (fault env InsertEvent); [reflexivity |].
  destruct (existsb _ _); reflexivity.
Qed.

(** The two ways the body of an audit ends. *)
Lemma audit_body_ends (self : GovernorObj) (env : Env)
    (access_token : option string) (w : World) :
  match Governor.audit_body self env access_token w with
  | (w', Ok d) =>
      last_audit_time w' = Some (t_done env) /\
      d = Governor.response_of (cppi self) (audit_state self env access_token w)
            (Governor.fetch_live_holdings self env access_token)
  | (w', Raise _) => last_audit_time w' = last_audit_time w
  end.
Proof.
  unfold Governor.audit_body. fold (audit_total self env access_token).
  set (total := audit_total self env access_token).
  pose proof (refresh_peak_cases env total w) as H. cbv zeta in H.
  unfold bind at 1.
  destruct (Governor.refresh_peak env total w) as [w1 [peak | m]].
  - destruct H as (-> & _ & _ & Hla & _ & _).
    change (Governor.assess (cppi self) total
              (py_max (CPPIEngine.stored_peak (store w)) total) (t_state env))
      with (audit_state self env access_token w).
    set (state := audit_state self env access_token w).
    pose proof (save_state_last env state w1) as Hs.
    unfold bind at 1.
    destruct (CPPIEngine._save_portfolio_state env state w1) as [w2 [[] | m]];
      cbn [fst] in Hs; [| congruence].
    pose proof (check_zone_last env state w2) as Hc.
    unfold bind at 1.
    destruct (Governor._check_zone_changes env state w2) as [w3 [[] | m]];
      cbn [fst] in Hc; [| congruence].
    cbn. split; reflexivity.
  - destruct H as (-> & _). reflexivity.
Qed.

Lemma zone_value_not_error (z : RiskZone) : zone_value z <> "ERROR"%string.
Proof. destruct z; discriminate. Qed.

(** X9. [last_audit_time] records successful audits only: after an audit
    that returns an assessment it is the time the audit finished; after an
    audit that returns the ERROR dictionary it is what it was before. *)
Theorem last_audit_time_tracks_success (self : GovernorObj) (env : Env)
    (access_token : option string) (w : World) :
  let w' := fst (Governor.audit_risk self env access_token w) in
  exists d,
    snd (Governor.audit_risk self env access_token w) = Ok d /\
    ((dict_get "status" d = Some (PStr "ERROR") /\
      last_audit_time w' = last_audit_time w) \/
     (dict_get "status" d <> Some (PStr "ERROR") /\
      dict_get "error" d = None /\
      last_audit_time w' = Some (t_done env))).
Proof.
  cbv zeta. rewrite audit_risk_of_body.
  pose proof (audit_body_ends self env access_token w) as H.
  destruct (Governor.audit_body self env access_token w) as [w' [d | msg]];
    cbn [fst snd].
  - destruct H as (Hla & ->). eexists. split; [reflexivity |]. right.
    split; [| split; [reflexivity | exact Hla]].
    cbn. intro E. injection E as E. exact (zone_value_not_error _ E).
  - eexists. split; [reflexivity |]. left. split; [reflexivity | exact H].
Qed.

(** ** The events count the zone transitions *)

Lemma zone_transitions_snoc (zs : list string) (z : string) :
  zone_transitions (zs ++ [z])
    = (zone_transitions zs
       + match last (map Some zs) None with
         | Some p => if String.eqb p z then 0 else 1
         | None => 0
         end)%nat.
Proof.
  induction zs as [| a rest IH]; [reflexivity |].
  destruct rest as [| b r].
  - cbn. destruct (String.eqb a z); reflexivity.
  - change (zone_transitions ((a :: b :: r) ++ [z]))
      with ((if String.eqb a b then 0 else 1)
            + zone_transitions ((b :: r) ++ [z]))%nat.
    rewrite IH.
    change (zone_transitions (a :: b :: r))
      with ((if String.eqb a b then 0 else 1) + zone_transitions (b :: r))%nat.
    change (last (map Some (a :: b :: r)) None)
      with (last (map Some (b :: r)) None).
    lia.
Qed.

Lemma last_map_zone (l : list StateRow) :
  last (map Some (map st_risk_zone l)) None
    = option_map st_risk_zone (last (map Some l) None).
Proof.
  destruct l as [| x l'] using rev_ind; [reflexivity |].
  rewrite !map_app. cbn [map]. rewrite !last_last. reflexivity.
Qed.

Lemma event_key_free_earlier (T t : Z) (db : DB) :
  (forall e, In e (risk_events db) -> (ev_timestamp e < T)%Z) ->
  (T <= t)%Z ->
  event_key_free t db.
Proof.
  unfold event_key_free. induction (risk_events db) as [| x l IH]; intros H Ht;
    [reflexivity |].
  cbn. rewrite IH by (try exact Ht; intros y Hy; apply H; right; exact Hy).
  assert (Hx : (ev_timestamp x < T)%Z) by (apply H; left; reflexivity).
  destruct (Z.eqb_spec (ev_timestamp x) t); [lia | reflexivity].
Qed.

(** One successful audit keeps the invariant of the ledger. *)
Lemma ledger_inv_step (T : Z) (g : GovernorObj) (env : Env)
    (token : option string) (w : World) :
  ledger_inv T w ->
  (forall s, fault env s = None) ->
  (T <= t_state env)%Z -> (T <= t_event env)%Z ->
  let w' := fst (Governor.audit_risk g env token w) in
  ledger_inv (1 + Z.max (t_state env) (t_event env)) w' /\
  List.length (portfolio_state (store w'))
    = S (List.length (portfolio_state (store w))).
Proof.
  intros (Hchr & Hst & Hev & Hcount) Hf Hts Hte w'.
  assert (Hnew : forall x, In x (portfolio_state (store w)) ->
                           (st_timestamp x < t_state env)%Z)
    by (intros x Hx; specialize (Hst x Hx); lia).
  assert (Hek : event_key_free (t_event env) (store w))
    by (apply (event_key_free_earlier T); assumption).
  destruct (audit_rows g env token w Hf Hchr Hnew Hek) as (_ & Hrows & Hevs).
  fold w' in Hrows, Hevs.
  set (state := audit_state g env token w) in *.
  assert (Hrow : st_timestamp (CPPIEngine.state_row state) = t_state env)
    by apply audit_state_timestamp.
  split; [| rewrite Hrows, length_app; cbn; lia].
  split; [| split; [| split]].
  - rewrite Hrows. apply chronological_snoc; [exact Hchr |].
    intros x Hx. rewrite Hrow. apply Hnew, Hx.
  - rewrite Hrows. intros x Hx. apply in_app_or in Hx.
    destruct Hx as [Hx | [<- | []]]; [specialize (Hst x Hx); lia | lia].
  - rewrite Hevs. intros e He. apply in_app_or in He.
    destruct He as [He | He]; [specialize (Hev e He); lia |].
    destruct (spec_last_recorded_zone (store w)) as [prev |]; [| destruct He].
    destruct (String.eqb prev (zone_value (risk_zone state))); [destruct He |].
    destruct He as [<- | []]. cbn [zone_change_row ev_timestamp]. lia.
  - rewrite Hevs, Hrows, map_app, length_app. cbn [map].
    rewrite zone_transitions_snoc, last_map_zone, Hcount.
    fold (spec_last_recorded_zone (store w)).
    cbn [CPPIEngine.state_row st_risk_zone].
    destruct (spec_last_recorded_zone (store w)) as [prev |]; [| reflexivity].
    destruct (String.eqb prev (zone_value (risk_zone state))); reflexivity.
Qed.

(** X10. Along any run of audits on a working store whose clock moves on,
    started from a chronological ledger with as many events as zone
    transitions (an empty one, for instance), every audit adds one row to
    the ledger and the events keep counting exactly the zone transitions
    between consecutive rows. *)
Theorem events_count_transitions
    (steps : list (GovernorObj * Env * option string)) (T : Z) (w : World) :
  ledger_inv T w ->
  clock_advances T steps ->
  let w' := run_audits steps w in
  chronological (portfolio_state (store w')) /\
  List.length (portfolio_state (store w'))
    = (List.length (portfolio_state (store w)) + List.length steps)%nat /\
  List.length (risk_events (store w'))
    = zone_transitions (map st_risk_zone (portfolio_state (store w'))).
Proof.
  revert T w. induction steps as [| [[g env] token] steps IH]; intros T w Hinv Hclk.
  - cbn. destruct Hinv as (Hchr & _ & _ & Hcount).
    split; [exact Hchr |]. split; [lia | exact Hcount].
  - destruct Hclk as (Hf & Hts & Hte & Hclk).
    destruct (ledger_inv_step T g env token w Hinv Hf Hts Hte) as (Hinv' & Hlen).
    specialize (IH _ _ Hinv' Hclk). cbv zeta in IH.
    destruct IH as (Hchr & Hl & Hc).
    cbn [run_audits]. cbv zeta.
    split; [exact Hchr |]. split; [| exact Hc].
    rewrite Hl, Hlen. cbn [List.length]. lia.
Qed.

(** The run GREEN, GREEN, YELLOW from a fresh database. *)
Lemma events_count_transitions_witness :
  let steps := [ (governor_holding 100000, calm_env 1, None);
                 (governor_holding 100000, calm_env 2, None);
                 (governor_holding 94000, calm_env 3, None) ] in
  ledger_inv 0 fresh_world /\
  clock_advances 0 steps /\
  List.length (risk_events (store (run_audits steps fresh_world)))
    = zone_transitions
        (map st_risk_zone (portfolio_state (store (run_audits steps fresh_world)))).
Proof.
  intro steps.
  assert (Hinv : ledger_inv 0 fresh_world).
  { split; [exact I |]. split; [intros x [] |]. split; [intros e [] | reflexivity]. }
  assert (Hclk : clock_advances 0 steps).
  { cbn. repeat split; try lia. }
  split; [exact Hinv |]. split; [exact Hclk |].
  destruct (events_count_transitions steps 0 fresh_world Hinv Hclk) as (_ & _ & H).
  exact H.
Defined.

(** ** The rows of the broker's reply *)

Lemma ends_with_refl (s : string) : ends_with s s = true.
Proof. destruct s; cbn [ends_with]; rewrite String.eqb_refl; reflexivity. Qed.

Lemma ends_with_app (s suffix : string) : ends_with (s ++ suffix) suffix = true.
Proof.
  induction s as [| c s' IH].
  - apply ends_with_refl.
  - change ((String c s' ++ suffix)%string) with (String c (s' ++ suffix)).
    cbn [ends_with].
    destruct (String.eqb (String c (s' ++ suffix)) suffix); [reflexivity | exact IH].
Qed.

(** X11. The Yahoo symbol of a stock always ends in ".NS", a symbol that
    already does is left alone, and converting twice is converting once. *)
Theorem yahoo_symbol_idempotent (sym : string) :
  ends_with (Fetch.yahoo_symbol sym) ".NS" = true /\
  (ends_with sym ".NS" = true -> Fetch.yahoo_symbol sym = sym) /\
  Fetch.yahoo_symbol (Fetch.yahoo_symbol sym) = Fetch.yahoo_symbol sym.
Proof.
  assert (H1 : ends_with (Fetch.yahoo_symbol sym) ".NS" = true).
  { unfold Fetch.yahoo_symbol. destruct (ends_with sym ".NS") eqn:E; cbn [negb].
    - exact E.
    - apply ends_with_app. }
  split; [exact H1 |]. split.
  - intro E. unfold Fetch.yahoo_symbol. rewrite E. reflexivity.
  - unfold Fetch.yahoo_symbol at 1. rewrite H1. reflexivity.
Qed.

Lemma inject_Z_pos (z : Z) : (0 < z)%Z -> 0 < inject_Z z.
Proof. intro H. unfold Qlt. cbn. lia. Qed.

(** What the loop over [holdings_data] appends for a row. *)
Lemma holding_of_row_some (yf : string -> option Q) (row : Row RawHolding)
    (h : Holding) :
  Fetch.holding_of_row yf row = Got (Some h) ->
  exists r,
    row = DictRow r /\
    rh_tradingsymbol r = Some (symbol h) /\
    rh_quantity r = Valid (quantity h) /\
    (0 < quantity h)%Z /\
    0 < current_price h /\
    value h = inject_Z (quantity h) * current_price h /\
    unrealized_pnl h = (current_price h - avg_price h) * inject_Z (quantity h).
Proof.
  destruct row as [| r]; [discriminate |].
  intro E. exists r. split; [reflexivity |]. revert E.
  unfold Fetch.holding_of_row, required, optional, and_then, float_of_int.
  destruct (rh_tradingsymbol r) as [sym |]; [| discriminate].
  destruct (rh_quantity r) as [| | | qty]; try discriminate.
  destruct (Z.leb_spec qty 0) as [Hq | Hq]; [discriminate |].
  destruct (rh_average_price r) as [| | | avg]; try discriminate.
  destruct (rh_last_price r) as [| | | lp]; try discriminate;
    match goal with
    | |- context [py_gt ?p 0] => destruct (py_gt p 0) eqn:Hp; try discriminate
    end;
    apply py_gt_true in Hp;
    match goal with
    | |- context [Z.ltb ?a ?b] => destruct (Z.ltb a b); try discriminate
    end;
    destruct (rh_close_price r) as [| | | pc]; try discriminate;
    intro E; injection E as <-; cbn [symbol quantity current_price
      value unrealized_pnl avg_price]; repeat split;
      first [assumption | reflexivity].
Qed.

(** A holding that the loop appends is worth something. *)
Lemma holding_of_row_positive (yf : string -> option Q) (row : Row RawHolding)
    (h : Holding) :
  Fetch.holding_of_row yf row = Got (Some h) ->
  (0 < quantity h)%Z /\ 0 < current_price h /\
  value h = inject_Z (quantity h) * current_price h /\ 0 < value h.
Proof.
  intro E. apply holding_of_row_some in E.
  destruct E as (r & _ & _ & _ & Hq & Hp & Hv & _).
  repeat split; try assumption.
  rewrite Hv. apply Qmult_lt_0_compat; [apply inject_Z_pos, Hq | exact Hp].
Qed.

(** An unusable row ends the body by [continue] or in the loop's handler. *)
Lemma holding_of_row_unusable (yf : string -> option Q) (row : RawHolding) :
  unusable_holding row ->
  Fetch.holding_of_row yf (DictRow row) = Got None \/
  exists msg, Fetch.holding_of_row yf (DictRow row) = Caught msg.
Proof.
  intro Hu. unfold unusable_holding in Hu.
  unfold Fetch.holding_of_row, required, and_then.
  destruct (rh_tradingsymbol row) as [sym |];
    [| right; eexists; reflexivity].
  destruct Hu as [Hu | [Hu | [Hu | (q & Hu & Hle)]]]; [discriminate | | |];
    rewrite Hu.
  - right. eexists. reflexivity.
  - right. eexists. reflexivity.
  - left. destruct (Z.leb_spec q 0) as [_ | Hq]; [reflexivity | lia].
Qed.

Lemma py_sum_from (l : list Q) (a : Q) : fold_left Qplus l a == a + py_sum l.
Proof.
  unfold py_sum. revert a. induction l as [| x l IH]; intro a; cbn.
  - ring.
  - rewrite (IH (a + x)), (IH (0 + x)). ring.
Qed.

Lemma py_sum_cons (x : Q) (l : list Q) : py_sum (x :: l) == x + py_sum l.
Proof. unfold py_sum at 1. cbn. rewrite py_sum_from. ring. Qed.

(** The holdings of a completed loop are those its body appended. *)
Lemma process_holdings_in (yf : string -> option Q) (rows : list (Row RawHolding)) :
  forall holdings, Fetch.process_holdings yf rows = Ok holdings ->
  forall h, In h holdings ->
  exists row, In row rows /\ Fetch.holding_of_row yf row = Got (Some h).
Proof.
  induction rows as [| row rows IH]; intros holdings E h Hin.
  - injection E as <-. destruct Hin.
  - cbn [Fetch.process_holdings] in E.
    destruct (Fetch.holding_of_row yf row) as [[h0 |] | msg | msg] eqn:Erow;
      try discriminate.
    + destruct (Fetch.process_holdings yf rows) as [l |] eqn:El; [| discriminate].
      injection E as <-. destruct Hin as [<- | Hin].
      * exists row. split; [left; reflexivity | exact Erow].
      * destruct (IH l eq_refl h Hin) as (r & Hr & Er).
        exists r. split; [right; exact Hr | exact Er].
    + destruct (IH holdings E h Hin) as (r & Hr & Er).
      exists r. split; [right; exact Hr | exact Er].
    + destruct (IH holdings E h Hin) as (r & Hr & Er).
      exists r. split; [right; exact Hr | exact Er].
Qed.

(** X12. Every holding that the loop over the long-term holdings appends
    has a positive quantity, a positive price and the value quantity times
    price, so that the total value of the holdings of a completed loop is
    never negative and is positive as soon as there is one. *)
Theorem long_holdings_are_positive (yf : string -> option Q)
    (rows : list (Row RawHolding)) :
  (forall row h, In row rows -> Fetch.holding_of_row yf row = Got (Some h) ->
     (0 < quantity h)%Z /\ 0 < current_price h /\
     value h = inject_Z (quantity h) * current_price h /\ 0 < value h) /\
  (forall holdings, Fetch.process_holdings yf rows = Ok holdings ->
     (forall h, In h holdings ->
        (0 < quantity h)%Z /\ 0 < current_price h /\
        value h = inject_Z (quantity h) * current_price h /\ 0 < value h) /\
     0 <= py_sum (map value holdings) /\
     (holdings <> [] -> 0 < py_sum (map value holdings))).
Proof.
  split; [intros row h _; apply holding_of_row_positive |].
  intros holdings E.
  assert (Hall : forall h, In h holdings ->
     (0 < quantity h)%Z /\ 0 < current_price h /\
     value h = inject_Z (quantity h) * current_price h /\ 0 < value h).
  { intros h Hin. destruct (process_holdings_in yf rows holdings E h Hin)
      as (row & _ & Erow).
    exact (holding_of_row_positive yf row h Erow). }
  split; [exact Hall |].
  clear E. induction holdings as [| h l IH].
  - split; [cbn; lra | intro H; contradiction].
  - assert (Hh : 0 < value h) by (apply Hall; left; reflexivity).
    assert (Hl : 0 <= py_sum (map value l))
      by (apply IH; intros x Hx; apply Hall; right; exact Hx).
    cbn [map]. rewrite py_sum_cons. split; [lra | intros _; lra].
Qed.

(** One row of 10 shares at 110. *)
Lemma long_holdings_are_positive_witness :
  let rows := [DictRow (mkRawHolding (Some "INFY"%string) (Valid 10%Z) (Valid 100)
                          (Valid 110) Absent)] in
  exists holdings,
    Fetch.process_holdings (fun _ => None) rows = Ok holdings /\
    holdings <> [] /\
    0 < py_sum (map value holdings).
Proof.
  intro rows.
  destruct (Fetch.process_holdings (fun _ => None) rows) as [holdings | msg] eqn:E;
    [| vm_compute in E; discriminate].
  exists holdings.
  assert (Hne : holdings <> []).
  { vm_compute in E. injection E as <-. discriminate. }
  split; [reflexivity |]. split; [exact Hne |].
  destruct (long_holdings_are_positive (fun _ => None) rows) as (_ & H).
  destruct (H holdings E) as (_ & _ & Hpos).
  exact (Hpos Hne).
Defined.

(** X13. A dictionary without a symbol or without a usable positive
    quantity is passed over and costs nothing else: the loop over the
    long-term holdings, and the two loops together, end as if the row were
    not there. *)
Theorem unusable_row_is_skipped (yf : string -> option Q)
    (before after : list (Row RawHolding)) (row : RawHolding)
    (net_positions : list (Row RawPosition)) :
  unusable_holding row ->
  Fetch.process_holdings yf (before ++ DictRow row :: after)
    = Fetch.process_holdings yf (before ++ after) /\
  Fetch.process_reply yf (before ++ DictRow row :: after) net_positions
    = Fetch.process_reply yf (before ++ after) net_positions.
Proof.
  intro Hu.
  assert (H : Fetch.process_holdings yf (before ++ DictRow row :: after)
              = Fetch.process_holdings yf (before ++ after)).
  { induction before as [| r before IH].
    - cbn [app Fetch.process_holdings].
      destruct (holding_of_row_unusable yf row Hu) as [E | (msg & E)];
        rewrite E; reflexivity.
    - cbn [app Fetch.process_holdings]. rewrite IH. reflexivity. }
  split; [exact H |].
  unfold Fetch.process_reply. rewrite H. reflexivity.
Qed.

(** A row without a quantity between two good rows. *)
Lemma unusable_row_is_skipped_witness :
  let good s := DictRow (mkRawHolding (Some s) (Valid 10%Z) (Valid 100) (Valid 110) Absent) in
  let bad := mkRawHolding (Some "TCS"%string) Absent (Valid 100) (Valid 110) Absent in
  unusable_holding bad /\
  Fetch.process_holdings (fun _ => None)
    ([good "INFY"%string] ++ DictRow bad :: [good "WIPRO"%string])
  = Fetch.process_holdings (fun _ => None)
      ([good "INFY"%string] ++ [good "WIPRO"%string]) /\
  option_map (map symbol)
    (match Fetch.process_holdings (fun _ => None)
             ([good "INFY"%string] ++ [good "WIPRO"%string]) with
     | Ok l => Some l
     | Raise _ => None
     end) = Some ["INFY"; "WIPRO"]%string.
Proof.
  intros good bad.
  assert (Hu : unusable_holding bad) by (right; left; reflexivity).
  split; [exact Hu |].
  split; [| vm_compute; reflexivity].
  exact (proj1 (unusable_row_is_skipped (fun _ => None) [good "INFY"%string]
                  [good "WIPRO"%string] bad [] Hu)).
Defined.

(** What the loop over [net_positions] appends for a row. *)
Lemma position_of_row_some (yf : string -> option Q) (acc : list Holding)
    (row : Row RawPosition) (h : Holding) :
  Fetch.position_of_row yf acc row = Got (Some h) ->
  exists sym,
    symbol h = (sym ++ "*")%string /\
    quantity h <> 0%Z /\
    0 < current_price h /\
    value h = inject_Z (quantity h) * current_price h /\
    1000 < Qabs (value h) /\
    existsb (fun h' => String.eqb (symbol h') sym) acc = false.
Proof.
  destruct row as [| r]; [discriminate |].
  unfold Fetch.position_of_row, required, optional, and_then, float_of_int.
  destruct (rp_tradingsymbol r) as [sym |]; [| discriminate].
  destruct (rp_quantity r) as [| | | qty]; try discriminate.
  destruct (Z.eqb_spec qty 0) as [Hq | Hq]; [discriminate |].
  cbn [orb].
  destruct (existsb (fun h' => String.eqb (symbol h') sym) acc) eqn:Hdup;
    [discriminate |].
  destruct (rp_average_price r) as [| | | avg]; try discriminate.
  destruct (rp_last_price r) as [| | | lp]; try discriminate;
    match goal with
    | |- context [py_gt ?p 0] => destruct (py_gt p 0) eqn:Hp; try discriminate
    end;
    apply py_gt_true in Hp;
    match goal with
    | |- context [Z.ltb ?a ?b] => destruct (Z.ltb a b); try discriminate
    end;
    match goal with
    | |- context [py_gt ?v 1000] => destruct (py_gt v 1000) eqn:Hv; try discriminate
    end;
    apply py_gt_true in Hv;
    destruct (rp_day_change r); try discriminate;
    destruct (rp_day_change_percentage r); try discriminate;
    destruct (rp_pnl r); try discriminate;
    intro E; injection E as <-; exists sym;
    cbn [symbol quantity current_price value]; repeat split; assumption.
Qed.

Lemma process_positions_cases (yf : string -> option Q)
    (rows : list (Row RawPosition)) (base acc holdings : list Holding) :
  (forall x, In x base -> In x acc) ->
  Fetch.process_positions yf rows acc = Ok holdings ->
  forall h, In h holdings ->
    In h acc \/
    exists sym,
      symbol h = (sym ++ "*")%string /\
      quantity h <> 0%Z /\
      0 < current_price h /\
      value h = inject_Z (quantity h) * current_price h /\
      1000 < Qabs (value h) /\
      forall h', In h' base -> symbol h' <> sym.
Proof.
  revert acc. induction rows as [| row rows IH]; intros acc Hbase Erun h Hin.
  - injection Erun as <-. left. exact Hin.
  - cbn [Fetch.process_positions] in Erun.
    destruct (Fetch.position_of_row yf acc row) as [[h0 |] | msg | msg] eqn:E;
      try discriminate; try (apply (IH acc Hbase Erun h Hin)).
    destruct (IH (acc ++ [h0])
                (fun x Hx => in_or_app _ _ _ (or_introl (Hbase x Hx))) Erun h Hin)
      as [Hacc | Hstar]; [| right; exact Hstar].
    apply in_app_or in Hacc. destruct Hacc as [Hacc | [<- | []]];
      [left; exact Hacc |].
    right. apply position_of_row_some in E.
    destruct E as (sym & Hs & Hq & Hp & Hv & Habs & Hdup).
    exists sym. repeat split; try assumption.
    intros h' Hh' Heq.
    assert (Hex : existsb (fun x => String.eqb (symbol x) sym) acc = true).
    { apply existsb_exists. exists h'. split; [apply Hbase, Hh' |].
      apply String.eqb_eq, Heq. }
    congruence.
Qed.

Lemma process_positions_keeps (yf : string -> option Q)
    (rows : list (Row RawPosition)) (acc holdings : list Holding) :
  Fetch.process_positions yf rows acc = Ok holdings ->
  forall h, In h acc -> In h holdings.
Proof.
  revert acc. induction rows as [| row rows IH]; intros acc Erun h Hin.
  - injection Erun as <-. exact Hin.
  - cbn [Fetch.process_positions] in Erun.
    destruct (Fetch.position_of_row yf acc row) as [[h0 |] | msg | msg];
      try discriminate; try (apply (IH acc Erun h Hin)).
    apply (IH _ Erun). apply in_or_app. left. exact Hin.
Qed.

(** An element that is not a dictionary ends the loop. *)
Lemma process_holdings_not_a_dict (yf : string -> option Q)
    (rows : list (Row RawHolding)) :
  In NotADict rows -> exists msg, Fetch.process_holdings yf rows = Raise msg.
Proof.
  induction rows as [| row rows IH]; [intros [] |]. intros [E | Hin].
  - subst row. eexists. reflexivity.
  - destruct (IH Hin) as (msg & Hrest).
    cbn [Fetch.process_holdings]. rewrite Hrest.
    destruct (Fetch.holding_of_row yf row) as [[h |] | m | m]; eexists; reflexivity.
Qed.

(** X14. When the two loops over a reply complete, the list fetched is the
    one they built: it contains every long-term holding, and anything else
    in it is a day position, whose symbol is marked with a star and is not
    the symbol of a long-term holding, whose quantity is not zero, whose
    price is positive and whose value exceeds 1000 in absolute value.  When
    an exception leaves the loops, as it does for an element of
    [holdings_data] that is not a dictionary, the list fetched is the mock
    list instead. *)
Theorem day_positions_are_marked (yf : string -> option Q)
    (holdings_data : list (Row RawHolding)) (net_positions : list (Row RawPosition))
    (c : CPPIConfig) (a : option string) (env : Env) :
  let self := mkGovernor
                (Some (Fetch.session_of_reply yf (Fetch.Reply holdings_data net_positions)))
                c a in
  match Fetch.process_reply yf holdings_data net_positions with
  | Raise _ => Governor.fetch_live_holdings self env None = Governor._get_mock_holdings
  | Ok holdings =>
      Governor.fetch_live_holdings self env None = holdings /\
      exists long,
        Fetch.process_holdings yf holdings_data = Ok long /\
        (forall h, In h long -> In h holdings) /\
        (forall h, In h holdings ->
           In h long \/
           exists sym,
             symbol h = (sym ++ "*")%string /\
             quantity h <> 0%Z /\
             0 < current_price h /\
             value h = inject_Z (quantity h) * current_price h /\
             1000 < Qabs (value h) /\
             forall h', In h' long -> symbol h' <> sym)
  end /\
  (In NotADict holdings_data ->
   Governor.fetch_live_holdings self env None = Governor._get_mock_holdings).
Proof.
  intro self.
  assert (Hfetch : Governor.fetch_live_holdings self env None
                   = match Fetch.process_reply yf holdings_data net_positions with
                     | Ok holdings => holdings
                     | Raise _ => Governor._get_mock_holdings
                     end).
  { unfold Governor.fetch_live_holdings, Governor.session_in_use, self.
    cbn [truthy andb kite Fetch.session_of_reply].
    destruct (Fetch.process_reply yf holdings_data net_positions); reflexivity. }
  split.
  - rewrite Hfetch. unfold Fetch.process_reply.
    destruct (Fetch.process_holdings yf holdings_data) as [long | msg];
      [| reflexivity].
    destruct (Fetch.process_positions yf net_positions long) as [holdings | msg]
      eqn:E; [| reflexivity].
    split; [reflexivity |]. exists long. split; [reflexivity |]. split.
    + exact (process_positions_keeps yf net_positions long holdings E).
    + exact (process_positions_cases yf net_positions long long holdings
               (fun x Hx => Hx) E).
  - intro Hin. rewrite Hfetch. unfold Fetch.process_reply.
    destruct (process_holdings_not_a_dict yf holdings_data Hin) as (msg & E).
    rewrite E. reflexivity.
Qed.

Lemma process_holdings_unusable (yf : string -> option Q)
    (rows : list (Row RawHolding)) :
  (forall r, In r rows -> exists row, r = DictRow row /\ unusable_holding row) ->
  Fetch.process_holdings yf rows = Ok [].
Proof.
  induction rows as [| r rows IH]; intro H; [reflexivity |].
  cbn [Fetch.process_holdings].
  destruct (H r (or_introl eq_refl)) as (row & -> & Hu).
  rewrite IH by (intros x Hx; apply H; right; exact Hx).
  destruct (holding_of_row_unusable yf row Hu) as [E | (msg & E)];
    rewrite E; reflexivity.
Qed.

Lemma zone_of_empty_portfolio (peak_read : Q) :
  0 < peak_read ->
  CPPIEngine._calculate_drawdown 0 (py_max peak_read 0) == 1 /\
  CPPIEngine._determine_risk_zone
    (CPPIEngine._calculate_drawdown 0 (py_max peak_read 0)) = RED.
Proof.
  intro Hp. rewrite py_max_floor by lra.
  rewrite drawdown_positive_peak by exact Hp.
  assert (E : (peak_read - 0) / peak_read == 1) by (field; lra).
  split; [exact E |]. apply risk_zone_red. rewrite E. reflexivity.
Qed.

(** X15. A reply in which every row is a dictionary that the loop passes
    over (no symbol, no usable quantity, or a quantity of zero or less) is
    not an error and not replaced by the mock holdings: the portfolio is
    valued at 0 and, against any positive stored peak, a working audit
    reports RED with a drawdown of 100 percent. *)
Theorem unusable_reply_reports_red (yf : string -> option Q)
    (holdings_data : list (Row RawHolding)) (c : CPPIConfig) (a : option string)
    (env : Env) (w : World) :
  (forall r, In r holdings_data ->
     exists row, r = DictRow row /\ unusable_holding row) ->
  (forall s, fault env s = None) ->
  state_key_free (t_state env) (store w) ->
  event_key_free (t_event env) (store w) ->
  0 < CPPIEngine.stored_peak (store w) ->
  let self := mkGovernor (Some (Fetch.session_of_reply yf (Fetch.Reply holdings_data [])))
                c a in
  Governor.fetch_live_holdings self env None = [] /\
  exists w' d drawdown,
    Governor.audit_risk self env None w = (w', Ok d) /\
    dict_get "status" d = Some (PStr "RED") /\
    dict_get "total_value" d = Some (PNum 0) /\
    dict_get "drawdown_pct" d = Some (PNum drawdown) /\
    drawdown == 100 /\
    dict_get "holdings" d = Some (PDicts []).
Proof.
  intros Hu Hf Hsk Hek Hp self.
  assert (Hfetch : Governor.fetch_live_holdings self env None = []).
  { unfold Governor.fetch_live_holdings, Governor.session_in_use, self.
    cbn [truthy andb kite Fetch.session_of_reply].
    unfold Fetch.process_reply. rewrite (process_holdings_unusable yf _ Hu).
    reflexivity. }
  split; [exact Hfetch |].
  destruct (audit_body_run self env None w Hf Hsk Hek) as (w1 & _ & _ & Hrun).
  rewrite audit_risk_of_body, Hrun.
  assert (Htotal : audit_total self env None = 0)
    by (unfold audit_total; rewrite Hfetch; reflexivity).
  destruct (zone_of_empty_portfolio _ Hp) as (Hdd & Hzone).
  eexists. eexists. eexists. split; [reflexivity |].
  unfold Governor.response_of. cbn [dict_get String.eqb Ascii.eqb Bool.eqb].
  unfold audit_state. rewrite assess_zone, Htotal, Hzone, Hfetch.
  destruct (assess_fields (cppi self) 0
              (py_max (CPPIEngine.stored_peak (store w)) 0) (t_state env))
    as (Ht & _ & _).
  rewrite Ht.
  repeat (split; [reflexivity |]).
  split; [| reflexivity].
  assert (Hd : drawdown_pct (Governor.assess (cppi self) 0
                 (py_max (CPPIEngine.stored_peak (store w)) 0) (t_state env))
               = CPPIEngine._calculate_drawdown 0
                   (py_max (CPPIEngine.stored_peak (store w)) 0)).
  { unfold Governor.assess.
    destruct (CPPIEngine._calculate_cppi_allocation _ _ _ _). reflexivity. }
  rewrite Hd, Hdd. reflexivity.
Qed.

(** A reply of one row without a quantity, on a fresh database. *)
Lemma unusable_reply_reports_red_witness :
  let rows := [DictRow (mkRawHolding (Some "TCS"%string) Absent (Valid 100)
                          (Valid 110) Absent)] in
  (forall r, In r rows -> exists row, r = DictRow row /\ unusable_holding row) /\
  exists w' d,
    Governor.audit_risk
      (mkGovernor (Some (Fetch.session_of_reply (fun _ => None) (Fetch.Reply rows [])))
         default_config None) (calm_env 1) None fresh_world = (w', Ok d) /\
    dict_get "status" d = Some (PStr "RED").
Proof.
  intro rows.
  assert (Hu : forall r, In r rows ->
                 exists row, r = DictRow row /\ unusable_holding row).
  { intros r [<- | []]. eexists. split; [reflexivity |]. right. left. reflexivity. }
  split; [exact Hu |].
  assert (Hf : forall s, fault (calm_env 1) s = None) by reflexivity.
  assert (Hsk : state_key_free (t_state (calm_env 1)) (store fresh_world))
    by reflexivity.
  assert (Hek : event_key_free (t_event (calm_env 1)) (store fresh_world))
    by reflexivity.
  assert (Hp : 0 < CPPIEngine.stored_peak (store fresh_world)) by reflexivity.
  destruct (unusable_reply_reports_red (fun _ => None) rows default_config None
              (calm_env 1) fresh_world Hu Hf Hsk Hek Hp)
    as (_ & w' & d & dd & Hrun & Hs & _).
  exists w', d. split; assumption.
Defined.

(** ** Portfolio beta *)

Lemma beta_loop_raises (market : Market) (total : Q) (holdings : list Holding)
    (acc : Q) :
  (exists h msg, In h holdings /\
                 stock_beta market (symbol h ++ ".NS") = BetaRaises msg) ->
  exists msg, Health.beta_loop market total holdings acc = Raise msg.
Proof.
  revert acc. induction holdings as [| h l IH]; intros acc (h0 & msg & Hin & Hb).
  - destruct Hin.
  - cbn [Health.beta_loop].
    destruct (stock_beta market (symbol h ++ ".NS")) as [m | | b] eqn:E.
    + exists m. reflexivity.
    + apply IH. destruct Hin as [-> | Hin]; [congruence |].
      exists h0, msg. split; assumption.
    + apply IH. destruct Hin as [-> | Hin]; [congruence |].
      exists h0, msg. split; assumption.
Qed.

Lemma beta_loop_no_data (market : Market) (total : Q) (holdings : list Holding)
    (acc : Q) :
  (forall h, In h holdings -> stock_beta market (symbol h ++ ".NS") = BetaNoData) ->
  Health.beta_loop market total holdings acc = Ok acc.
Proof.
  revert acc. induction holdings as [| h l IH]; intros acc Hall; [reflexivity |].
  cbn [Health.beta_loop]. rewrite (Hall h (or_introl eq_refl)).
  apply IH. intros x Hx. apply Hall. right. exact Hx.
Qed.

(** X17. [get_portfolio_beta] has three fallbacks: a portfolio of total
    value 0 has beta 0; if a request for market data raises, for the index
    or for any holding, the answer is the market beta 1, whatever the other
    holdings; and if no holding has enough data the answer is 0. *)
Theorem beta_fallbacks (self : GovernorObj) (env : Env) (market : Market) :
  let holdings := Governor.fetch_live_holdings self env None in
  (py_sum (map value holdings) == 0 ->
     Health.get_portfolio_beta self env market = 0) /\
  (~ py_sum (map value holdings) == 0 ->
     (nifty_raises market <> None \/
      exists h msg, In h holdings /\
                    stock_beta market (symbol h ++ ".NS") = BetaRaises msg) ->
     Health.get_portfolio_beta self env market = 1) /\
  (~ py_sum (map value holdings) == 0 ->
     nifty_raises market = None ->
     (forall h, In h holdings -> stock_beta market (symbol h ++ ".NS") = BetaNoData) ->
     Health.get_portfolio_beta self env market = 0).
Proof.
  intro holdings. unfold Health.get_portfolio_beta. fold holdings.
  split; [| split].
  - intro E. apply Qeq_bool_iff in E. rewrite E. reflexivity.
  - intros Hne Hr.
    destruct (Qeq_bool (py_sum (map value holdings)) 0) eqn:E;
      [apply Qeq_bool_iff in E; contradiction |].
    destruct (nifty_raises market) as [m |]; [reflexivity |].
    destruct Hr as [Hr | Hr]; [contradiction |].
    destruct (beta_loop_raises market (py_sum (map value holdings)) holdings 0 Hr)
      as (msg & Hl).
    rewrite Hl. reflexivity.
  - intros Hne Hn Hall.
    destruct (Qeq_bool (py_sum (map value holdings)) 0) eqn:E;
      [apply Qeq_bool_iff in E; contradiction |].
    rewrite Hn, (beta_loop_no_data _ _ _ _ Hall). reflexivity.
Qed.

(** ** The health summary *)

(** X18. [get_health_summary] never takes its own error branch: it returns
    the six-entry summary after exactly the effects of one audit, with the
    status of that audit as [vault_health] and an emergency flag that is
    set exactly for RED.  When the audit itself failed, the summary shows
    ERROR with a portfolio value and a drawdown of 0, no emergency, and the
    time of the last audit that succeeded. *)
Theorem health_summary_flags (self self_later : GovernorObj) (env : Env)
    (market : Market) (w : World) :
  exists d status audit_result,
    Health.get_health_summary self self_later env market w
      = (fst (Governor.audit_risk self env None w), Ok d) /\
    snd (Governor.audit_risk self env None w) = Ok audit_result /\
    dict_get "status" audit_result = Some (PStr status) /\
    health_get "vault_health" d = Some (HPy (PStr status)) /\
    health_get "error" d = None /\
    health_get "emergency_action_required" d
      = Some (HBool (String.eqb status "RED")) /\
    (status = "ERROR"%string ->
       health_get "portfolio_value" d = Some (HPy (PInt 0)) /\
       health_get "drawdown" d = Some (HPy (PInt 0)) /\
       health_get "last_audit" d
         = Some (match last_audit_time w with
                 | Some t => HPy (PIso t)
                 | None => HNone
                 end)).
Proof.
  unfold Health.get_health_summary, try_except, bind.
  rewrite audit_risk_of_body.
  pose proof (audit_body_ends self env None w) as H.
  destruct (Governor.audit_body self env None w) as [w' [d | msg]]; cbn [fst snd].
  - destruct H as (Hla & ->).
    eexists. exists (zone_value (risk_zone (audit_state self env None w))). eexists.
    do 6 (split; [reflexivity |]).
    intro E. exfalso. exact (zone_value_not_error _ E).
  - eexists. exists "ERROR"%string. eexists.
    do 6 (split; [reflexivity |]).
    intros _. cbn. rewrite H. repeat split.
Qed.

(** ** The dashboard's colours *)

Lemma action_colors (zone : RiskZone) (equity : Q) :
  Dashboard.action_color (CPPIEngine._get_recommended_action zone equity)
    = match zone with YELLOW => "yellow" | _ => "red" end%string.
Proof.
  destruct zone; cbn [CPPIEngine._get_recommended_action];
    try destruct (py_gt (3 # 10) equity); vm_compute; reflexivity.
Qed.

(** X19. The dashboard never shows the governor's recommendation in green:
    the action taken from an audit result is coloured yellow exactly when
    the status is YELLOW and red otherwise, also for GREEN ("ALL CLEAR")
    and for a failed audit ("No action required"). *)
Theorem dashboard_action_never_green (self : GovernorObj) (env : Env)
    (access_token : option string) (w : World) :
  exists d action,
    snd (Governor.audit_risk self env access_token w) = Ok d /\
    dict_get "action" (Dashboard.risk_data_of d) = Some (PStr action) /\
    Dashboard.action_color action <> "green"%string /\
    (Dashboard.action_color action = "yellow"%string
       <-> dict_get "status" d = Some (PStr "YELLOW")) /\
    (Dashboard.action_color action = "red"%string
       <-> dict_get "status" d <> Some (PStr "YELLOW")).
Proof.
  rewrite audit_risk_of_body.
  pose proof (audit_body_ends self env access_token w) as H.
  destruct (Governor.audit_body self env access_token w) as [w' [d | msg]];
    cbn [fst snd].
  - destruct H as (_ & ->).
    set (state := audit_state self env access_token w).
    exists (Governor.response_of (cppi self) state
              (Governor.fetch_live_holdings self env access_token)).
    exists (recommended_action state).
    split; [reflexivity |]. split; [reflexivity |].
    unfold state, audit_state. rewrite assess_action, action_colors.
    cbn [Governor.response_of dict_get String.eqb Ascii.eqb Bool.eqb].
    destruct (risk_zone _); cbn [zone_value];
      repeat split; intros; try discriminate; try reflexivity; congruence.
  - exists (Governor.error_response env msg), "No action required"%string.
    split; [reflexivity |]. split; [reflexivity |].
    repeat split; intros; try discriminate; try (vm_compute; reflexivity).
Qed.


(** ** The route [/api/portfolio] *)

(** X21. The portfolio route answers 500 only when there is no governor.
    With a governor it always answers 200 with the dictionary of one audit
    (run with the cookie's token when there is one), also when that
    dictionary is the ERROR dictionary of a failed audit. *)
Theorem api_portfolio_status (governor : option GovernorObj) (env : Env)
    (cookie : option string) (w : World) :
  exists w' body code,
    SimpleWeb.api_portfolio governor env cookie w = (w', Ok (body, code)) /\
    (governor = None -> code = 500%Z /\ w' = w) /\
    (forall g, governor = Some g ->
       code = 200%Z /\
       (w', Ok body)
         = Governor.audit_risk g env (if truthy cookie then cookie else None) w /\
       dict_get "status" body <> None).
Proof.
  unfold SimpleWeb.api_portfolio, try_except.
  destruct governor as [g |].
  - assert (Hrun : forall token,
      exists w' d, Governor.audit_risk g env token w = (w', Ok d) /\
                   dict_get "status" d <> None).
    { intro token. rewrite audit_risk_of_body.
      pose proof (audit_body_ends g env token w) as H.
      destruct (Governor.audit_body g env token w) as [w' [d | msg]].
      - destruct H as (_ & ->). eexists. eexists. split; [reflexivity | discriminate].
      - eexists. eexists. split; [reflexivity | discriminate]. }
    destruct (truthy cookie).
    + destruct (Hrun cookie) as (w' & d & Hr & Hs).
      exists w', d, 200%Z. unfold bind. rewrite Hr.
      split; [reflexivity |]. split; [discriminate |].
      intros g' E. injection E as <-.
      split; [reflexivity | split; [symmetry; exact Hr | exact Hs]].
    + destruct (Hrun None) as (w' & d & Hr & Hs).
      exists w', d, 200%Z. unfold bind. rewrite Hr.
      split; [reflexivity |]. split; [discriminate |].
      intros g' E. injection E as <-.
      split; [reflexivity | split; [symmetry; exact Hr | exact Hs]].
  - eexists. eexists. eexists. split; [reflexivity |].
    split; [intros _; split; reflexivity | discriminate].
Qed.

(** ** The module-level audit *)

(** X22. The module-level [audit_risk] works on any database, also one
    whose peak table is still empty: it first seeds the table, and on a
    working store it returns an assessment whose peak is the peak stored
    afterwards, which is at least the peak read before, and it adds one row
    to the ledger. *)
Theorem module_audit_on_any_database (kite_session : option KiteSession)
    (now : Z) (env : Env) (w : World) :
  (forall s, fault env s = None) ->
  state_key_free (t_state env) (store w) ->
  event_key_free (t_event env) (store w) ->
  exists w' d row,
    Entry.audit_risk kite_session now env w = (w', Ok d) /\
    peak_tracker (store w') <> [] /\
    portfolio_state (store w') = portfolio_state (store w) ++ [row] /\
    dict_get "peak_value" d = Some (PNum (CPPIEngine.stored_peak (store w'))) /\
    CPPIEngine.stored_peak (store w) <= CPPIEngine.stored_peak (store w').
Proof.
  intros Hf Hsk Hek.
  unfold Entry.audit_risk, bind, Entry.new_governor.
  set (g := {| kite := kite_session; cppi := default_config; api_key := None |}).
  set (w1 := {| store := CPPIEngine._initialize_database now (store w);
                last_audit_time := None; writes := writes w |}).
  destruct (initialize_keeps now (store w)) as (Hne & Hpeak & Hst & Hev).
  change (CPPIEngine._initialize_database now (store w)) with (store w1)
    in Hne, Hpeak, Hst, Hev.
  assert (Hsk1 : state_key_free (t_state env) (store w1))
    by (unfold state_key_free in *; rewrite Hst; exact Hsk).
  assert (Hek1 : event_key_free (t_event env) (store w1))
    by (apply (event_key_free_rows _ (store w)); assumption).
  destruct (audit_records g env None w1 Hf Hsk1 Hek1 Hne)
    as (w' & d & row & Hrun & Hrows & _ & _ & _ & Hp & Hs).
  exists w', d, row. split; [exact Hrun |].
  destruct (audit_keeps_peak g env None w1) as (Hkeep & Hmono).
  rewrite Hrun in Hkeep, Hmono. cbn [fst] in Hkeep, Hmono.
  split; [apply Hkeep, Hne |].
  split; [rewrite Hrows, Hst; reflexivity |].
  split; [rewrite <- Hs; exact Hp |].
  rewrite <- Hpeak. exact Hmono.
Qed.

(** A first audit on a database file that has no rows at all. *)
Lemma module_audit_on_any_database_witness :
  let w0 := {| store := empty_db; last_audit_time := None; writes := [] |} in
  (forall s, fault (calm_env 1) s = None) /\
  state_key_free (t_state (calm_env 1)) (store w0) /\
  event_key_free (t_event (calm_env 1)) (store w0) /\
  exists w' d,
    Entry.audit_risk None 0 (calm_env 1) w0 = (w', Ok d) /\
    peak_tracker (store w') <> [].
Proof.
  intro w0.
  assert (Hf : forall s, fault (calm_env 1) s = None) by reflexivity.
  assert (Hsk : state_key_free (t_state (calm_env 1)) (store w0)) by reflexivity.
  assert (Hek : event_key_free (t_event (calm_env 1)) (store w0)) by reflexivity.
  repeat (split; [assumption |]).
  destruct (module_audit_on_any_database None 0 (calm_env 1) w0 Hf Hsk Hek)
    as (w' & d & row & Hrun & Hne & _).
  exists w', d. split; assumption.
Defined.

(** ** A negative total value *)



